(** * quantipy3: data-preparation tools

    A shallow embedding of [quantipy/core/tools/dp/prep.py]: the
    delimited-set codec ([condense_dichotomous_set],
    [join_delimited_set_series]), the recoder ([index_mapper],
    [recode_from_index_mapper], [recode]), the metadata merge
    ([_compatible_types], [merge_column_metadata], [merge_meta]), the
    dataset merges ([hmerge], [vmerge]), the walks through masks and sets
    ([get_columns_from_mask] and the like) and the smaller helpers
    ([frange], [split_series], [define_multicodes], [start_meta],
    [subset_dataset]).

    Conventions.
    - A pandas frame is a list of column names and a list of rows; rows are
      addressed by position, that is, frames carry the default
      [RangeIndex]; they are rectangular, with at least one column and
      with distinct column names.
    - A cell is an integer, a float (a rational), a string or the missing
      marker [NaN]; a Python [dict] is an association list in insertion
      order.
    - Exceptions are values of [exn]; [warnings.warn] appends to a log that
      is threaded through every call ([M]).  Progress output printed under
      [verbose] is not part of the model.
    - What the interpreter or a module outside [prep.py] computes and the
      code only calls (parsing a number, printing a float, evaluating a
      regular expression or a logic statement, [emulate_meta],
      [uniquify_list]) is a [Variable] of the section that uses it. *)

From Stdlib Require Import ZArith QArith Qround List String Ascii Bool Lia.
From Stdlib Require Import DecimalString DecimalZ DecimalPos DecimalFacts.
From Stdlib Require Import Sorting Permutation.
Import ListNotations.

Local Open Scope Z_scope.
Local Open Scope list_scope.
Local Open Scope string_scope.
#[local] Set Warnings "-register-all".

(** ** Python built-ins used by the module *)

Module Py.

(** [str(z)] for an int. *)
Definition str (z : Z) : string := NilEmpty.string_of_int (Z.to_int z).

(** [int(s)] for a string: digits after an optional minus sign.  The
    forms Python accepts beyond that (a plus sign, blanks, underscores)
    are not recognised. *)
Definition int (s : string) : option Z :=
  match s with
  | "" | "-" => None
  | _ => option_map Z.of_int (NilEmpty.int_of_string s)
  end.

(** [sep.join(l)]. *)
Definition join (sep : string) (l : list string) : string :=
  String.concat sep l.

(** [s.split(sep)] for a one-character separator. *)
Fixpoint split (sep : ascii) (s : string) : list string :=
  match s with
  | EmptyString => [""]
  | String c s' =>
      if Ascii.eqb c sep then "" :: split sep s'
      else match split sep s' with
           | [] => [String c ""]
           | w :: ws => String c w :: ws
           end
  end.

(** [s.replace(old, new)]: every non-overlapping occurrence, scanning
    from the left.  [skip] counts the characters of an occurrence still
    to be dropped. *)
Fixpoint replace_from (old new : string) (skip : nat) (s : string) : string :=
  match s with
  | EmptyString => ""
  | String c s' =>
      match skip with
      | S k => replace_from old new k s'
      | O =>
          if String.prefix old s
          then new ++ replace_from old new (String.length old - 1) s'
          else String c (replace_from old new 0 s')
      end
  end.

Definition replace (old new s : string) : string :=
  replace_from old new 0 s.

(** [x in l] for strings. *)
Definition mem (x : string) (l : list string) : bool :=
  existsb (String.eqb x) l.

(** [sorted(l, key=...)]: a stable sort, here by insertion. *)
Section Sorted.
Context {A : Type} (le : A -> A -> bool).

Fixpoint insert (x : A) (l : list A) : list A :=
  match l with
  | [] => [x]
  | y :: l' => if le x y then x :: l else y :: insert x l'
  end.

Fixpoint sorted (l : list A) : list A :=
  match l with
  | [] => []
  | x :: l' => insert x (sorted l')
  end.
End Sorted.

(** Order of [str] values: by code point, left to right. *)
Definition str_le (a b : string) : bool := String.leb a b.

(** [c.lower()] on one character and on a string. *)
Definition lower_ascii (c : ascii) : ascii :=
  let n := nat_of_ascii c in
  if andb (Nat.leb 65 n) (Nat.leb n 90) then ascii_of_nat (n + 32) else c.

Fixpoint lower (s : string) : string :=
  match s with
  | EmptyString => ""
  | String c s' => String (lower_ascii c) (lower s')
  end.

End Py.

(** ** Exceptions and the warning log *)

Inductive exn : Type :=
| TypeError (msg : string)
| ValueError (msg : string)
| KeyError (msg : string)
| AttributeError (msg : string)
| IndexError (msg : string)
| NameError (msg : string)
| RecursionError (msg : string).

Inductive result (A : Type) : Type :=
| Ok (a : A)
| Raise (e : exn).
Arguments Ok {A} a.
Arguments Raise {A} e.

(** A computation: the warnings issued so far and how it ended. *)
Definition M (A : Type) : Type := (list string * result A)%type.

Definition ret {A} (a : A) : M A := ([], Ok a).
Definition raise {A} (e : exn) : M A := ([], Raise e).
Definition warn (msg : string) : M unit := ([msg], Ok tt).

Definition bind {A B} (m : M A) (f : A -> M B) : M B :=
  match m with
  | (w, Raise e) => (w, Raise e)
  | (w, Ok a) => let (w', r) := f a in ((w ++ w')%list, r)
  end.

Notation "x <- m ;; k" := (bind m (fun x => k))
  (at level 61, m at next level, right associativity).
Notation "m ;;; k" := (bind m (fun _ => k))
  (at level 61, right associativity).

(** A loop whose body may raise: [for x in l: acc = body(acc, x)]. *)
Fixpoint foldM {A B} (body : B -> A -> M B) (acc : B) (l : list A) : M B :=
  match l with
  | [] => ret acc
  | x :: l' => acc' <- body acc x ;; foldM body acc' l'
  end.

Fixpoint mapM {A B} (f : A -> M B) (l : list A) : M (list B) :=
  match l with
  | [] => ret []
  | x :: l' => y <- f x ;; ys <- mapM f l' ;; ret (y :: ys)
  end.

(** ** Cells, series and frames *)

Inductive cell : Type :=
| CInt (z : Z)
| CFloat (q : Q)
| CStr (s : string)
| CNaN.

Record DataFrame : Type := mkDF {
  df_columns : list string;
  df_rows : list (list cell)
}.

(** [enumerate(l, start)]. *)
Fixpoint enumerate {A} (start : nat) (l : list A) : list (nat * A) :=
  match l with
  | [] => []
  | x :: l' => (start, x) :: enumerate (S start) l'
  end.

(** ** The delimited-set codec: [condense_dichotomous_set] *)

(** A cell of the frame after line 293: the [yes] or the [no] value, held
    as an int or as a float with that whole value. *)
Inductive dcell : Type :=
| DInt (z : Z)
| DFloat (z : Z).

Definition dvalue (c : dcell) : Z :=
  match c with DInt z | DFloat z => z end.

Definition is_dfloat (c : dcell) : bool :=
  match c with DFloat _ => true | DInt _ => false end.

(** [x == k] for a cell and an int, as Python compares them. *)
Definition cell_eq_int (x : cell) (k : Z) : bool :=
  match x with
  | CInt z => Z.eqb z k
  | CFloat q => Qeq_bool q (inject_Z k)
  | CStr _ => false
  | CNaN => false
  end.

(** Line 293: [lambda x: x if x in [yes, no] else no]. *)
Definition keep_yes_no (yes no : Z) (x : cell) : dcell :=
  if cell_eq_int x yes then
    match x with CFloat _ => DFloat yes | _ => DInt yes end
  else if cell_eq_int x no then
    match x with CFloat _ => DFloat no | _ => DInt no end
  else DInt no.

(** Line 295, [df.astype('str')].  [applymap] rebuilds each column from
    its new values, so a column holding a float is a float column and all
    its values print with a trailing [.0] (whole floats below 1e16 print
    that way); an all-int column prints plain integers. *)
Definition column_is_float (rows : list (list dcell)) (j : nat) : bool :=
  existsb (fun r => match nth_error r j with
                    | Some c => is_dfloat c
                    | None => false
                    end) rows.

Definition render (as_float : bool) (c : dcell) : string :=
  if orb as_float (is_dfloat c)
  then Py.str (dvalue c) ++ ".0"
  else Py.str (dvalue c).

Definition astype_str (rows : list (list dcell)) : list (list string) :=
  map (fun r => map (fun jc => render (column_is_float rows (fst jc)) (snd jc))
                    (enumerate 0 r)) rows.

(** [Series.replace(d)] on one value: a value that is a key of [d] becomes
    what [d] maps it to. *)
Fixpoint dict_replace (d : list (string * string)) (s : string) : string :=
  match d with
  | [] => s
  | (k, v) :: d' => if String.eqb s k then v else dict_replace d' s
  end.

(** What [re.match(values_regex, col)] gives: no match, or the groups of
    the match (a group that took no part in the match is [None]). *)
Inductive re_outcome : Type :=
| NoMatch
| Groups (gs : list (option string)).

(** The series [condense_dichotomous_set] returns: delimited-set strings,
    or floats when [sniff_single] applied. *)
Inductive condensed : Type :=
| Delimited (s : list (option string))
| AsFloat (f : list (option Q)).

Section Condense.

(** [re.match(pattern, s)], and [float(s)] on a string ([None] stands
    for the [ValueError]). *)
Variable re_match : string -> string -> re_outcome.
Variable py_float : string -> option Q.

(** Lines 296-309: the code of column [col], the [v]-th column. *)
Definition column_code (values_from_labels : bool)
    (values_regex : option string) (v : nat) (col : string) : M string :=
  if values_from_labels then
    match values_regex with
    | None => ret (last (Py.split "_" col) "")
    | Some re =>
        match re_match re col with
        | NoMatch =>
            raise (AttributeError
              ("Your values_regex may have failed to find a match"
               ++ " using re.match('" ++ re ++ "', '" ++ col ++ "')"))
        | Groups [] => raise (IndexError "tuple index out of range")
        | Groups (None :: _) =>
            raise (TypeError "int() argument must be a string, a bytes-like object or a number, not 'NoneType'")
        | Groups (Some g :: _) =>
            match Py.int g with
            | Some n => ret (Py.str n)
            | None =>
                raise (ValueError
                  ("invalid literal for int() with base 10: '" ++ g ++ "'"))
            end
        end
    end
  else ret (Py.str (Z.of_nat v)).

(** Lines 311-325: the two replacements made in the column whose code
    is [v]. *)
Definition replace_no (no : Z) : string -> string :=
  dict_replace [("nan", "nan"); (Py.str no ++ ".0", "nan"); (Py.str no, "nan")].

Definition replace_yes (yes : Z) (v : string) : string -> string :=
  dict_replace [(Py.str yes, v); (Py.str yes ++ ".0", v)].

Definition recode_cell (yes no : Z) (v : string) (s : string) : string :=
  replace_yes yes v (replace_no no s).

(** Lines 327-343: one row of [df_str] to its delimited-set string. *)
Definition concat_row (r : list string) : option string :=
  let s := Py.join ";" (filter (fun v => negb (String.eqb v "nan")) r) ++ ";" in
  if String.eqb s ";" then None else Some s.

(** Lines 292-343: the delimited-set series. *)
Definition condense_series (df : DataFrame) (values_from_labels : bool)
    (yes no : Z) (values_regex : option string) : M (list (option string)) :=
  let df1 := map (map (keep_yes_no yes no)) (df_rows df) in
  let df_str := astype_str df1 in
  codes <- mapM (fun vc => column_code values_from_labels values_regex
                             (fst vc) (snd vc))
                (enumerate 1 (df_columns df)) ;;
  ret (map (fun r => concat_row
              (map (fun vs => recode_cell yes no (fst vs) (snd vs))
                   (combine codes r)))
           df_str).

(** [df.sum(axis=1).max()] on the frame of line 293. *)
Definition row_sum (r : list dcell) : Z :=
  fold_right (fun c acc => dvalue c + acc) 0 r.

Definition max_row_sum (rows : list (list dcell)) : option Z :=
  match map row_sum rows with
  | [] => None
  | s :: ss => Some (fold_left Z.max ss s)
  end.

(** Line 351: [series.str.replace(';','').astype('float')].  The [.str]
    accessor exists on a series holding strings; an all-missing series
    is a float series and has none. *)
Definition sniffed (series : list (option string)) : M condensed :=
  if forallb (fun v => match v with None => true | Some _ => false end) series
  then raise (AttributeError "Can only use .str accessor with string values!")
  else
    f <- mapM (fun v =>
                 match v with
                 | None => ret None
                 | Some s =>
                     match py_float (Py.replace ";" "" s) with
                     | Some q => ret (Some q)
                     | None =>
                         raise (ValueError
                           ("could not convert string to float: '"
                            ++ Py.replace ";" "" s ++ "'"))
                     end
                 end) series ;;
    ret (AsFloat f).

Definition condense_dichotomous_set (df : DataFrame)
    (values_from_labels sniff_single : bool) (yes no : Z)
    (values_regex : option string) : M condensed :=
  let df1 := map (map (keep_yes_no yes no)) (df_rows df) in
  series <- condense_series df values_from_labels yes no values_regex ;;
  if Nat.eqb (List.length df1 * List.length (df_columns df)) 0 then
    (* No responses are known, return filled with NaN *)
    ret (Delimited series)
  else if andb sniff_single
               (match max_row_sum df1 with
                | Some m => Z.eqb m 1
                | None => false
                end)
  then sniffed series
  else ret (Delimited series).

End Condense.

(** ** Metadata documents *)

(** A text object: text key (locale) to label. *)
Definition text : Type := list (string * string).

(** One entry of a column's ['values']. *)
Record value_item : Type := mkValue {
  value : Z;
  vtext : text
}.

(** A column's ['values']: its own list, or a reference into the shared
    library (['lib@values@name']). *)
Inductive values_field : Type :=
| ValueList (l : list value_item)
| ValueRef (ref : string).

(** A value stored under ['properties']. *)
Inductive pyval : Type :=
| PBool (b : bool)
| PInt (z : Z)
| PStr (s : string).

Record Column : Type := mkColumn {
  column_name : string;
  column_type : string;
  column_text : text;
  column_values : option values_field;
  column_properties : option (list (string * pyval))
}.

(** An item of a mask; [mi_text] is [None] when the item has no usable
    ['text']. *)
Record MaskItem : Type := mkMaskItem {
  mi_source : string;
  mi_text : option text
}.

Record Mask : Type := mkMask {
  mask_text : text;
  mask_items : list MaskItem;
  mask_has_values : bool
}.

Record SetDef : Type := mkSet {
  set_items : list string
}.

Record Meta : Type := mkMeta {
  columns : list (string * Column);
  masks : list (string * Mask);
  sets : list (string * SetDef);
  lib_values : list (string * list value_item);
  default_text : string
}.

(** [d.get(k)] and [d[k] = v] on a dict kept in insertion order. *)
Fixpoint dict_get {V} (k : string) (d : list (string * V)) : option V :=
  match d with
  | [] => None
  | (k', v) :: d' => if String.eqb k k' then Some v else dict_get k d'
  end.

Fixpoint dict_set {V} (k : string) (v : V) (d : list (string * V)) : list (string * V) :=
  match d with
  | [] => [(k, v)]
  | (k', v') :: d' =>
      if String.eqb k k' then (k, v) :: d' else (k', v') :: dict_set k v d'
  end.

Definition dict_has {V} (k : string) (d : list (string * V)) : bool :=
  match dict_get k d with Some _ => true | None => false end.

(** [d[k]], raising [KeyError]. *)
Definition dict_item {V} (k : string) (d : list (string * V)) : M V :=
  match dict_get k d with
  | Some v => ret v
  | None => raise (KeyError k)
  end.

(** ** Series *)

(** A series with the dtype the code tests: [int64], [float64], or
    [object] holding strings and missing values. *)
Inductive Series : Type :=
| Int64 (v : list Z)
| Float64 (v : list (option Q))
| Object (v : list (option string)).

Definition opt_cell (v : option string) : cell :=
  match v with Some s => CStr s | None => CNaN end.

Definition cells_of (s : Series) : list cell :=
  match s with
  | Int64 v => map CInt v
  | Float64 v => map (fun x => match x with Some q => CFloat q | None => CNaN end) v
  | Object v => map opt_cell v
  end.

(** An operation on two series of one index, row by row. *)
Fixpoint zip_with {A B C} (f : A -> B -> C) (l1 : list A) (l2 : list B) : list C :=
  match l1, l2 with
  | a :: l1', b :: l2' => f a b :: zip_with f l1' l2'
  | _, _ => []
  end.

(** ** Joining two delimited-set series *)

(** [ds1 + ds2] on one row of two object series: pandas adds where both
    values are present and leaves a missing value elsewhere. *)
Definition add_str (a b : option string) : option string :=
  match a, b with
  | Some x, Some y => Some (x ++ y)
  | _, _ => None
  end.

(** [Series.update] on one row: the non-missing value of the argument
    wins. *)
Definition update_str (a b : option string) : option string :=
  match b with
  | Some _ => b
  | None => a
  end.

(** [.replace('', np.NaN)] on one row. *)
Definition blank_to_nan (v : option string) : option string :=
  match v with
  | Some "" => None
  | _ => v
  end.

(** Lines 805-844.  The frame [df] only carries the two series and the
    result: [df.fillna('')] changes [df], not [ds1] and [ds2], which line
    837 adds. *)
Definition join_delimited_set_series (ds1 ds2 : list (option string))
    (append : bool) : list (option string) :=
  let joined :=
    if append then zip_with add_str ds1 ds2
    else zip_with update_str ds1 ds2 in
  map blank_to_nan joined.

(** ** The recoder *)

(** [Series.str.get_dummies(';')]: the tags are the distinct non-empty
    tokens in string order, one 0/1 column each. *)
Definition tokens (v : option string) : list string :=
  match v with
  | Some s => Py.split ";" s
  | None => [""]
  end.

Fixpoint uniq (l : list string) : list string :=
  match l with
  | [] => []
  | x :: l' => x :: filter (fun y => negb (String.eqb x y)) (uniq l')
  end.

Definition get_dummies (series : list (option string)) : DataFrame :=
  let tags :=
    Py.sorted Py.str_le
      (filter (fun t => negb (String.eqb t "")) (uniq (flat_map tokens series))) in
  mkDF tags
       (map (fun v => map (fun t => if Py.mem t (tokens v) then CInt 1 else CInt 0) tags)
            series).

(** [float -> int] conversion: towards zero. *)
Definition Qtruncate (q : Q) : Z :=
  if Qle_bool 0 q then Qfloor q else Qceiling q.

Section Recode.

Variable re_match : string -> string -> re_outcome.
Variable py_float : string -> option Q.
(** [str(x)] for a float. *)
Variable float_str : Q -> string.

(** Lines 878-881: a numeric series becomes one of single-code
    delimited sets. *)
Definition as_delimited (series : Series) : list (option string) :=
  match series with
  | Int64 v => map (fun z => Some (Py.str z ++ ";")) v
  | Float64 v => map (option_map (fun q => float_str q ++ ";")) v
  | Object v => v
  end.

(** Lines 888-890: the 0/1 frame with a [1] at each key's rows. *)
Definition dichotomous_frame (n : nat) (cols : list string)
    (index_mapper : list (Z * list nat)) : DataFrame :=
  mkDF cols
    (map (fun i =>
            map (fun c =>
                   if existsb (fun ki => andb (String.eqb (Py.str (fst ki)) c)
                                              (existsb (Nat.eqb i) (snd ki)))
                              index_mapper
                   then CInt 1 else CInt 0) cols)
         (seq 0 n)).

(** [condense_dichotomous_set(ds)] with its default arguments; without
    [sniff_single] the result is a delimited series. *)
Definition condense_default (ds : DataFrame) : M (list (option string)) :=
  r <- condense_dichotomous_set re_match py_float ds true false 1 0 None ;;
  match r with
  | Delimited s => ret s
  | AsFloat _ => raise (TypeError "sniff_single was not requested")
  end.

(** Lines 899-906: the joined series, split, put in numeric order and
    condensed again.  [ds[cols]] takes, for each label of [cols], every
    column carrying it. *)
Definition renormalise (series : list (option string)) : M (list (option string)) :=
  let ds := get_dummies series in
  ints <- mapM (fun c => match py_float c with
                         | Some q => ret (Qtruncate q)
                         | None => raise (ValueError
                             ("could not convert string to float: '" ++ c ++ "'"))
                         end) (df_columns ds) ;;
  let cols := Py.sorted Z.leb ints in
  let picks :=
    flat_map (fun c => map (fun jc => (c, fst jc))
                           (filter (fun jc => Z.eqb c (snd jc)) (enumerate 0 ints)))
             cols in
  condense_default
    (mkDF (map (fun cj => Py.str (fst cj)) picks)
          (map (fun r => map (fun cj => nth (snd cj) r CNaN) picks) (df_rows ds))).

Definition set_at {A} (idx : list nat) (x : A) (l : list A) : list A :=
  map (fun ia => if existsb (Nat.eqb (fst ia)) idx then x else snd ia)
      (enumerate 0 l).

(** Lines 846-917.  [name] is [series.name]; rows are named by their
    position, an index beyond the series selects nothing. *)
Definition recode_from_index_mapper (meta : Meta) (name : string)
    (series : Series) (index_mapper : list (Z * list nat)) (append : bool)
    : M (list cell) :=
  col <- dict_item name (columns meta) ;;
  let qtype := column_type col in
  if String.eqb qtype "delimited set" then
    let series1 := as_delimited series in
    cols <- match index_mapper with
            | _ :: _ => ret (map Py.str (Py.sorted Z.leb (map fst index_mapper)))
            | [] =>
                match column_values col with
                | Some (ValueList vals) => ret (map (fun c => Py.str (value c)) vals)
                | Some (ValueRef _) =>
                    raise (TypeError "string indices must be integers")
                | None => raise (KeyError "values")
                end
            end ;;
    let ds := dichotomous_frame (List.length series1) cols index_mapper in
    ds2 <- condense_default ds ;;
    let joined := join_delimited_set_series series1 ds2 append in
    if forallb (fun v => match v with None => true | Some _ => false end) joined
    then
      warn ("Could not recode " ++ name ++ ", found empty data column dependency!") ;;;
      ret (map opt_cell joined)
    else
      s <- renormalise joined ;;
      ret (map opt_cell s)
  else if Py.mem qtype ["single"; "int"; "float"] then
    ret (fold_left (fun s ki => set_at (snd ki) (CInt (fst ki)) s)
                   index_mapper (cells_of series))
  else
    raise (TypeError ("Can't recode '" ++ name ++ "'. Recoding for '" ++ qtype
                      ++ "' columns is not yet supported.")).

End Recode.

(** ** Logic statements and [index_mapper] *)

(** The shapes of a logic statement the code tells apart: a bare list of
    codes, a dict keyed by column names ([None] can be a key), and the
    tuple (function, arguments) built by the helpers of
    [quantipy.core.tools.view.logic]. *)
Inductive logic : Type :=
| Codes (l : list Z)
| Dict (items : list (option string * logic))
| Func (fn : string) (args : list logic).

Definition is_dict (l : logic) : bool :=
  match l with Dict _ => true | _ => false end.

Definition is_dict_or_tuple (l : logic) : bool :=
  match l with Codes _ => false | _ => true end.

(** A frame whose columns are typed series. *)
Record Data : Type := mkData {
  data_nrows : nat;
  data_columns : list (string * Series)
}.

Definition shorthand_msg (key : Z) : string :=
  "'" ++ Py.str key ++ "' recode definition appears to be using "
  ++ "default-shorthand but no value for 'default'"
  ++ "was given.".

Section IndexMapper.

(** From [quantipy.core.tools.view.logic]: [has_any], [intersection]
    and [get_logic_index(series, logic, data)[0]]. *)
Variable has_any : list Z -> logic.
Variable intersection : list logic -> logic.
Variable get_logic_index : Data -> logic -> M (list nat).

(** Lines 761-771: without a default every value must be a dict or a
    tuple. *)
Definition check_keyed (kv : Z * logic) : M unit :=
  if is_dict_or_tuple (snd kv) then ret tt
  else raise (TypeError (shorthand_msg (fst kv))).

(** Lines 776-782. *)
Definition key_by_default (default : string) (kv : Z * logic) : Z * logic :=
  (fst kv,
   match snd kv with
   | Codes val => Dict [(Some default, has_any val)]
   | val => Dict [(Some default, val)]
   end).

(** Lines 786-791. *)
Definition add_intersection (default : option string) (intersect : logic)
    (kv : Z * logic) : Z * logic :=
  (fst kv,
   intersection [intersect;
                 if is_dict (snd kv) then snd kv else Dict [(default, snd kv)]]).

Definition index_mapper (meta : Meta) (data : Data) (mapper : list (Z * logic))
    (default : option string) (intersect : option logic)
    : M (list (Z * list nat)) :=
  keyed_mapper <-
    match default with
    | None => mapM check_keyed mapper ;;; ret mapper
    | Some d => ret (map (key_by_default d) mapper)
    end ;;
  let keyed_mapper :=
    match intersect with
    | Some i => map (add_intersection default i) keyed_mapper
    | None => keyed_mapper
    end in
  mapM (fun kl => idx <- get_logic_index data (snd kl) ;; ret (fst kl, idx))
       keyed_mapper.

End IndexMapper.

(** ** [recode] *)

(** The [initialize] argument when given: a column name or [np.NaN]. *)
Inductive initial : Type :=
| InitColumn (name : string)
| InitNaN.

Definition fill_cell (c : cell) (x : cell) : cell :=
  match x with CNaN => c | _ => x end.

Section RecodeCall.

Variable re_match : string -> string -> re_outcome.
Variable py_float : string -> option Q.
Variable float_str : Q -> string.
Variable has_any : list Z -> logic.
Variable intersection : list logic -> logic.
Variable get_logic_index : Data -> logic -> M (list nat).

Definition not_in_columns (name : string) : exn :=
  ValueError ("'" ++ name ++ "' not found in meta['columns'].").

Definition nan_series (data : Data) : Series :=
  Float64 (repeat None (data_nrows data)).

(** Lines 919-1058.  The [isinstance] checks on the arguments are
    settled by the types. *)
Definition recode (meta : Meta) (data : Data) (target : string)
    (mapper : list (Z * logic)) (default : option string) (append : bool)
    (intersect : option logic) (initialize : option initial)
    (fillna : option Z) : M (list cell) :=
  tcol <- match dict_get target (columns meta) with
          | Some c => ret c
          | None => raise (not_in_columns target)
          end ;;
  (if andb append (negb (String.eqb (column_type tcol) "delimited set"))
   then raise (TypeError "'{}' is not a delimited set, cannot append.")
   else ret tt) ;;;
  match default with
  | Some d => if dict_has d (columns meta) then ret tt
              else raise (not_in_columns d)
  | None => ret tt
  end ;;;
  match initialize with
  | Some (InitColumn i) => if dict_has i (columns meta) then ret tt
                           else raise (not_in_columns target)
  | _ => ret tt
  end ;;;
  index_map <- index_mapper has_any intersection get_logic_index
                 meta data mapper default intersect ;;
  series <-
    match initialize with
    | Some (InitColumn i) => dict_item i (data_columns data)
    | Some InitNaN => ret (nan_series data)
    | None =>
        match dict_get target (data_columns data) with
        | Some s => ret s
        | None => ret (nan_series data)
        end
    end ;;
  series <- recode_from_index_mapper re_match py_float float_str
              meta target series index_map append ;;
  match fillna with
  | None => ret series
  | Some f =>
      if String.eqb (column_type tcol) "single"
      then ret (map (fill_cell (CInt f)) series)
      else if String.eqb (column_type tcol) "delimited set"
      then ret (map (fill_cell (CStr (Py.str f ++ ";"))) series)
      else ret series
  end.

End RecodeCall.

(** ** Merging metadata *)

(** Lines 1060-1071. *)
Definition merge_text_meta (left_text right_text : text) (overwrite : bool) : text :=
  if overwrite then
    fold_left (fun l kv => dict_set (fst kv) (snd kv) l) right_text left_text
  else
    fold_left (fun l kv => if dict_has (fst kv) l then l
                           else dict_set (fst kv) (snd kv) l)
              right_text left_text.

(** Lines 1073-1089. *)
Definition merge_values_meta (left_values right_values : list value_item)
    (overwrite : bool) : list value_item :=
  fold_left
    (fun left val_right =>
       if existsb (fun val_left => Z.eqb (value val_left) (value val_right)) left
       then map (fun val_left =>
                   if Z.eqb (value val_left) (value val_right)
                   then mkValue (value val_left)
                          (merge_text_meta (vtext val_left) (vtext val_right) overwrite)
                   else val_left) left
       else (left ++ [val_right])%list)
    right_values left_values.

Definition all_types : list string :=
  ["array"; "int"; "float"; "single"; "delimited set"; "string";
   "date"; "time"; "boolean"].

Definition err_table : list (string * list string) :=
  [("array", all_types);
   ("int", ["float"; "delimited set"; "string"; "date"; "time"; "array"]);
   ("float", ["delimited set"; "string"; "date"; "time"; "array"]);
   ("single", all_types);
   ("delimited set", ["string"; "date"; "time"; "array"; "int"; "float"]);
   ("string", ["int"; "float"; "single"; "delimited set"; "date"; "time"; "array"]);
   ("date", ["int"; "float"; "single"; "delimited set"; "string"; "time"; "array"]);
   ("time", ["int"; "float"; "single"; "delimited set"; "string"; "time"; "array"])].

Definition warn_table : list (string * list string) :=
  [("int", ["single"]);
   ("float", ["int"; "single"]);
   ("delimited set", ["single"]);
   ("string", ["boolean"])].

(** [d.get(k, default)]. *)
Definition dict_get_default {V} (k : string) (d : list (string * V)) (default : V) : V :=
  match dict_get k d with Some v => v | None => default end.

Definition incompatible_msg (name l_type r_type : string) : string :=
  String "010" ("'" ++ name ++ "': Trying to merge incompatibe types: Found '"
    ++ l_type ++ "' in left " ++ "and '" ++ r_type ++ "' in right dataset.").

Definition inconsistent_msg (name l_type r_type : string) : string :=
  String "010" ("'" ++ name ++ "': Merge inconsistent types: Found '"
    ++ l_type ++ "' in left " ++ "and '" ++ r_type ++ "' in right dataset.").

Definition unlisted_msg (name l_type r_type : string) : string :=
  String "010" ("'" ++ name ++ "': Found '" ++ l_type ++ "' in left and '"
    ++ r_type ++ "' in right dataset.").

(** Lines 1107-1149. *)
Definition _compatible_types (left_column right_column : Column) : M unit :=
  let l_type := column_type left_column in
  let r_type := column_type right_column in
  if String.eqb l_type r_type then ret tt
  else if Py.mem r_type (dict_get_default l_type err_table all_types) then
    raise (TypeError (incompatible_msg (column_name left_column) l_type r_type))
  else if Py.mem r_type (dict_get_default l_type warn_table all_types) then
    warn (inconsistent_msg (column_name left_column) l_type r_type)
  else
    raise (TypeError (unlisted_msg (column_name left_column) l_type r_type)).

(** Lines 1091-1105.  Value lists are merged when both columns carry
    one; a reference in place of a list cannot be walked entry by entry
    (an empty left list would collect the characters of the reference
    instead). *)
Definition merge_column_metadata (left_column right_column : Column)
    (overwrite : bool) : M Column :=
  _compatible_types left_column right_column ;;;
  let new_text := merge_text_meta (column_text left_column) (column_text right_column) overwrite in
  new_values <-
    match column_values left_column, column_values right_column with
    | Some (ValueList l), Some (ValueList r) =>
        ret (Some (ValueList (merge_values_meta l r overwrite)))
    | Some (ValueRef ref), Some (ValueList []) => ret (Some (ValueRef ref))
    | Some _, Some _ => raise (TypeError "string indices must be integers")
    | lv, _ => ret lv
    end ;;
  ret (mkColumn (column_name left_column) (column_type left_column) new_text
                new_values (column_properties left_column)).

(** Lines 1151-1182, for one mask. *)
Definition update_item_text (overwrite : bool) (item old_item : MaskItem) : MaskItem :=
  match mi_text item, mi_text old_item with
  | Some t, Some ot =>
      mkMaskItem (mi_source old_item)
        (Some (fold_left (fun o kv => if orb (negb (dict_has (fst kv) o)) overwrite
                                      then dict_set (fst kv) (snd kv) o else o) t ot))
  | _, _ => old_item
  end.

Definition _update_mask_meta (left_meta right_meta : Meta) (mask : string)
    (overwrite : bool) : M Meta :=
  old <- dict_item mask (masks left_meta) ;;
  new <- dict_item mask (masks right_meta) ;;
  let old_text :=
    fold_left (fun o kv => if orb (negb (dict_has (fst kv) o)) overwrite
                           then dict_set (fst kv) (snd kv) o else o)
              (mask_text new) (mask_text old) in
  foldM
    (fun (lm : Meta) (item : MaskItem) =>
       old <- dict_item mask (masks lm) ;;
       if existsb (fun oi => String.eqb (mi_source oi) (mi_source item)) (mask_items old)
       then
         let items' := map (fun oi => if String.eqb (mi_source oi) (mi_source item)
                                      then update_item_text overwrite item oi else oi)
                           (mask_items old) in
         ret (mkMeta (columns lm)
                     (dict_set mask (mkMask (mask_text old) items' (mask_has_values old))
                               (masks lm))
                     (sets lm) (lib_values lm) (default_text lm))
       else
         let old' := mkMask (mask_text old) (mask_items old ++ [item])%list
                            (mask_has_values old) in
         s <- dict_item mask (sets lm) ;;
         ret (mkMeta (columns lm) (dict_set mask old' (masks lm))
                     (dict_set mask (mkSet (set_items s ++ [mi_source item])%list) (sets lm))
                     (lib_values lm) (default_text lm)))
    (mkMeta (columns left_meta)
            (dict_set mask (mkMask old_text (mask_items old) (mask_has_values old))
                      (masks left_meta))
            (sets left_meta) (lib_values left_meta) (default_text left_meta))
    (mask_items new).

(** [source, name = item.split('@')]. *)
Definition split_source (item : string) : M (string * string) :=
  match Py.split "@" item with
  | [source; name] => ret (source, name)
  | [_] => raise (ValueError "not enough values to unpack (expected 2, got 1)")
  | _ => raise (ValueError "too many values to unpack (expected 2)")
  end.

(** Equality of two text objects and of two value lists, as [==] on
    dicts and lists decides it. *)
Definition text_eqb (a b : text) : bool :=
  andb (Nat.eqb (List.length a) (List.length b))
       (forallb (fun kv => match dict_get (fst kv) b with
                           | Some v => String.eqb v (snd kv)
                           | None => false
                           end) a).

Fixpoint values_eqb (a b : list value_item) : bool :=
  match a, b with
  | [], [] => true
  | x :: a', y :: b' =>
      andb (andb (Z.eqb (value x) (value y)) (text_eqb (vtext x) (vtext y)))
           (values_eqb a' b')
  | _, _ => false
  end.

Section MergeMeta.

(** From [quantipy.core.helpers.functions] and
    [quantipy.core.tools.dp.query]. *)
Variable emulate_meta : Meta -> Column -> Column.
Variable uniquify_list : list string -> list string.

(** Lines 1200-1215: the columns named by the set, those of its masks
    included, and the masks; [mask_items] maps a column of a mask with
    values to the library reference. *)
Definition set_columns (meta_right : Meta) (items : list string)
    : M (list string * list string * list (string * string)) :=
  foldM
    (fun acc item =>
       let '(cols, masks_, mask_items_) := acc in
       sn <- split_source item ;;
       let (source, name) := sn in
       if String.eqb source "columns" then
         ret ((cols ++ [name])%list, masks_, mask_items_)
       else if String.eqb source "masks" then
         m <- dict_item name (masks meta_right) ;;
         foldM
           (fun acc2 (mi : MaskItem) =>
              let '(cols2, masks2, mask_items2) := acc2 in
              sn2 <- split_source (mi_source mi) ;;
              let (s, n) := sn2 in
              if String.eqb s "columns" then
                ret ((cols2 ++ [n])%list, masks2,
                     if mask_has_values m
                     then dict_set n ("lib@values@" ++ name) mask_items2
                     else mask_items2)
              else ret acc2)
           (cols, (masks_ ++ [name])%list, mask_items_)
           (mask_items m)
       else ret acc)
    ([], [], []) items.

(** Lines 1217-1225. *)
Definition merge_masks (meta_left meta_right : Meta) (masks_ : list string)
    (overwrite_text : bool) : M Meta :=
  foldM
    (fun lm mask =>
       if negb (dict_has mask (masks lm)) then
         m <- dict_item mask (masks meta_right) ;;
         ret (mkMeta (columns lm) (dict_set mask m (masks lm)) (sets lm)
                     (lib_values lm) (default_text lm))
       else _update_mask_meta lm meta_right mask overwrite_text)
    meta_left masks_.

(** Lines 1227-1233. *)
Definition merge_sets (meta_left meta_right : Meta) : Meta :=
  let new_sets := filter (fun k => negb (dict_has k (sets meta_left)))
                         (map fst (sets meta_right)) in
  fold_left
    (fun lm set_name =>
       match dict_get set_name (sets meta_right) with
       | Some s => mkMeta (columns lm) (masks lm) (dict_set set_name s (sets lm))
                          (lib_values lm) (default_text lm)
       | None => lm
       end)
    (Py.sorted Py.str_le new_sets) meta_left.

(** Lines 1235-1250. *)
Definition merge_lib_values (meta_left meta_right : Meta) : Meta :=
  fold_left
    (fun lm kv =>
       let (val, right_list) := (kv : string * list value_item) in
       match dict_get val (lib_values lm) with
       | None =>
           mkMeta (columns lm) (masks lm) (sets lm)
                  (dict_set val right_list (lib_values lm)) (default_text lm)
       | Some left_list =>
           if orb (String.eqb val "ddf") (values_eqb left_list right_list) then lm
           else
             let o_values := map value left_list in
             let added := filter (fun v => negb (existsb (Z.eqb (value v)) o_values))
                                 right_list in
             mkMeta (columns lm) (masks lm) (sets lm)
                    (dict_set val (left_list ++ added)%list (lib_values lm))
                    (default_text lm)
       end)
    (lib_values meta_right) meta_left.

(** Lines 1261-1293: the body of the loop over [cols]. *)
Definition merge_one_column (meta_right : Meta) (overwrite_text : bool)
    (mask_items_ : list (string * string))
    (acc : Meta * list string) (col_name : string) : M (Meta * list string) :=
  let (meta_left, col_updates) := acc in
  rc <- dict_item col_name (columns meta_right) ;;
  let props := match column_properties rc with Some p => p | None => [] end in
  let right_column := emulate_meta meta_right rc in
  merged <-
    match dict_get col_name (columns meta_left) with
    | Some lc =>
        let left_column := emulate_meta meta_left lc in
        c <- merge_column_metadata left_column right_column overwrite_text ;;
        ret (c, (col_updates ++ [col_name])%list)
    | None =>
        let p := match column_properties right_column with
                 | Some (kv :: p') => dict_set "merged" (PBool true) (kv :: p')
                 | _ => [("merged", PBool true)]
                 end in
        ret (mkColumn (column_name right_column) (column_type right_column)
                      (column_text right_column) (column_values right_column) (Some p),
             col_updates)
    end ;;
  let (c, col_updates') := (merged : Column * list string) in
  let c1 :=
    match column_properties c with
    | Some p =>
        mkColumn (column_name c) (column_type c) (column_text c) (column_values c)
          (Some (fold_left (fun d kv => dict_set (fst kv) (snd kv) d) props p))
    | None => c
    end in
  let c2 :=
    match dict_get col_name mask_items_ with
    | Some ref => mkColumn (column_name c1) (column_type c1) (column_text c1)
                           (Some (ValueRef ref)) (column_properties c1)
    | None => c1
    end in
  ret (mkMeta (dict_set col_name c2 (columns meta_left)) (masks meta_left)
              (sets meta_left) (lib_values meta_left) (default_text meta_left),
       col_updates').

(** Lines 1295-1297. *)
Definition append_data_file (meta_left : Meta) (items : list string) : M Meta :=
  foldM
    (fun lm item =>
       df <- dict_item "data file" (sets lm) ;;
       if Py.mem item (set_items df) then ret lm
       else ret (mkMeta (columns lm) (masks lm)
                        (dict_set "data file" (mkSet (set_items df ++ [item])%list)
                                  (sets lm))
                        (lib_values lm) (default_text lm)))
    meta_left items.

(** Lines 1185-1306.  The result is the triple the callers ask for
    with [get_cols] and [get_updates].  In the branch of line 1252,
    [cols] is what [list.sort] returns, which is [None]: the method
    sorts the list it is called on and returns nothing. *)
Definition merge_meta (meta_left meta_right : Meta) (from_set : option string)
    (overwrite_text : bool) : M (Meta * list string * list string) :=
  let from_set := match from_set with Some s => s | None => "data file" end in
  found <-
    match dict_get from_set (sets meta_right) with
    | Some the_set =>
        cmi <- set_columns meta_right (set_items the_set) ;;
        let '(cols, masks_, mask_items_) := cmi in
        let cols := uniquify_list cols in
        lm <- merge_masks meta_left meta_right masks_ overwrite_text ;;
        let lm := merge_sets lm meta_right in
        let lm := merge_lib_values lm meta_right in
        ret (lm, Some (cols, mask_items_))
    | None =>
        (* cols = list(meta_right['columns'].keys()).sort(key=str.lower) *)
        ret (meta_left, None)
    end ;;
  let (meta_left, cols) := (found : Meta * option (list string * list (string * string))) in
  match cols with
  | None => raise (TypeError "'NoneType' object is not iterable")
  | Some (cols, mask_items_) =>
      r <- foldM (merge_one_column meta_right overwrite_text mask_items_)
                 (meta_left, []) cols ;;
      let (lm, col_updates) := (r : Meta * list string) in
      the_set <- dict_item from_set (sets meta_right) ;;
      lm <- append_data_file lm (set_items the_set) ;;
      ret (lm, cols, col_updates)
  end.

End MergeMeta.

(** ** Frames: columns, keys and the left join *)

(** [a == b] on two cells as [isin] and [merge] match key values:
    numbers by value, missing with missing. *)
Definition cell_eqb (a b : cell) : bool :=
  match a, b with
  | CInt x, CInt y => Z.eqb x y
  | CInt x, CFloat q | CFloat q, CInt x => Qeq_bool q (inject_Z x)
  | CFloat p, CFloat q => Qeq_bool p q
  | CStr s, CStr t => String.eqb s t
  | CNaN, CNaN => true
  | _, _ => false
  end.

Definition is_nan (c : cell) : bool :=
  match c with CNaN => true | _ => false end.

(** The position of a column; [df[name]] raises [KeyError] without one. *)
Fixpoint index_of (name : string) (cols : list string) : option nat :=
  match cols with
  | [] => None
  | c :: cols' => if String.eqb name c then Some O
                  else option_map S (index_of name cols')
  end.

Definition column_position (name : string) (df : DataFrame) : M nat :=
  match index_of name (df_columns df) with
  | Some j => ret j
  | None => raise (KeyError name)
  end.

Definition get_cell (j : nat) (r : list cell) : cell := nth j r CNaN.

Definition column_cells (j : nat) (df : DataFrame) : list cell :=
  map (get_cell j) (df_rows df).

(** [df[names]]. *)
Definition select_columns (names : list string) (df : DataFrame) : M DataFrame :=
  js <- mapM (fun n => column_position n df) names ;;
  ret (mkDF names (map (fun r => map (fun j => get_cell j r) js) (df_rows df))).

(** [s.isin(values)] on one cell. *)
Definition isin (values : list cell) (c : cell) : bool :=
  existsb (cell_eqb c) values.

(** Replace the cell at position [j] of a row. *)
Fixpoint set_nth {A} (j : nat) (x : A) (l : list A) : list A :=
  match l, j with
  | [], _ => []
  | _ :: l', O => x :: l'
  | y :: l', S j' => y :: set_nth j' x l'
  end.

(** [left.merge(right, left_on=..., right_on=..., how='left')].  Every
    left row is kept, once per right row with the same key, in the order
    of the right frame, and once, filled with missing values, when there
    is none.  A key named alike on both sides gives one column; any other
    name found on both sides gets the suffixes [_x] and [_y]. *)
Definition merge_left (left right : DataFrame) (left_on right_on : string)
    : M DataFrame :=
  li <- column_position left_on left ;;
  ri <- column_position right_on right ;;
  let same := String.eqb left_on right_on in
  let kept := filter (fun jc => negb (andb same (Nat.eqb (fst jc) ri)))
                     (enumerate 0 (df_columns right)) in
  let rnames := map snd kept in
  let lnames' := map (fun n => if Py.mem n rnames then n ++ "_x" else n)
                     (df_columns left) in
  let rnames' := map (fun n => if Py.mem n (df_columns left) then n ++ "_y" else n)
                     rnames in
  let rows :=
    flat_map
      (fun l =>
         match filter (fun r => cell_eqb (get_cell ri r) (get_cell li l))
                      (df_rows right) with
         | [] => [(l ++ repeat CNaN (List.length kept))%list]
         | ms => map (fun r => (l ++ map (fun jc => get_cell (fst jc) r) kept)%list) ms
         end)
      (df_rows left) in
  ret (mkDF (lnames' ++ rnames')%list rows).

(** [df.rename(columns={old: new})] and [df.drop(name, axis=1)]. *)
Definition rename_column (old new : string) (df : DataFrame) : DataFrame :=
  mkDF (map (fun c => if String.eqb c old then new else c) (df_columns df))
       (df_rows df).

Definition drop_column (name : string) (df : DataFrame) : M DataFrame :=
  if Py.mem name (df_columns df) then
    let keep := filter (fun jc => negb (String.eqb (snd jc) name))
                       (enumerate 0 (df_columns df)) in
    ret (mkDF (map snd keep)
              (map (fun r => map (fun jc => get_cell (fst jc) r) keep) (df_rows df)))
  else raise (KeyError ("['" ++ name ++ "'] not found in axis")).

Fixpoint has_dup (l : list cell) : bool :=
  match l with
  | [] => false
  | x :: l' => orb (existsb (cell_eqb x) l') (has_dup l')
  end.

(** ** [hmerge] *)

(** [merge_existing]: ['all'] or a list of column names. *)
Inductive existing : Type :=
| MergeAll
| MergeColumns (names : list string).

(** Lines 1472-1483, on the text [x]. *)
Definition _merge_delimited_sets (x : string) : option string :=
  let x := Py.replace "nan" "" x in
  let codes := uniq (filter (fun c => negb (String.eqb c "")) (Py.split ";" x)) in
  match codes with
  | [] => None
  | _ => Some (Py.join ";" (Py.sorted Py.str_le codes) ++ ";")
  end.

(** Lines 1485-1496. *)
Definition merge_keys (on left_on right_on : option string) : M (string * string) :=
  match on, left_on, right_on with
  | None, None, None =>
      raise (TypeError ("You must provide a column name for either 'on' or "
                        ++ "both 'left_on' AND 'right_on'"))
  | Some k, None, None => ret (k, k)
  | Some _, _, _ =>
      raise (ValueError ("You cannot provide a value for both 'on' and either/"
                         ++ "both 'left_on'/'right_on'."))
  | None, Some l, Some r => ret (l, r)
  | None, _, _ =>
      raise (TypeError ("You must provide a column name for both 'left_on' "
                        ++ "AND 'right_on'"))
  end.

(** [list.remove(x)]. *)
Fixpoint list_remove (x : string) (l : list string) : option (list string) :=
  match l with
  | [] => None
  | y :: l' => if String.eqb x y then Some l'
               else option_map (cons y) (list_remove x l')
  end.

Section Merges.

Variable emulate_meta : Meta -> Column -> Column.
Variable uniquify_list : list string -> list string.
Variable float_str : Q -> string.

(** [str(x)] for a cell. *)
Definition cell_str (c : cell) : string :=
  match c with
  | CInt z => Py.str z
  | CFloat q => float_str q
  | CStr s => s
  | CNaN => "nan"
  end.

(** Lines 1505-1506. *)
Definition slice_right (data_left data_right : DataFrame)
    (left_on right_on : string) : M DataFrame :=
  rj <- column_position right_on data_right ;;
  lj <- column_position left_on data_left ;;
  ret (mkDF (df_columns data_right)
            (filter (fun r => isin (column_cells lj data_left) (get_cell rj r))
                    (df_rows data_right))).

(** Lines 1530-1555: the columns found on both sides.  Rows are paired
    through the key, which the left frame is taken to hold without a
    duplicate; pandas refuses to align on a duplicated right key.  The
    cast back to the dtype of the left column (line 1555) leaves the
    cells as they are. *)
Definition update_known_columns (meta_left : Meta) (data_left data_right : DataFrame)
    (left_on right_on : string) (col_updates : list string)
    (update_right_on : bool) (merge_existing : option existing) : M DataFrame :=
  li <- column_position left_on data_left ;;
  (if Py.mem left_on col_updates
   then raise (KeyError ("['" ++ left_on ++ "'] not in index"))
   else ret tt) ;;;
  ljs <- mapM (fun c => column_position c data_left) col_updates ;;
  ri <- column_position right_on data_right ;;
  (if andb (Py.mem right_on col_updates) (negb update_right_on)
   then raise (KeyError ("['" ++ right_on ++ "'] not in index"))
   else ret tt) ;;;
  rjs <- mapM (fun c => column_position c data_right) col_updates ;;
  types <- mapM (fun c => col <- dict_item c (columns meta_left) ;;
                          ret (column_type col)) col_updates ;;
  (if has_dup (column_cells ri data_right)
   then raise (ValueError "cannot reindex from a duplicate axis")
   else ret tt) ;;;
  let match_of (l : list cell) : option (list cell) :=
    find (fun r => cell_eqb (get_cell ri r) (get_cell li l)) (df_rows data_right) in
  let update_row (l : list cell) : list cell :=
    fold_left
      (fun row c =>
         let '(col, lj, rj, ty) := (c : string * nat * nat * string) in
         let right_value :=
           match match_of l with Some r => get_cell rj r | None => CNaN end in
         let merged :=
           opt_cell (_merge_delimited_sets
                       (cell_str (get_cell lj l) ++ cell_str right_value)) in
         if negb (String.eqb ty "delimited set") then
           if is_nan right_value then row else set_nth lj right_value row
         else
           match merge_existing with
           | Some MergeAll => set_nth lj merged row
           | Some (MergeColumns names) =>
               if Py.mem col names then set_nth lj merged row else row
           | None => row
           end)
      (combine (combine (combine col_updates ljs) rjs) types) l in
  ret (mkDF (df_columns data_left) (map update_row (df_rows data_left))).

(** Lines 1557-1575. *)
Definition append_new_columns (data_left data_right : DataFrame)
    (left_on right_on : string) (cols col_updates : list string)
    (update_right_on : bool) : M DataFrame :=
  let new_cols := filter (fun c => negb (Py.mem c col_updates)) cols in
  let new_cols := if update_right_on then (new_cols ++ [right_on])%list else new_cols in
  right <- select_columns new_cols data_right ;;
  merged <- merge_left data_left right left_on right_on ;;
  if update_right_on then
    drop_column (right_on ++ "_y")
      (rename_column (right_on ++ "_x") right_on merged)
  else ret merged.

(** Lines 1502-1580: one dataset of [dataset_right]. *)
Definition hmerge_one (left_on right_on : string) (overwrite_text : bool)
    (from_set : option string) (merge_existing : option existing)
    (left : Meta * DataFrame) (ds_right : Meta * DataFrame) : M (Meta * DataFrame) :=
  let (meta_left, data_left) := left in
  let (meta_right, data_right) := ds_right in
  data_right <- slice_right data_left data_right left_on right_on ;;
  mm <- merge_meta emulate_meta uniquify_list meta_left meta_right from_set
          overwrite_text ;;
  let '(meta_left, cols, col_updates) := mm in
  col_updates <-
    (if String.eqb left_on right_on then
       match list_remove left_on col_updates with
       | Some l => ret l
       | None => raise (ValueError "list.remove(x): x not in list")
       end
     else ret col_updates) ;;
  let update_right_on :=
    andb (negb (String.eqb left_on right_on)) (Py.mem right_on col_updates) in
  data_left <-
    match col_updates with
    | [] => ret data_left
    | _ => update_known_columns meta_left data_left data_right left_on right_on
             col_updates update_right_on merge_existing
    end ;;
  data_left <- append_new_columns data_left data_right left_on right_on
                 cols col_updates update_right_on ;;
  ret (meta_left, data_left).

(** Lines 1430-1582, the whole call; [dataset_right] is the list of right datasets (a
    single tuple is the list holding it). *)
Definition hmerge (dataset_left : Meta * DataFrame)
    (dataset_right : list (Meta * DataFrame))
    (on left_on right_on : option string) (overwrite_text : bool)
    (from_set : option string) (merge_existing : option existing)
    : M (Meta * DataFrame) :=
  keys <- merge_keys on left_on right_on ;;
  let (left_on, right_on) := (keys : string * string) in
  foldM (hmerge_one left_on right_on overwrite_text from_set merge_existing)
        dataset_left dataset_right.

(** ** [vmerge] *)

(** Lines 1308-1348: the columns a set or a mask names, through the
    masks and sets it refers to.  [depth] is the depth of calls the
    interpreter still allows. *)
Fixpoint columns_from (depth : nat) (meta : Meta) (of_mask : bool) (name : string)
    : M (list string) :=
  match depth with
  | O => raise (RecursionError "maximum recursion depth exceeded")
  | S depth' =>
      sources <-
        (if of_mask then
           m <- dict_item name (masks meta) ;; ret (map mi_source (mask_items m))
         else
           s <- dict_item name (sets meta) ;; ret (set_items s)) ;;
      cols <-
        foldM
          (fun cols item =>
             sn <- split_source item ;;
             let (source, n) := sn in
             if String.eqb source "columns" then ret (cols ++ [n])%list
             else if String.eqb source "masks" then
               more <- columns_from depth' meta true n ;; ret (cols ++ more)%list
             else if String.eqb source "sets" then
               more <- columns_from depth' meta false n ;; ret (cols ++ more)%list
             else raise (KeyError ("Unsupported meta-mapping: " ++ item)))
          [] sources ;;
      ret (if of_mask then cols else uniquify_list cols)
  end.

Definition recursion_limit : nat := 1000.

Definition get_columns_from_mask (meta : Meta) (mask_name : string) : M (list string) :=
  columns_from recursion_limit meta true mask_name.

Definition get_columns_from_set (meta : Meta) (set_name : string) : M (list string) :=
  columns_from recursion_limit meta false set_name.

(** A row id: an int, a float or a string. *)
Inductive row_id : Type :=
| IdInt (z : Z)
| IdFloat (q : Q)
| IdStr (s : string).

Definition id_cell (i : row_id) : cell :=
  match i with
  | IdInt z => CInt z
  | IdFloat q => CFloat q
  | IdStr s => CStr s
  end.

Definition id_is_int (i : option row_id) : bool :=
  match i with Some (IdInt _) => true | _ => false end.

Definition id_is_float (i : option row_id) : bool :=
  match i with Some (IdFloat _) => true | _ => false end.

(** [float(i)] and [str(i)] for an id that may be [None]. *)
Definition id_float (i : option row_id) : M row_id :=
  match i with
  | Some (IdInt z) => ret (IdFloat (inject_Z z))
  | Some (IdFloat q) => ret (IdFloat q)
  | _ => raise (TypeError "float() argument must be a string or a number")
  end.

Definition id_str (i : option row_id) : row_id :=
  match i with
  | Some (IdInt z) => IdStr (Py.str z)
  | Some (IdFloat q) => IdStr (float_str q)
  | Some (IdStr s) => IdStr s
  | None => IdStr "None"
  end.

(** [df[name] = c]: the column is overwritten, or added last. *)
Definition assign_column (name : string) (c : cell) (df : DataFrame) : DataFrame :=
  match index_of name (df_columns df) with
  | Some j => mkDF (df_columns df) (map (set_nth j c) (df_rows df))
  | None => mkDF (df_columns df ++ [name])%list
                 (map (fun r => (r ++ [c])%list) (df_rows df))
  end.

(** Lines 1683-1698: are rows appended blindly, and on which keys
    otherwise. *)
Definition vmerge_keys (on left_on right_on : option string)
    : M (option (string * string)) :=
  match on, left_on, right_on with
  | None, None, None => ret None
  | None, Some l, Some r => ret (Some (l, r))
  | None, _, _ =>
      raise (ValueError ("You may not provide a value for only one of"
                         ++ "'left_on'/'right_on'."))
  | Some k, None, None => ret (Some (k, k))
  | Some _, _, _ =>
      raise (ValueError ("You cannot provide a value for both 'on' and either/"
                         ++ "both 'left_on'/'right_on'."))
  end.

(** Lines 1722-1777: the row id column. *)
Definition add_row_ids (row_id_name : string) (left_id right_id : option row_id)
    (meta_left meta_right : Meta) (data_left data_right : DataFrame)
    : M (Meta * DataFrame * DataFrame) :=
  (match left_id, right_id with
   | None, None =>
       raise (TypeError ("When indicating a 'row_id_name' you must also"
                         ++ " provide either 'left_id' or 'right_id'."))
   | _, _ => ret tt
   end) ;;;
  r <-
    (if dict_has row_id_name (columns meta_left) then ret (meta_left, left_id, right_id)
     else
       ids <-
         (if andb (id_is_int left_id) (id_is_int right_id)
          then ret ("int", left_id, right_id)
          else if andb (orb (id_is_int left_id) (id_is_float left_id))
                       (orb (id_is_int right_id) (id_is_float right_id))
          then l <- id_float left_id ;; r <- id_float right_id ;;
               ret ("float", Some l, Some r)
          else ret ("str", Some (id_str left_id), Some (id_str right_id))) ;;
       let '(id_type, left_id, right_id) := ids in
       let column :=
         mkColumn row_id_name id_type
           (dict_set (default_text meta_right) "vmerge row id"
                     [(default_text meta_left, "vmerge row id")])
           None None in
       let id_mapper := "columns@" ++ row_id_name in
       data_file <- dict_item "data file" (sets meta_left) ;;
       let sets' :=
         if Py.mem id_mapper (set_items data_file) then sets meta_left
         else dict_set "data file" (mkSet (set_items data_file ++ [id_mapper])%list)
                       (sets meta_left) in
       ret (mkMeta (dict_set row_id_name column (columns meta_left))
                   (masks meta_left) sets' (lib_values meta_left)
                   (default_text meta_left),
            left_id, right_id)) ;;
  let '(meta_left, left_id, right_id) := r in
  data_left <-
    match left_id with
    | Some i =>
        if Py.mem row_id_name (df_columns data_left)
        then raise (AttributeError "'DataFrame' object has no attribute 'ix'")
        else ret (assign_column row_id_name (id_cell i) data_left)
    | None => ret data_left
    end ;;
  let data_right :=
    match right_id with
    | Some i => assign_column row_id_name (id_cell i) data_right
    | None => data_right
    end in
  ret (meta_left, data_left, data_right).

(** Lines 1791-1793. *)
Definition vmerge_slice (data_left data_right : DataFrame)
    (left_on right_on : string) : M DataFrame :=
  rj <- column_position left_on data_right ;;
  lj <- column_position right_on data_left ;;
  ret (mkDF (df_columns data_right)
            (filter (fun r => negb (isin (column_cells lj data_left) (get_cell rj r)))
                    (df_rows data_right))).

(** Line 1800: [str(int(x)) + ';' if not np.isnan(x) else np.NaN]. *)
Definition as_set_cell (x : cell) : M cell :=
  match x with
  | CNaN => ret CNaN
  | CInt z => ret (CStr (Py.str z ++ ";"))
  | CFloat q => ret (CStr (Py.str (Qtruncate q) ++ ";"))
  | CStr _ => raise (TypeError "ufunc 'isnan' not supported for the input types")
  end.

(** Lines 1795-1800. *)
Definition upcast_sets (meta_left meta_right : Meta) (data_right : DataFrame)
    : M DataFrame :=
  foldM
    (fun df jc =>
       let (j, col) := (jc : nat * string) in
       let left_type := option_map column_type (dict_get col (columns meta_left)) in
       match left_type with
       | Some "delimited set" =>
           rc <- dict_item col (columns meta_right) ;;
           if String.eqb (column_type rc) "delimited set" then ret df
           else
             rows <- mapM (fun r => c <- as_set_cell (get_cell j r) ;;
                                    ret (set_nth j c r)) (df_rows df) ;;
             ret (mkDF (df_columns df) rows)
       | _ => ret df
       end)
    data_right (enumerate 0 (df_columns data_right)).

(** Lines 1802-1814: [pd.concat] followed by the choice of columns; a
    frame without the column gives missing values. *)
Definition concat_rows (data_left data_right : DataFrame) (col_slicer : list string)
    : M DataFrame :=
  let pick (df : DataFrame) (c : string) (r : list cell) : cell :=
    match index_of c (df_columns df) with
    | Some j => get_cell j r
    | None => CNaN
    end in
  mapM (fun c => if orb (Py.mem c (df_columns data_left))
                        (Py.mem c (df_columns data_right))
                 then ret tt else raise (KeyError c)) col_slicer ;;;
  ret (mkDF col_slicer
         (map (fun r => map (fun c => pick data_left c r) col_slicer)
              (df_rows data_left)
          ++ map (fun r => map (fun c => pick data_right c r) col_slicer)
                 (df_rows data_right))%list).

(** Lines 1683-1822: the merge of two datasets. *)
Definition vmerge_pair (dataset_left dataset_right : option (Meta * DataFrame))
    (on left_on right_on : option string) (row_id_name : option string)
    (left_id right_id : option row_id) (overwrite_text : bool) (from_set : string)
    : M (Meta * DataFrame) :=
  keys <- vmerge_keys on left_on right_on ;;
  left <- match dataset_left with
          | Some d => ret d
          | None => raise (TypeError "'NoneType' object is not subscriptable")
          end ;;
  let (meta_left, data_left) := (left : Meta * DataFrame) in
  match keys with
  | Some (left_on, _) =>
      if negb (Py.mem left_on (df_columns data_left))
      then raise (KeyError ("'" ++ left_on ++ "' not found in the left data."))
      else if negb (dict_has left_on (columns meta_left))
      then raise (KeyError ("'" ++ left_on ++ "' not found in the left meta."))
      else ret tt
  | None => ret tt
  end ;;;
  right <- match dataset_right with
           | Some d => ret d
           | None => raise (TypeError "'NoneType' object is not subscriptable")
           end ;;
  let (meta_right, data_right) := (right : Meta * DataFrame) in
  match keys with
  | Some (_, right_on) =>
      if negb (Py.mem right_on (df_columns data_left))
      then raise (KeyError ("'" ++ right_on ++ "' not found in the right data."))
      else if negb (dict_has right_on (columns meta_left))
      then raise (KeyError ("'" ++ right_on ++ "' not found in the right meta."))
      else ret tt
  | None => ret tt
  end ;;;
  ids <- match row_id_name with
         | Some n => add_row_ids n left_id right_id meta_left meta_right
                                 data_left data_right
         | None => ret (meta_left, data_left, data_right)
         end ;;
  let '(meta_left, data_left, data_right) := ids in
  mm <- merge_meta emulate_meta uniquify_list meta_left meta_right (Some from_set)
          overwrite_text ;;
  let '(meta_left, cols, col_updates) := mm in
  data_right <- match keys with
                | Some (left_on, right_on) =>
                    vmerge_slice data_left data_right left_on right_on
                | None => ret data_right
                end ;;
  data_right <- upcast_sets meta_left meta_right data_right ;;
  let cols_left := df_columns data_left in
  set_cols <- get_columns_from_set meta_right from_set ;;
  let col_slicer :=
    (cols_left ++ filter (fun c => negb (Py.mem c cols_left)) set_cols)%list in
  vdata <- concat_rows data_left data_right col_slicer ;;
  ret (meta_left, vdata).

(** Lines 1584-1681.  With [datasets] the merge is made pair by pair,
    the result so far on the left. *)
Definition vmerge (dataset_left dataset_right : option (Meta * DataFrame))
    (datasets : option (list (Meta * DataFrame)))
    (on left_on right_on : option string) (row_id_name : option string)
    (left_id right_id : option row_id) (row_ids : list row_id)
    (overwrite_text : bool) (from_set : option string) : M (Meta * DataFrame) :=
  let from_set := match from_set with Some s => s | None => "data file" end in
  match datasets with
  | None =>
      vmerge_pair dataset_left dataset_right on left_on right_on row_id_name
                  left_id right_id overwrite_text from_set
  | Some [] => raise (ValueError "'datasets' must be a populated list.")
  | Some [_] =>
      raise (NameError "local variable 'meta_vm' referenced before assignment")
  | Some (first :: rest) =>
      let left_id := match row_ids with i :: _ => Some i | [] => left_id end in
      foldM
        (fun left ir =>
           let (i, right) := (ir : nat * (Meta * DataFrame)) in
           right_id <-
             match row_ids with
             | [] => ret right_id
             | _ => match nth_error row_ids i with
                    | Some r => ret (Some r)
                    | None => raise (IndexError "list index out of range")
                    end
             end ;;
           vmerge_pair (Some left) (Some right) on left_on right_on row_id_name
                       left_id right_id overwrite_text from_set)
        first (enumerate 1 rest)
  end.

End Merges.

(** ** Ranges, subsets and the walks through masks and sets *)

(** [s.split(sep)] for a separator of any length: the occurrences are
    taken from the left and do not overlap.  [skip] counts the
    characters of an occurrence still to be dropped.  An empty separator
    raises. *)
Fixpoint split_from (sep : string) (skip : nat) (s : string) : list string :=
  match s with
  | EmptyString => [""]
  | String c s' =>
      match skip with
      | S k => split_from sep k s'
      | O =>
          if String.prefix sep s
          then "" :: split_from sep (String.length sep - 1) s'
          else match split_from sep 0 s' with
               | [] => [String c ""]
               | w :: ws => String c w :: ws
               end
      end
  end.

Definition str_split (sep s : string) : M (list string) :=
  match sep with
  | EmptyString => raise (ValueError "empty separator")
  | _ => ret (split_from sep 0 s)
  end.

(** [c in s] for a character. *)
Fixpoint contains (c : ascii) (s : string) : bool :=
  match s with
  | EmptyString => false
  | String c' s' => orb (Ascii.eqb c c') (contains c s')
  end.

(** [list(range(lo, hi))]. *)
Definition py_range (lo hi : Z) : list Z :=
  map (fun i => lo + Z.of_nat i) (seq 0 (Z.to_nat (hi - lo))).

Section Frange.

(** [int(s)] on a string; [None] stands for the [ValueError]. *)
Variable py_int : string -> option Z.

Definition int_of (s : string) : M Z :=
  match py_int s with
  | Some z => ret z
  | None => raise (ValueError ("invalid literal for int() with base 10: '" ++ s ++ "'"))
  end.

(** Lines 409-420: what one item adds to [res]. *)
Definition frange_item (res : list Z) (item : string) : M (list Z) :=
  if contains "-" item then
    match Py.split "-" item with
    | [a; b] =>
        a <- int_of a ;;
        b <- int_of b ;;
        let lo := Z.min a b in
        let hi := Z.max a b in
        let ints := py_range lo (hi + 1) in
        let ints := if Z.leb b a then rev ints else ints in
        ret (res ++ ints)%list
    | [] | [_] => raise (ValueError "not enough values to unpack (expected 2, got 1)")
    | _ => raise (ValueError "too many values to unpack (expected 2)")
    end
  else
    n <- int_of item ;;
    ret (res ++ [n])%list.

(** Lines 386-421. *)
Definition frange (range_def sep : string) : M (list Z) :=
  items <- str_split sep range_def ;;
  foldM frange_item [] items.

End Frange.

(** Lines 55-60; [meta['columns']] is walked in its order. *)
Definition define_multicodes (varlist : list string) (meta : Meta)
    : list (string * list string) :=
  fold_left
    (fun multicodes var =>
       dict_set var
         (filter (fun mrs_q => String.prefix (var ++ "_") mrs_q)
                 (map fst (columns meta)))
         multicodes)
    varlist [].

(** Lines 232-266.  ['info'], ['type'] and the text of the set, which
    are constants that no function of the module reads, are not part of
    [Meta]. *)
Definition start_meta (text_key : string) : Meta :=
  mkMeta [] [] [("data file", mkSet [])] [] text_key.

(** Lines 1824-1840. *)
Definition subset_dataset (meta : Meta) (data : DataFrame) (columns_ : list string)
    : M (Meta * DataFrame) :=
  sdata <- select_columns columns_ data ;;
  let smeta := start_meta (default_text meta) in
  smeta <-
    foldM (fun sm col =>
             c <- dict_item col (columns meta) ;;
             ret (mkMeta (dict_set col c (columns sm)) (masks sm) (sets sm)
                         (lib_values sm) (default_text sm)))
          smeta columns_ ;;
  data_file <- dict_item "data file" (sets meta) ;;
  smeta <-
    foldM (fun sm col_mapper =>
             if Py.mem (last (Py.split "@" col_mapper) "") columns_ then
               df <- dict_item "data file" (sets sm) ;;
               ret (mkMeta (columns sm) (masks sm)
                           (dict_set "data file"
                                     (mkSet (set_items df ++ [col_mapper])%list)
                                     (sets sm))
                           (lib_values sm) (default_text sm))
             else ret sm)
          smeta (set_items data_file) ;;
  ret (smeta, sdata).

(** The items walked by the functions of lines 1308-1428: the sources of
    the items of a mask, or the items of a set. *)
Definition sources_of (meta : Meta) (of_mask : bool) (name : string)
    : M (list string) :=
  if of_mask then
    m <- dict_item name (masks meta) ;; ret (map mi_source (mask_items m))
  else
    s <- dict_item name (sets meta) ;; ret (set_items s).

(** Lines 1350-1388: the masks a mask or a set names.  A mask found is
    listed by its name; a set found in a mask is searched as a set, a set
    found in a set is searched with [get_masks_from_mask].  [depth] is
    the depth of calls the interpreter still allows. *)
Fixpoint masks_from (depth : nat) (meta : Meta) (of_mask : bool) (name : string)
    : M (list string) :=
  match depth with
  | O => raise (RecursionError "maximum recursion depth exceeded")
  | S depth' =>
      sources <- sources_of meta of_mask name ;;
      foldM
        (fun masks_ item =>
           sn <- split_source item ;;
           let (source, n) := sn in
           if String.eqb source "masks" then ret (masks_ ++ [n])%list
           else if String.eqb source "columns" then ret masks_
           else if String.eqb source "sets" then
             more <- masks_from depth' meta (negb of_mask) n ;;
             ret (masks_ ++ more)%list
           else raise (KeyError ("Unsupported meta-mapping: " ++ item)))
        [] sources
  end.

Definition get_masks_from_mask (meta : Meta) (mask_name : string) : M (list string) :=
  masks_from recursion_limit meta true mask_name.

Definition get_masks_from_set (meta : Meta) (set_name : string) : M (list string) :=
  masks_from recursion_limit meta false set_name.

(** Lines 1390-1428: the sets a mask or a set names.  A set found is
    listed by its name; a mask found is searched with
    [get_sets_from_mask]. *)
Fixpoint sets_from (depth : nat) (meta : Meta) (of_mask : bool) (name : string)
    : M (list string) :=
  match depth with
  | O => raise (RecursionError "maximum recursion depth exceeded")
  | S depth' =>
      sources <- sources_of meta of_mask name ;;
      foldM
        (fun sets_ item =>
           sn <- split_source item ;;
           let (source, n) := sn in
           if String.eqb source "sets" then ret (sets_ ++ [n])%list
           else if String.eqb source "columns" then ret sets_
           else if String.eqb source "masks" then
             more <- sets_from depth' meta true n ;;
             ret (sets_ ++ more)%list
           else raise (KeyError ("Unsupported meta-mapping: " ++ item)))
        [] sources
  end.

Definition get_sets_from_mask (meta : Meta) (mask_name : string) : M (list string) :=
  sets_from recursion_limit meta true mask_name.

Definition get_sets_from_set (meta : Meta) (set_name : string) : M (list string) :=
  sets_from recursion_limit meta false set_name.

(** Lines 356-384, for a separator of one character, which pandas takes
    as it is (a longer one is a regular expression).  The frame built
    from the lists of tokens fills the shorter rows with [None]; its
    columns are numbered unless names are given, and as many names are
    needed as there are columns. *)
Record SplitFrame : Type := mkSplit {
  split_columns : option (list string);
  split_rows : list (list (option string))
}.

Definition pad_row (width : nat) (toks : list string) : list (option string) :=
  (map Some toks ++ repeat None (width - List.length toks))%list.

Section SplitSeries.

Variable float_str : Q -> string.

Definition split_series (series : list cell) (sep : ascii)
    (columns_ : option (list string)) : M SplitFrame :=
  let tokens_ := map (fun x => Py.split sep (cell_str float_str x)) series in
  let width := fold_right Nat.max 0%nat (map (@List.length string) tokens_) in
  let rows := map (pad_row width) tokens_ in
  match columns_ with
  | None => ret (mkSplit None rows)
  | Some names =>
      if Nat.eqb (List.length names) width then ret (mkSplit (Some names) rows)
      else raise (ValueError ("Length mismatch: Expected axis has "
                              ++ Py.str (Z.of_nat width) ++ " elements, new values have "
                              ++ Py.str (Z.of_nat (List.length names)) ++ " elements"))
  end.

End SplitSeries.

(** ** Notions used in the statements *)

(** The codes [condense_dichotomous_set] gives the columns when no
    [values_regex] is passed: the suffix of the name, or the rank. *)
Definition codes_of (values_from_labels : bool) (cols : list string) : list string :=
  map (fun vc => if values_from_labels
                 then last (Py.split "_" (snd vc)) ""
                 else Py.str (Z.of_nat (fst vc)))
      (enumerate 1 cols).

(** A cell counts as a yes when it equals [yes], and [yes] is not also
    the [no] value. *)
Definition counts_as_yes (yes no : Z) (x : cell) : bool :=
  andb (cell_eq_int x yes) (negb (Z.eqb yes no)).

(** The codes of the columns of a row that hold a yes, in column order. *)
Definition yes_codes (yes no : Z) (codes : list string) (r : list cell) : list string :=
  map fst (filter (fun vc => counts_as_yes yes no (snd vc)) (combine codes r)).

(** The ranks, from 1, of the cells of a row that hold a yes. *)
Definition yes_ranks (yes no : Z) (r : list cell) : list nat :=
  map fst (filter (fun vc => counts_as_yes yes no (snd vc)) (enumerate 1 r)).

(** A delimited-set value: the codes joined by [;] with a trailing [;],
    missing when there is no code. *)
Definition delimited (codes : list string) : option string :=
  match codes with
  | [] => None
  | _ => Some (Py.join ";" codes ++ ";")
  end.

(** The claim of a sorted result, in the words of the specification: the
    codes of the yes columns, sorted ascending as numbers, joined. *)
Definition int_le (a b : string) : bool :=
  match Py.int a, Py.int b with
  | Some x, Some y => Z.leb x y
  | _, _ => String.leb a b
  end.

Definition condense_sorted (df : DataFrame) (values_from_labels : bool) (yes no : Z)
    : list (option string) :=
  map (fun r => delimited (Py.sorted int_le
                   (yes_codes yes no (codes_of values_from_labels (df_columns df)) r)))
      (df_rows df).

(** A frame is rectangular when every row has one cell per column. *)
Definition rectangular (df : DataFrame) : Prop :=
  Forall (fun r => List.length r = List.length (df_columns df)) (df_rows df).

(** A cell is neither the yes nor the no value. *)
Definition neither (yes no : Z) (x : cell) : bool :=
  negb (orb (cell_eq_int x yes) (cell_eq_int x no)).

(** Stand-ins for the parameters, where a statement is about one
    concrete call: no regular expression matches, a float is read from
    and printed as a whole number, [emulate_meta] hands the column back
    and [uniquify_list] keeps first occurrences. *)
Definition no_regex (_ _ : string) : re_outcome := NoMatch.
Definition literal_float (s : string) : option Q := option_map inject_Z (Py.int s).
Definition whole_float_str (q : Q) : string := Py.str (Qfloor q) ++ ".0".
Definition same_column (_ : Meta) (c : Column) : Column := c.

Definition no_rows (_ : Data) (_ : logic) : M (list nat) := ret [].
Definition any_of (l : list Z) : logic := Func "has_any" [Codes l].
Definition all_of (l : list logic) : logic := Func "intersection" l.


(** A metadata document declaring the given (name, type) columns, in the
    'data file' set in that order. *)
Definition plain_column (name type : string) : string * Column :=
  (name, mkColumn name type [("en-GB", name)] None None).

Definition plain_meta (cols : list (string * string)) : Meta :=
  mkMeta (map (fun c => plain_column (fst c) (snd c)) cols) []
         [("data file", mkSet (map (fun c => "columns@" ++ fst c) cols))] [] "en-GB".

(** The data of a merge that went through. *)
Definition merged_data (m : M (Meta * DataFrame)) : option DataFrame :=
  match m with
  | (_, Ok (_, d)) => Some d
  | (_, Raise _) => None
  end.



(** The mapper with every shorthand written out for the column
    [default]. *)
Definition written_out (has_any : list Z -> logic) (default : string)
    (mapper : list (Z * logic)) : list (Z * logic) :=
  map (fun kv => (fst kv,
                  Dict [(Some default,
                         match snd kv with
                         | Codes val => has_any val
                         | val => val
                         end)]))
      mapper.

(** Did a computation end without an exception. *)
Definition went_through {A} (m : M A) : bool :=
  match snd m with Ok _ => true | Raise _ => false end.

(** No key value is found twice in the column [key] of a frame. *)
Definition unique_keys (key : string) (df : DataFrame) : Prop :=
  forall j, index_of key (df_columns df) = Some j ->
            has_dup (column_cells j df) = false.

(** Every column of the frame is declared in the metadata. *)
Definition declared (meta : Meta) (df : DataFrame) : Prop :=
  forall n, In n (df_columns df) -> dict_has n (columns meta) = true.

(** Characters of a printed integer: digits and the sign. *)
Definition sign_or_digit (c : ascii) : bool :=
  orb (Ascii.eqb c "-") (andb (Nat.leb 48 (nat_of_ascii c)) (Nat.leb (nat_of_ascii c) 57)).

Fixpoint all_chars (p : ascii -> bool) (s : string) : bool :=
  match s with
  | EmptyString => true
  | String c s' => andb (p c) (all_chars p s')
  end.



(** ** Notions used for the further properties *)

(** A separator that starts with a character other than a digit and the
    minus sign. *)
Definition starts_plain (sep : string) : bool :=
  match sep with
  | String c _ => negb (sign_or_digit c)
  | EmptyString => false
  end.

(** The ints from [a] to [b], both included, counting down when [b] is
    below [a]. *)
Definition count_from (a b : Z) : list Z :=
  map (fun i => if Z.ltb b a then a - Z.of_nat i else a + Z.of_nat i)
      (seq 0 (S (Z.to_nat (Z.abs (b - a))))).

(** A decimal digit. *)
Definition is_digit (c : ascii) : bool :=
  andb (Nat.leb 48 (nat_of_ascii c)) (Nat.leb (nat_of_ascii c) 57).

(** What a computation raises, if it raises. *)
Definition raises_only {A} (P : exn -> Prop) (m : M A) : Prop :=
  match snd m with
  | Raise e => P e
  | Ok _ => True
  end.

Definition is_key_error (e : exn) : Prop := exists msg, e = KeyError msg.

(** The columns [subset_dataset] copies from [meta], added to [d] in the
    order asked for. *)
Definition copied_columns (meta : Meta) (cols : list string)
    (d : list (string * Column)) : list (string * Column) :=
  fold_left (fun d c => match dict_get c (columns meta) with
                        | Some x => dict_set c x d
                        | None => d
                        end) cols d.

(** An item of a mask or of a set: what it refers to, and by which
    name. *)
Definition item_of (source name : string) : string := source ++ "@" ++ name.

Definition no_at (name : string) : bool :=
  all_chars (fun c => negb (Ascii.eqb c "@")) name.

(** Items that name columns and masks only. *)
Definition columns_and_masks (pairs : list (string * string)) : Prop :=
  Forall (fun sn => (fst sn = "columns" \/ fst sn = "masks") /\ no_at (snd sn) = true)
         pairs.

Definition is_recursion_error (e : exn) : Prop := exists msg, e = RecursionError msg.

(** A value of the left list after [merge_values_meta]: its text merged
    with that of the right value of the same code, if there is one. *)
Definition merged_value (right_values : list value_item) (overwrite : bool)
    (val_left : value_item) : value_item :=
  match find (fun val_right => Z.eqb (value val_right) (value val_left)) right_values with
  | Some val_right =>
      mkValue (value val_left)
              (merge_text_meta (vtext val_left) (vtext val_right) overwrite)
  | None => val_left
  end.

(** The right values whose code the left list does not hold. *)
Definition new_values (left_values right_values : list value_item) : list value_item :=
  filter (fun val_right =>
            negb (existsb (fun val_left => Z.eqb (value val_left) (value val_right))
                          left_values))
         right_values.

(** [m] holds what [l] holds: the columns of [l] are declared, and every
    mask, set and list of library values of [l] is there with what it
    listed, in the same order, at its start. *)
Definition grown_from (l m : Meta) : Prop :=
  (forall k, dict_has k (columns l) = true -> dict_has k (columns m) = true)
  /\ (forall k mk, dict_get k (masks l) = Some mk ->
        exists mk' extra,
          dict_get k (masks m) = Some mk'
          /\ map mi_source (mask_items mk')
             = (map mi_source (mask_items mk) ++ extra)%list)
  /\ (forall k s, dict_get k (sets l) = Some s ->
        exists s' extra,
          dict_get k (sets m) = Some s'
          /\ set_items s' = (set_items s ++ extra)%list)
  /\ (forall k v, dict_get k (lib_values l) = Some v ->
        exists extra, dict_get k (lib_values m) = Some (v ++ extra)%list)
  /\ default_text m = default_text l.



(** Codes that [float] reads: none is empty or ['nan'] or holds the
    delimiter, and [num] is the number read. *)
Definition numbered (py_float : string -> option Q) (num : string -> Q)
    (codes : list string) : Prop :=
  Forall (fun c => c <> "" /\ c <> "nan"
                   /\ all_chars (fun a => negb (Ascii.eqb a ";")) c = true
                   /\ py_float c = Some (num c)) codes.



(** The values of a row of a split frame, the fillers left out. *)
Definition present (row : list (option string)) : list string :=
  flat_map (fun v => match v with Some s => [s] | None => [] end) row.

(** The largest number of tokens that an item of a series splits into. *)
Definition most_tokens (float_str : Q -> string) (series : list cell) (sep : ascii)
    : nat :=
  fold_right Nat.max 0%nat
    (map (fun x => List.length (Py.split sep (cell_str float_str x))) series).

(** ** Facts on the built-ins *)


Lemma bind_ret {A B} (a : A) (f : A -> M B) : bind (ret a) f = f a.
Proof. unfold bind, ret. destruct (f a). reflexivity. Qed.

Lemma bind_ext {A B} (m : M A) (f g : A -> M B) :
  (forall a, f a = g a) -> bind m f = bind m g.
Proof. intros H. destruct m as [w [a|e]]; simpl; [now rewrite H | reflexivity]. Qed.

Lemma mapM_ret {A B} (f : A -> B) (l : list A) :
  mapM (fun x => ret (f x)) l = ret (map f l).
Proof.
  induction l as [|x l IH]; cbn [mapM map]; [reflexivity|].
  rewrite bind_ret, IH, bind_ret. reflexivity.
Qed.

Lemma mapM_ext {A B} (f g : A -> M B) (l : list A) :
  (forall x, In x l -> f x = g x) -> mapM f l = mapM g l.
Proof.
  induction l as [|x l IH]; intros H; cbn [mapM]; [reflexivity|].
  rewrite (H x (or_introl eq_refl)), IH; [reflexivity|].
  intros y Hy. apply H. now right.
Qed.

Lemma all_chars_app p a b :
  all_chars p (a ++ b) = andb (all_chars p a) (all_chars p b).
Proof.
  induction a as [|c a IH]; simpl; [reflexivity|].
  rewrite IH, andb_assoc. reflexivity.
Qed.

Lemma string_of_uint_digits d :
  all_chars sign_or_digit (NilEmpty.string_of_uint d) = true.
Proof. induction d; simpl; auto. Qed.

Lemma str_digits z : all_chars sign_or_digit (Py.str z) = true.
Proof.
  unfold Py.str, NilEmpty.string_of_int.
  destruct (Z.to_int z); simpl; apply string_of_uint_digits.
Qed.

Lemma str_inj a b : Py.str a = Py.str b -> a = b.
Proof.
  unfold Py.str. intros H.
  assert (E : Z.to_int a = Z.to_int b).
  { pose proof (NilEmpty.isi (Z.to_int a)) as Ha.
    pose proof (NilEmpty.isi (Z.to_int b)) as Hb.
    rewrite H in Ha. rewrite Ha in Hb. now inversion Hb. }
  rewrite <- (DecimalZ.of_to a), <- (DecimalZ.of_to b), E. reflexivity.
Qed.

Lemma str_eqb a b : String.eqb (Py.str a) (Py.str b) = Z.eqb a b.
Proof.
  destruct (Z.eqb_spec a b) as [->|N].
  - apply String.eqb_refl.
  - apply String.eqb_neq. intros H. now apply N, str_inj.
Qed.

Lemma app_inv_tail_str a b t : (a ++ t)%string = (b ++ t)%string -> a = b.
Proof.
  revert b. induction a as [|c a IH]; intros [|d b] H; simpl in *.
  - reflexivity.
  - exfalso. apply (f_equal String.length) in H. simpl in H.
    assert (L : forall x y, String.length (x ++ y) = (String.length x + String.length y)%nat).
    { induction x; simpl; intros; [reflexivity | now rewrite IHx]. }
    rewrite L in H. lia.
  - exfalso. apply (f_equal String.length) in H. simpl in H.
    assert (L : forall x y, String.length (x ++ y) = (String.length x + String.length y)%nat).
    { induction x; simpl; intros; [reflexivity | now rewrite IHx]. }
    rewrite L in H. lia.
  - inversion H; subst. f_equal. now apply IH.
Qed.

Lemma str_dot_eqb a b :
  String.eqb (Py.str a ++ ".0") (Py.str b ++ ".0") = Z.eqb a b.
Proof.
  destruct (Z.eqb_spec a b) as [->|N].
  - apply String.eqb_refl.
  - apply String.eqb_neq. intros H. apply N, str_inj.
    now apply app_inv_tail_str in H.
Qed.

Lemma str_not_dotted a b : String.eqb (Py.str a) (Py.str b ++ ".0") = false.
Proof.
  apply String.eqb_neq. intros H.
  pose proof (str_digits a) as D. rewrite H, all_chars_app in D.
  simpl in D. rewrite andb_false_r in D. discriminate.
Qed.

Lemma dotted_not_str a b : String.eqb (Py.str a ++ ".0") (Py.str b) = false.
Proof. rewrite String.eqb_sym. apply str_not_dotted. Qed.

Lemma str_not_nan a : String.eqb (Py.str a) "nan" = false.
Proof.
  apply String.eqb_neq. intros H.
  pose proof (str_digits a) as D. rewrite H in D. discriminate.
Qed.

Lemma nan_not_str a : String.eqb "nan" (Py.str a) = false.
Proof. rewrite String.eqb_sym. apply str_not_nan. Qed.

Lemma nan_not_dotted a : String.eqb "nan" (Py.str a ++ ".0") = false.
Proof.
  apply String.eqb_neq. intros H.
  destruct (Py.str a) as [|c1 [|c2 [|c3 [|c4 s]]]]; simpl in H; discriminate.
Qed.

Lemma dotted_not_nan a : String.eqb (Py.str a ++ ".0") "nan" = false.
Proof. rewrite String.eqb_sym. apply nan_not_dotted. Qed.

Lemma str_pos_nonempty z : 0 < z -> Py.str z <> "".
Proof.
  intros Hz. destruct z as [|p|p]; try lia.
  unfold Py.str. simpl. intros H.
  pose proof (Unsigned.to_uint_nonnil p) as N.
  destruct (Pos.to_uint p); simpl in H; try discriminate. now apply N.
Qed.

(** ** [condense_dichotomous_set] *)

Lemma recode_cell_plain yes no v z :
  recode_cell yes no v (Py.str z) =
  if Z.eqb z no then "nan" else if Z.eqb z yes then v else Py.str z.
Proof.
  unfold recode_cell, replace_no, replace_yes, dict_replace.
  rewrite str_not_nan, str_not_dotted, str_eqb.
  destruct (Z.eqb z no).
  - now rewrite nan_not_str, nan_not_dotted.
  - rewrite str_eqb. destruct (Z.eqb z yes); [reflexivity|].
    now rewrite str_not_dotted.
Qed.

Lemma recode_cell_dotted yes no v z :
  recode_cell yes no v (Py.str z ++ ".0") =
  if Z.eqb z no then "nan" else if Z.eqb z yes then v else Py.str z ++ ".0".
Proof.
  unfold recode_cell, replace_no, replace_yes, dict_replace.
  rewrite dotted_not_nan, str_dot_eqb.
  destruct (Z.eqb z no).
  - now rewrite nan_not_str, nan_not_dotted.
  - rewrite dotted_not_str, dotted_not_str, str_dot_eqb.
    now destruct (Z.eqb z yes).
Qed.

Lemma dvalue_keep yes no x :
  dvalue (keep_yes_no yes no x) = if cell_eq_int x yes then yes else no.
Proof.
  unfold keep_yes_no.
  destruct (cell_eq_int x yes); [now destruct x|].
  destruct (cell_eq_int x no); now destruct x.
Qed.

(** However the column prints, a cell ends as its code when it is a yes
    and as ['nan'] otherwise. *)
Lemma recode_render yes no v b x :
  recode_cell yes no v (render b (keep_yes_no yes no x)) =
  if counts_as_yes yes no x then v else "nan".
Proof.
  unfold render, counts_as_yes.
  destruct (orb b (is_dfloat (keep_yes_no yes no x)));
    [rewrite recode_cell_dotted | rewrite recode_cell_plain];
    rewrite dvalue_keep;
    destruct (cell_eq_int x yes); simpl;
    rewrite ?Z.eqb_refl; try reflexivity;
    destruct (Z.eqb yes no); reflexivity.
Qed.

Lemma recode_row yes no (F : nat -> bool) codes r k :
  map (fun vs => recode_cell yes no (fst vs) (snd vs))
      (combine codes
         (map (fun jc => render (F (fst jc)) (snd jc))
              (enumerate k (map (keep_yes_no yes no) r))))
  = map (fun vc => if counts_as_yes yes no (snd vc) then fst vc else "nan")
        (combine codes r).
Proof.
  revert codes k. induction r as [|x r IH]; intros [|c codes] k; simpl; try reflexivity.
  rewrite recode_render, IH. reflexivity.
Qed.

Lemma filter_marked {A} (P : A -> bool) (l : list (string * A)) :
  filter (fun v => negb (String.eqb v "nan"))
         (map (fun vc => if P (snd vc) then fst vc else "nan") l)
  = filter (fun v => negb (String.eqb v "nan")) (map fst (filter (fun vc => P (snd vc)) l)).
Proof.
  induction l as [|[c x] l IH]; simpl; [reflexivity|].
  destruct (P x); simpl; [now rewrite IH | exact IH].
Qed.

Lemma concat_row_marked yes no codes r :
  concat_row (map (fun vc => if counts_as_yes yes no (snd vc) then fst vc else "nan")
                  (combine codes r))
  = concat_row (yes_codes yes no codes r).
Proof. unfold concat_row, yes_codes. now rewrite filter_marked. Qed.

(** The series, for any way of coding the columns. *)
Lemma condense_series_rows re_match df vfl yes no regex :
  condense_series re_match df vfl yes no regex =
  (codes <- mapM (fun vc => column_code re_match vfl regex (fst vc) (snd vc))
                 (enumerate 1 (df_columns df)) ;;
   ret (map (fun r => concat_row (yes_codes yes no codes r)) (df_rows df))).
Proof.
  unfold condense_series, astype_str. apply bind_ext. intros codes.
  f_equal. rewrite !map_map. apply map_ext. intros r.
  rewrite recode_row. apply concat_row_marked.
Qed.

Lemma condense_series_plain re_match df vfl yes no :
  condense_series re_match df vfl yes no None =
  ret (map (fun r => concat_row (yes_codes yes no (codes_of vfl (df_columns df)) r))
           (df_rows df)).
Proof.
  rewrite condense_series_rows.
  rewrite (mapM_ext _ (fun vc => ret (if vfl then last (Py.split "_" (snd vc)) ""
                                      else Py.str (Z.of_nat (fst vc))))).
  - rewrite mapM_ret, bind_ret. reflexivity.
  - intros [v c] _. unfold column_code. simpl. now destruct vfl.
Qed.

Lemma condense_plain re_match py_float df vfl yes no :
  condense_dichotomous_set re_match py_float df vfl false yes no None =
  ret (Delimited
         (map (fun r => concat_row (yes_codes yes no (codes_of vfl (df_columns df)) r))
              (df_rows df))).
Proof.
  unfold condense_dichotomous_set. rewrite condense_series_plain, bind_ret.
  simpl. now destruct (Nat.eqb _ 0).
Qed.

(** A row of codes that are neither empty nor ['nan'] is joined as it
    is. *)
Lemma join_cons_nonempty c x l :
  exists t, Py.join ";" (String c x :: l) = String c t.
Proof.
  unfold Py.join. destruct l as [|y l]; simpl; eauto.
Qed.

Lemma concat_row_delimited l :
  Forall (fun c => c <> "" /\ c <> "nan") l -> concat_row l = delimited l.
Proof.
  intros H. unfold concat_row.
  assert (E : filter (fun v => negb (String.eqb v "nan")) l = l).
  { induction H as [|c l [_ Hc] _ IH]; simpl; [reflexivity|].
    apply String.eqb_neq in Hc. now rewrite Hc, IH. }
  rewrite E. destruct H as [|c l [Hc _] _]; [reflexivity|].
  destruct c as [|a c]; [contradiction|].
  destruct (join_cons_nonempty a c l) as [t Ht].
  unfold delimited. rewrite Ht. simpl.
  destruct (Ascii.eqb_spec a ";"); [|reflexivity].
  destruct t; reflexivity.
Qed.

Lemma ranks_of_codes (P : cell -> bool) (g : nat -> string) cols r k :
  List.length r = List.length cols ->
  map fst (filter (fun vc => P (snd vc))
                  (combine (map (fun vc : nat * string => g (fst vc)) (enumerate k cols)) r))
  = map g (map fst (filter (fun vc => P (snd vc)) (enumerate k r))).
Proof.
  revert r k. induction cols as [|c cols IH]; intros [|x r] k H; simpl in *;
    try reflexivity; try discriminate.
  injection H as H. destruct (P x); simpl; now rewrite IH.
Qed.

Lemma enumerate_bounds {A} (l : list A) k v x :
  In (v, x) (enumerate k l) -> (k <= v)%nat.
Proof.
  revert k. induction l as [|y l IH]; intros k H; simpl in H; [contradiction|].
  destruct H as [H|H]; [injection H as <- _; lia|].
  apply IH in H. lia.
Qed.

Lemma ranks_ascending (P : cell -> bool) r k :
  StronglySorted lt (map fst (filter (fun vc => P (snd vc)) (enumerate k r))).
Proof.
  revert k. induction r as [|x r IH]; intros k; simpl; [constructor|].
  destruct (P x); simpl; [|apply IH].
  constructor; [apply IH|].
  apply Forall_forall. intros v Hv.
  apply in_map_iff in Hv. destruct Hv as [[v' y] [<- Hv]].
  apply filter_In in Hv. destruct Hv as [Hv _].
  apply enumerate_bounds in Hv. simpl. lia.
Qed.

Lemma ranks_positive (P : cell -> bool) r v :
  In v (map fst (filter (fun vc => P (snd vc)) (enumerate 1 r))) -> (1 <= v)%nat.
Proof.
  intros Hv. apply in_map_iff in Hv. destruct Hv as [[v' y] [<- Hv]].
  apply filter_In in Hv. destruct Hv as [Hv _].
  now apply enumerate_bounds in Hv.
Qed.






(** C2 (amended).  [condense_dichotomous_set] maps each yes-valued column
    to its code (the suffix of the column name after the last underscore
    when [values_from_labels] is true, its rank 1..N otherwise), keeps the
    selected codes in the order of the columns, joins them with [;] and
    appends a trailing [;].  Nothing is sorted: the codes come out
    ascending for the ranks 1..N, and for codes read from the names only
    when the columns are listed in that order.  A row [1,0,1] over
    [q_1, q_2, q_3] yields ["1;3;"]. *)
Theorem condense_in_column_order
    (re_match : string -> string -> re_outcome) (py_float : string -> option Q)
    (df : DataFrame) (values_from_labels : bool) (yes no : Z) :
  condense_dichotomous_set re_match py_float df values_from_labels false yes no None
  = ret (Delimited
      (map (fun r => concat_row
                       (yes_codes yes no (codes_of values_from_labels (df_columns df)) r))
           (df_rows df)))
  /\ (forall codes, Forall (fun c => c <> "" /\ c <> "nan") codes ->
        concat_row codes = delimited codes)
  /\ (rectangular df ->
      forall r, In r (df_rows df) ->
        yes_codes yes no (codes_of false (df_columns df)) r
        = map (fun k => Py.str (Z.of_nat k)) (yes_ranks yes no r)
        /\ StronglySorted lt (yes_ranks yes no r)
        /\ concat_row (yes_codes yes no (codes_of false (df_columns df)) r)
           = delimited (map (fun k => Py.str (Z.of_nat k)) (yes_ranks yes no r)))
  /\ condense_dichotomous_set re_match py_float
       (mkDF ["q_1"; "q_2"; "q_3"] [[CInt 1; CInt 0; CInt 1]]) true false 1 0 None
     = ret (Delimited [Some "1;3;"]).
Proof.
  split; [apply condense_plain|].
  split; [apply concat_row_delimited|].
  split; [|reflexivity].
  intros Hrect r Hr.
  assert (E : yes_codes yes no (codes_of false (df_columns df)) r
              = map (fun k => Py.str (Z.of_nat k)) (yes_ranks yes no r)).
  { unfold yes_codes, yes_ranks, codes_of.
    apply (ranks_of_codes (counts_as_yes yes no) (fun k => Py.str (Z.of_nat k))).
    unfold rectangular in Hrect. rewrite Forall_forall in Hrect. now apply Hrect. }
  split; [exact E|]. split; [apply ranks_ascending|].
  rewrite E. apply concat_row_delimited.
  apply Forall_forall. intros c Hc.
  apply in_map_iff in Hc. destruct Hc as [k [<- Hk]].
  apply ranks_positive in Hk. split.
  - apply str_pos_nonempty. lia.
  - apply String.eqb_neq, str_not_nan.
Qed.

Lemma condense_in_column_order_witness :
  rectangular (mkDF ["a"; "b"; "c"] [[CInt 0; CInt 1; CFloat 1]])
  /\ yes_codes 1 0 (codes_of false ["a"; "b"; "c"]) [CInt 0; CInt 1; CFloat 1]
     = map (fun k => Py.str (Z.of_nat k)) (yes_ranks 1 0 [CInt 0; CInt 1; CFloat 1]).
Proof.
  assert (R : rectangular (mkDF ["a"; "b"; "c"] [[CInt 0; CInt 1; CFloat 1]])).
  { repeat constructor. }
  split; [exact R|].
  exact (proj1 (proj1 (proj2 (proj2 (condense_in_column_order
           no_regex literal_float
           (mkDF ["a"; "b"; "c"] [[CInt 0; CInt 1; CFloat 1]]) false 1 0))) R
           [CInt 0; CInt 1; CFloat 1] (or_introl eq_refl))).
Defined.

(** C2, as stated, fails: with the columns [q_2, q_1] a row of two yes
    is condensed to ["2;1;"], where sorted codes would give ["1;2;"]. *)
Lemma condense_does_not_sort :
  (forall re_match py_float,
     condense_dichotomous_set re_match py_float
       (mkDF ["q_2"; "q_1"] [[CInt 1; CInt 1]]) true false 1 0 None
     = ret (Delimited [Some "2;1;"]))
  /\ condense_sorted (mkDF ["q_2"; "q_1"] [[CInt 1; CInt 1]]) true 1 0 = [Some "1;2;"].
Proof. split; [intros; reflexivity | reflexivity]. Qed.



Lemma cell_eq_int_unique x a b :
  cell_eq_int x a = true -> cell_eq_int x b = true -> a = b.
Proof.
  destruct x as [z|q|s|]; simpl; try discriminate.
  - intros Ha Hb. apply Z.eqb_eq in Ha, Hb. congruence.
  - intros Ha Hb. apply Qeq_bool_eq in Ha, Hb.
    apply inject_Z_injective. now rewrite <- Ha, <- Hb.
Qed.

Section TreatedAsNo.

Variables (yes no : Z) (g : cell -> cell).
Hypothesis keeps : forall x, neither yes no x = false -> g x = x.
Hypothesis hides : forall x, neither yes no x = true ->
  cell_eq_int (g x) no = true \/ neither yes no (g x) = true.

Lemma counts_after x : counts_as_yes yes no (g x) = counts_as_yes yes no x.
Proof.
  destruct (neither yes no x) eqn:N; [|now rewrite keeps].
  unfold counts_as_yes. unfold neither in N.
  pose proof N as N'. apply negb_true_iff, orb_false_iff in N'.
  destruct N' as [Ny _]. rewrite Ny.
  destruct (hides x N) as [H|H].
  - destruct (cell_eq_int (g x) yes) eqn:Gy; [|reflexivity].
    rewrite (cell_eq_int_unique _ _ _ Gy H), Z.eqb_refl. reflexivity.
  - unfold neither in H. apply negb_true_iff, orb_false_iff in H.
    destruct H as [-> _]. reflexivity.
Qed.

Lemma dvalue_after x :
  dvalue (keep_yes_no yes no (g x)) = dvalue (keep_yes_no yes no x).
Proof.
  destruct (neither yes no x) eqn:N; [|now rewrite keeps].
  rewrite !dvalue_keep. unfold neither in N.
  pose proof N as N'. apply negb_true_iff, orb_false_iff in N'.
  destruct N' as [Ny _]. rewrite Ny.
  destruct (hides x N) as [H|H].
  - destruct (cell_eq_int (g x) yes) eqn:Gy; [|reflexivity].
    exact (cell_eq_int_unique _ _ _ Gy H).
  - unfold neither in H. apply negb_true_iff, orb_false_iff in H.
    destruct H as [-> _]. reflexivity.
Qed.

Lemma yes_codes_after codes r :
  yes_codes yes no codes (map g r) = yes_codes yes no codes r.
Proof.
  unfold yes_codes. revert codes.
  induction r as [|x r IH]; intros [|c codes]; simpl; try reflexivity.
  rewrite counts_after. destruct (counts_as_yes yes no x); simpl; now rewrite IH.
Qed.

Lemma row_sum_after r :
  row_sum (map (keep_yes_no yes no) (map g r)) = row_sum (map (keep_yes_no yes no) r).
Proof.
  induction r as [|x r IH]; simpl; [reflexivity|].
  now rewrite dvalue_after, IH.
Qed.

End TreatedAsNo.

(** C10.  A cell that is neither the yes nor the no value is treated as
    the no value: replacing every such cell by the no value, or by any
    other value that is not a yes (2, a string, NaN), leaves the result of
    [condense_dichotomous_set] as it is, so these cells contribute no
    code. *)
Theorem condense_neither_counts_as_no
    (re_match : string -> string -> re_outcome) (py_float : string -> option Q)
    (g : cell -> cell) (df : DataFrame) (values_from_labels sniff_single : bool)
    (yes no : Z) (values_regex : option string) :
  (forall x, neither yes no x = false -> g x = x) ->
  (forall x, neither yes no x = true ->
     cell_eq_int (g x) no = true \/ neither yes no (g x) = true) ->
  condense_dichotomous_set re_match py_float
    (mkDF (df_columns df) (map (map g) (df_rows df)))
    values_from_labels sniff_single yes no values_regex
  = condense_dichotomous_set re_match py_float df
      values_from_labels sniff_single yes no values_regex.
Proof.
  intros keeps hides.
  unfold condense_dichotomous_set.
  rewrite !condense_series_rows. simpl df_rows. simpl df_columns.
  assert (L : List.length (map (map (keep_yes_no yes no)) (map (map g) (df_rows df)))
              = List.length (map (map (keep_yes_no yes no)) (df_rows df))).
  { now rewrite !length_map. }
  assert (X : max_row_sum (map (map (keep_yes_no yes no)) (map (map g) (df_rows df)))
              = max_row_sum (map (map (keep_yes_no yes no)) (df_rows df))).
  { unfold max_row_sum. rewrite !map_map.
    rewrite (map_ext _ (fun r => row_sum (map (keep_yes_no yes no) r)));
      [reflexivity|].
    intros r. now apply row_sum_after. }
  rewrite L, X.
  assert (R : forall codes,
             map (fun r => concat_row (yes_codes yes no codes r)) (map (map g) (df_rows df))
             = map (fun r => concat_row (yes_codes yes no codes r)) (df_rows df)).
  { intros codes. rewrite map_map. apply map_ext. intros r.
    now rewrite yes_codes_after. }
  f_equal. apply bind_ext. intros codes. now rewrite R.
Qed.

Lemma condense_neither_counts_as_no_witness :
  condense_dichotomous_set no_regex literal_float
    (mkDF ["q_1"; "q_2"; "q_3"]
          (map (map (fun x => if neither 1 0 x then CInt 0 else x))
               [[CInt 1; CInt 2; CStr "x"]; [CNaN; CFloat 1; CInt 0]]))
    true false 1 0 None
  = condense_dichotomous_set no_regex literal_float
      (mkDF ["q_1"; "q_2"; "q_3"]
            [[CInt 1; CInt 2; CStr "x"]; [CNaN; CFloat 1; CInt 0]])
      true false 1 0 None.
Proof.
  refine (condense_neither_counts_as_no no_regex literal_float
            (fun x => if neither 1 0 x then CInt 0 else x)
            (mkDF ["q_1"; "q_2"; "q_3"]
                  [[CInt 1; CInt 2; CStr "x"]; [CNaN; CFloat 1; CInt 0]])
            true false 1 0 None _ _).
  - intros x H. now rewrite H.
  - intros x H. rewrite H. left. reflexivity.
Defined.

(** ** Sorting and de-duplication *)

Section SortedFacts.
Context {A : Type} (le : A -> A -> bool).
Hypothesis le_total : forall a b, le a b = true \/ le b a = true.

Lemma insert_perm x l : Permutation (x :: l) (Py.insert le x l).
Proof.
  induction l as [|y l IH]; simpl; [reflexivity|].
  destruct (le x y); [reflexivity|].
  rewrite perm_swap. now constructor.
Qed.

Lemma sorted_perm l : Permutation l (Py.sorted le l).
Proof.
  induction l as [|x l IH]; simpl; [constructor|].
  rewrite <- insert_perm. now constructor.
Qed.


End SortedFacts.


Lemma uniq_NoDup l : NoDup (uniq l).
Proof.
  induction l as [|x l IH]; simpl; constructor.
  - rewrite filter_In. intros [_ H]. now rewrite String.eqb_refl in H.
  - now apply NoDup_filter.
Qed.

(** ** Splitting and the re-normalisation of a joined series *)

Lemma str_nonempty z : Py.str z <> "".
Proof.
  destruct z as [|p|p]; unfold Py.str; simpl; try discriminate.
  pose proof (Unsigned.to_uint_nonnil p) as N.
  destruct (Pos.to_uint p); simpl; try discriminate. now elim N.
Qed.

(** A string without the separator is one token. *)
Lemma split_plain sep s :
  all_chars (fun c => negb (Ascii.eqb c sep)) s = true -> Py.split sep s = [s].
Proof.
  induction s as [|c s IH]; simpl; [reflexivity|].
  intros H. apply andb_true_iff in H. destruct H as [Hc Hs].
  apply negb_true_iff in Hc. rewrite Hc, (IH Hs). reflexivity.
Qed.

Lemma split_app sep s t :
  all_chars (fun c => negb (Ascii.eqb c sep)) s = true ->
  Py.split sep (s ++ String sep t) = s :: Py.split sep t.
Proof.
  induction s as [|c s IH]; simpl.
  - now rewrite Ascii.eqb_refl.
  - intros H. apply andb_true_iff in H. destruct H as [Hc Hs].
    apply negb_true_iff in Hc. rewrite Hc, (IH Hs). reflexivity.
Qed.

Lemma all_chars_weaken (p q : ascii -> bool) s :
  (forall c, p c = true -> q c = true) -> all_chars p s = true -> all_chars q s = true.
Proof.
  intros H. induction s as [|c s IH]; simpl; [reflexivity|].
  intros E. apply andb_true_iff in E. destruct E as [Hc Hs].
  now rewrite (H c Hc), (IH Hs).
Qed.





















(** Reading back the string of an int. *)
Lemma int_unfold s :
  s <> "" -> s <> "-" ->
  Py.int s = option_map Z.of_int (NilEmpty.int_of_string s).
Proof.
  intros N1 N2. unfold Py.int.
  destruct s as [|a s]; [now elim N1|].
  destruct a as [[] [] [] [] [] [] [] []]; try reflexivity.
  destruct s; [now elim N2 | reflexivity].
Qed.

Lemma int_of_str z : Py.int (Py.str z) = Some z.
Proof.
  assert (E : option_map Z.of_int (NilEmpty.int_of_string (Py.str z)) = Some z).
  { unfold Py.str. rewrite NilEmpty.isi. simpl. now rewrite DecimalZ.of_to. }
  rewrite int_unfold; [exact E | apply str_nonempty |].
  intros S. rewrite S in E. vm_compute in E. injection E as <-. discriminate S.
Qed.


(** ** Joining delimited sets, and the recoder's guard *)






(** C1, at an input where the code departs from it.  A delimited set
    holding ["1;"] is recoded in append mode with a mapper whose logic
    selects no row: the joined series is all-missing, the warning is
    issued, and the series returned is the joined one, so the value
    ["1;"] is gone. *)
Theorem recode_append_without_rows_clears :
  (forall re_match py_float float_str,
     recode_from_index_mapper re_match py_float float_str
       (plain_meta [("q", "delimited set")]) "q" (Object [Some "1;"]) [(2, [])] true
     = (["Could not recode q, found empty data column dependency!"], Ok [CNaN]))
  /\ recode no_regex literal_float whole_float_str any_of all_of no_rows
       (plain_meta [("q", "delimited set"); ("x", "single")])
       (mkData 1 [("q", Object [Some "1;"]); ("x", Int64 [5])])
       "q" [(2, Dict [(Some "x", any_of [1])])] None true None None None
     = (["Could not recode q, found empty data column dependency!"], Ok [CNaN]).
Proof. split; [intros; reflexivity | reflexivity]. Qed.

(** ** [index_mapper] *)

Lemma check_keyed_all mapper :
  Forall (fun kv : Z * logic => is_dict_or_tuple (snd kv) = true) mapper ->
  mapM check_keyed mapper = ret (map (fun _ => tt) mapper).
Proof.
  induction 1 as [|kv l H _ IH]; cbn [mapM map]; [reflexivity|].
  unfold check_keyed at 1. rewrite H, bind_ret, IH, bind_ret. reflexivity.
Qed.

Lemma check_keyed_first mapper :
  Exists (fun kv : Z * logic => is_dict_or_tuple (snd kv) = false) mapper ->
  exists key, In key (map fst mapper)
              /\ mapM check_keyed mapper = raise (TypeError (shorthand_msg key)).
Proof.
  induction mapper as [|kv l IH]; intros H; [inversion H|].
  cbn [mapM]. unfold check_keyed at 1.
  destruct (is_dict_or_tuple (snd kv)) eqn:E.
  - inversion H as [? ? H0|? ? H0]; subst; [congruence|].
    destruct (IH H0) as [key [Hin Hk]]. exists key. split; [now right|].
    rewrite bind_ret, Hk. reflexivity.
  - exists (fst kv). split; [now left | reflexivity].
Qed.

(** C6.  Without a default, a mapper holding a bare list fails with the
    [TypeError] that names the (first) shorthand key, whatever the logic
    would resolve to: no index is computed.  With a default column, the
    call is the call on the mapper in which every bare list [val] is
    written [{default: has_any(val)}]. *)
Theorem index_mapper_default_shorthand
    (has_any : list Z -> logic) (intersection : list logic -> logic)
    (get_logic_index : Data -> logic -> M (list nat))
    (meta : Meta) (data : Data) (mapper : list (Z * logic))
    (intersect : option logic) :
  ((exists key val, In (key, Codes val) mapper) ->
   exists key, In key (map fst mapper)
     /\ index_mapper has_any intersection get_logic_index meta data mapper None intersect
        = ([], Raise (TypeError (shorthand_msg key))))
  /\ (forall default,
        index_mapper has_any intersection get_logic_index meta data mapper
          (Some default) None
        = index_mapper has_any intersection get_logic_index meta data
            (written_out has_any default mapper) None None)
  /\ (forall default key val idx,
        get_logic_index data (Dict [(Some default, has_any val)]) = ret idx ->
        index_mapper has_any intersection get_logic_index meta data
          [(key, Codes val)] (Some default) None
        = ret [(key, idx)]).
Proof.
  split; [|split].
  - intros [key [val Hin]].
    destruct (check_keyed_first mapper) as [k [Hk E]].
    { apply Exists_exists. exists (key, Codes val). now split. }
    exists k. split; [exact Hk|].
    unfold index_mapper. rewrite E. reflexivity.
  - intros default. unfold index_mapper.
    rewrite check_keyed_all.
    + rewrite !bind_ret. f_equal. unfold written_out, key_by_default.
      apply map_ext. intros [k v]. simpl. now destruct v.
    + apply Forall_forall. intros kv Hkv. unfold written_out in Hkv.
      apply in_map_iff in Hkv. destruct Hkv as [kv' [<- _]]. reflexivity.
  - intros default key val idx H. unfold index_mapper.
    rewrite bind_ret. cbn [map mapM key_by_default fst snd].
    rewrite H, !bind_ret. reflexivity.
Qed.

Lemma index_mapper_default_shorthand_witness :
  exists key, In key (map fst [(1, Dict []); (2, Codes [5]); (3, Codes [])])
    /\ index_mapper any_of all_of no_rows (plain_meta []) (mkData 0 [])
         [(1, Dict []); (2, Codes [5]); (3, Codes [])] None None
       = ([], Raise (TypeError (shorthand_msg key))).
Proof.
  refine (proj1 (index_mapper_default_shorthand any_of all_of no_rows
            (plain_meta []) (mkData 0 [])
            [(1, Dict []); (2, Codes [5]); (3, Codes [])] None) _).
  exists 2, [5]. simpl. right. left. reflexivity.
Defined.

(** ** The metadata merge *)

(** C7.  Left [int] against right [single] passes with one warning that
    names the column and both types; equal types pass silently; a pair of
    different types listed in the table of incompatible types raises the
    [TypeError] naming the column and both types.  Two documents
    declaring [age] as [int] and as [single] merge, with that warning. *)
Theorem compatible_types_table (left_column right_column : Column) :
  (column_type left_column = "int" -> column_type right_column = "single" ->
   _compatible_types left_column right_column
   = ([inconsistent_msg (column_name left_column) "int" "single"], Ok tt))
  /\ (column_type left_column = column_type right_column ->
      _compatible_types left_column right_column = ([], Ok tt))
  /\ (column_type left_column <> column_type right_column ->
      In (column_type right_column)
         (dict_get_default (column_type left_column) err_table all_types) ->
      _compatible_types left_column right_column
      = ([], Raise (TypeError (incompatible_msg (column_name left_column)
                                 (column_type left_column)
                                 (column_type right_column)))))
  /\ (let merged := merge_meta same_column uniq
                      (plain_meta [("age", "int")]) (plain_meta [("age", "single")])
                      None false in
      fst merged = [inconsistent_msg "age" "int" "single"]
      /\ went_through merged = true).
Proof.
  split; [|split; [|split]].
  - intros L R. unfold _compatible_types. rewrite L, R. reflexivity.
  - intros E. unfold _compatible_types. rewrite E, String.eqb_refl. reflexivity.
  - intros N H. unfold _compatible_types.
    apply String.eqb_neq in N. rewrite N.
    assert (E : Py.mem (column_type right_column)
                  (dict_get_default (column_type left_column) err_table all_types) = true).
    { unfold Py.mem. apply existsb_exists. eexists. split; [exact H|].
      apply String.eqb_refl. }
    rewrite E. reflexivity.
  - split; reflexivity.
Qed.

Lemma compatible_types_table_witness :
  _compatible_types (mkColumn "age" "string" [] None None)
                    (mkColumn "age" "date" [] None None)
  = ([], Raise (TypeError (incompatible_msg "age" "string" "date"))).
Proof.
  refine (proj1 (proj2 (proj2 (compatible_types_table
            (mkColumn "age" "string" [] None None)
            (mkColumn "age" "date" [] None None)))) _ _).
  - simpl. discriminate.
  - simpl. right. right. right. right. left. reflexivity.
Defined.

(** C8, where the code departs from it.  When [from_set] names no set
    of the right document, [cols] is bound to what [list.sort] returns,
    which is [None], and the loop over it raises a [TypeError]: nothing is
    merged.  The claim expects the columns ["a"; "B"; "c"] here. *)
Theorem merge_meta_without_set_fails :
  (forall emulate_meta uniquify_list meta_left meta_right from_set overwrite_text,
     dict_get (match from_set with Some s => s | None => "data file" end)
              (sets meta_right) = None ->
     merge_meta emulate_meta uniquify_list meta_left meta_right from_set overwrite_text
     = ([], Raise (TypeError "'NoneType' object is not iterable")))
  /\ merge_meta same_column uniq
       (plain_meta [("a", "int")])
       (mkMeta [plain_column "c" "int"; plain_column "B" "int"; plain_column "a" "int"]
               [] [] [] "en-GB")
       (Some "data file") false
     = ([], Raise (TypeError "'NoneType' object is not iterable"))
  /\ Py.sorted (fun a b => String.leb (Py.lower a) (Py.lower b)) ["c"; "B"; "a"]
     = ["a"; "B"; "c"].
Proof.
  split; [|split; reflexivity].
  intros em uq ml mr fs ow H. unfold merge_meta. rewrite H. reflexivity.
Qed.

(** ** [vmerge] *)

(** C9, where the code departs from it.  The left dataset has the key
    [id_l = 1], the right dataset a row with the key [id_r = 1]: the claim
    drops that row.  The code tests the column [left_on] of the right
    data against the column [right_on] of the left data (5 against 99),
    so the row is appended.  With one name for both keys ([on]) the row is
    dropped. *)
Theorem vmerge_tests_the_swapped_columns :
  option_map df_rows
    (merged_data
       (vmerge same_column uniq whole_float_str
          (Some (plain_meta [("id_l", "int"); ("id_r", "int")],
                 mkDF ["id_l"; "id_r"] [[CInt 1; CInt 99]]))
          (Some (plain_meta [("id_l", "int"); ("id_r", "int")],
                 mkDF ["id_l"; "id_r"] [[CInt 5; CInt 1]]))
          None None (Some "id_l") (Some "id_r") None None None [] false None))
  = Some [[CInt 1; CInt 99]; [CInt 5; CInt 1]]
  /\ option_map df_rows
       (merged_data
          (vmerge same_column uniq whole_float_str
             (Some (plain_meta [("id", "int"); ("v", "int")],
                    mkDF ["id"; "v"] [[CInt 1; CInt 99]]))
             (Some (plain_meta [("id", "int"); ("v", "int")],
                    mkDF ["id"; "v"] [[CInt 1; CInt 5]; [CInt 2; CInt 6]]))
             None (Some "id") None None None None None [] false None))
     = Some [[CInt 1; CInt 99]; [CInt 2; CInt 6]].
Proof. split; vm_compute; reflexivity. Qed.

(** ** Computations that went through *)

Lemma bind_ok {A B} (m : M A) (f : A -> M B) w b :
  bind m f = (w, Ok b) ->
  exists w1 a w2, m = (w1, Ok a) /\ f a = (w2, Ok b) /\ w = (w1 ++ w2)%list.
Proof.
  destruct m as [w1 [a|e]]; simpl; [|discriminate].
  destruct (f a) as [w2 r] eqn:E. intros [= <- ->]. eauto 6.
Qed.

Lemma ret_ok {A} (a b : A) w : ret a = (w, Ok b) -> a = b.
Proof. now intros [= _ ->]. Qed.

Tactic Notation "inv_bind" hyp(H) "as" ident(a) ident(H1) :=
  let w1 := fresh "w" in
  let w2 := fresh "w" in
  let Hw := fresh "Hw" in
  apply bind_ok in H; destruct H as (w1 & a & w2 & H1 & H & Hw); clear Hw.

Tactic Notation "inv_bind" hyp(H) :=
  let a := fresh "a" in
  let H1 := fresh "H" in
  inv_bind H as a H1.

Lemma foldM_ok {A B} (P : B -> Prop) (body : B -> A -> M B) l :
  forall acc w r,
    foldM body acc l = (w, Ok r) -> P acc ->
    (forall acc x w' acc', In x l -> P acc -> body acc x = (w', Ok acc') -> P acc') ->
    P r.
Proof.
  induction l as [|x l IH]; intros acc w r H Hacc Hstep; cbn [foldM] in H.
  - apply ret_ok in H. now subst.
  - inv_bind H. apply (IH a w1 r H).
    + apply (Hstep acc x w0 a); auto. now left.
    + intros acc0 y w' acc' Hy. apply Hstep. now right.
Qed.

Lemma mapM_ok {A B} (f : A -> M B) l :
  forall w ys, mapM f l = (w, Ok ys) ->
               Forall2 (fun x y => exists w', f x = (w', Ok y)) l ys.
Proof.
  induction l as [|x l IH]; intros w ys H; cbn [mapM] in H.
  - apply ret_ok in H. subst. constructor.
  - inv_bind H. inv_bind H. apply ret_ok in H. subst.
    constructor; [eauto | eapply IH; eauto].
Qed.

(** ** Key values *)

Lemma cell_eqb_sym a b : cell_eqb a b = cell_eqb b a.
Proof.
  destruct a, b; simpl; try reflexivity.
  - apply Z.eqb_sym.
  - apply Qeq_bool_comm.
  - apply String.eqb_sym.
Qed.

Lemma Qeq_bool_trans' x y z :
  Qeq_bool x y = true -> Qeq_bool z y = true -> Qeq_bool x z = true.
Proof.
  intros H1 H2. apply Qeq_bool_iff in H1, H2. apply Qeq_bool_iff.
  now rewrite H1, H2.
Qed.

Lemma cell_eqb_trans a b k :
  cell_eqb a k = true -> cell_eqb b k = true -> cell_eqb a b = true.
Proof.
  destruct a as [x|p|s|], b as [y|q|t|], k as [z|r|u|]; simpl; try discriminate;
    intros H1 H2;
    repeat match goal with
           | H : Z.eqb _ _ = true |- _ => apply Z.eqb_eq in H; subst
           | H : String.eqb _ _ = true |- _ => apply String.eqb_eq in H; subst
           | H : Qeq_bool _ _ = true |- _ => apply Qeq_bool_iff in H
           end;
    try reflexivity;
    try apply Z.eqb_refl; try apply String.eqb_refl;
    try (apply Z.eqb_eq; apply inject_Z_injective; now rewrite <- ?H1, <- ?H2);
    try (apply Qeq_bool_iff; now rewrite ?H1, ?H2).
Qed.

Lemma existsb_sub {A} (p : A -> bool) (l l' : list A) :
  (forall x, In x l -> In x l') -> existsb p l' = false -> existsb p l = false.
Proof.
  intros Hsub H. destruct (existsb p l) eqn:E; [|reflexivity].
  apply existsb_exists in E. destruct E as [x [Hx Hp]].
  assert (existsb p l' = true) by (apply existsb_exists; eauto). congruence.
Qed.

Lemma has_dup_filter {A} (g : A -> cell) (P : A -> bool) l :
  has_dup (map g l) = false -> has_dup (map g (filter P l)) = false.
Proof.
  induction l as [|x l IH]; simpl; [reflexivity|].
  intros H. apply orb_false_iff in H. destruct H as [Hx Hl].
  destruct (P x); simpl; [|now apply IH].
  apply orb_false_iff. split; [|now apply IH].
  revert Hx. apply existsb_sub. intros c Hc.
  apply in_map_iff in Hc. destruct Hc as [y [<- Hy]].
  apply filter_In in Hy. apply in_map. tauto.
Qed.

(** A key column without duplicates holds a key value at most once. *)
Lemma unique_match (l : list cell) k :
  has_dup l = false -> (List.length (filter (fun c => cell_eqb c k) l) <= 1)%nat.
Proof.
  induction l as [|x l IH]; simpl; [lia|].
  intros H. apply orb_false_iff in H. destruct H as [Hx Hl].
  destruct (cell_eqb x k) eqn:E; [|now apply IH].
  assert (N : filter (fun c => cell_eqb c k) l = []).
  { destruct (filter (fun c => cell_eqb c k) l) as [|y ys] eqn:F; [reflexivity|].
    assert (Hy : In y (filter (fun c => cell_eqb c k) l)) by (rewrite F; now left).
    apply filter_In in Hy. destruct Hy as [Hy1 Hy2].
    assert (existsb (cell_eqb x) l = true).
    { apply existsb_exists. exists y. split; [exact Hy1|].
      now apply (cell_eqb_trans x y k). }
    congruence. }
  rewrite N. simpl. lia.
Qed.

Lemma filter_column {A} (g : A -> cell) k (l : list A) :
  List.length (filter (fun r => cell_eqb (g r) k) l)
  = List.length (filter (fun c => cell_eqb c k) (map g l)).
Proof.
  induction l as [|x l IH]; simpl; [reflexivity|].
  destruct (cell_eqb (g x) k); simpl; now rewrite IH.
Qed.


(** ** Frames *)

Lemma column_position_ok name df w j :
  column_position name df = (w, Ok j) -> index_of name (df_columns df) = Some j.
Proof.
  unfold column_position. destruct (index_of name (df_columns df)); [|discriminate].
  intros H. apply ret_ok in H. now subst.
Qed.

Lemma index_of_nth name cols j :
  index_of name cols = Some j -> nth_error cols j = Some name.
Proof.
  revert j. induction cols as [|c cols IH]; intros j; simpl; [discriminate|].
  destruct (String.eqb_spec name c) as [->|N].
  - now intros [= <-].
  - destruct (index_of name cols); simpl; [|discriminate].
    intros [= <-]. now apply IH.
Qed.

Lemma index_of_In name cols j : index_of name cols = Some j -> In name cols.
Proof. intros H. apply index_of_nth in H. now apply nth_error_In in H. Qed.

Lemma select_columns_ok names df w s :
  select_columns names df = (w, Ok s) ->
  df_columns s = names
  /\ exists js,
       Forall2 (fun n j => index_of n (df_columns df) = Some j) names js
       /\ df_rows s = map (fun r => map (fun j => get_cell j r) js) (df_rows df).
Proof.
  unfold select_columns. intros H. inv_bind H. apply ret_ok in H. subst s.
  split; [reflexivity|]. exists a. split; [|reflexivity].
  apply mapM_ok in H0. clear - H0.
  induction H0 as [|n j names js [w' Hn] _ IH]; constructor; [|exact IH].
  now apply column_position_ok in Hn.
Qed.

Lemma selected_cell (names : list string) (js : list nat) (cols : list string)
      name p j (r : list cell) :
  Forall2 (fun n j => index_of n cols = Some j) names js ->
  index_of name names = Some p -> index_of name cols = Some j ->
  get_cell p (map (fun j => get_cell j r) js) = get_cell j r.
Proof.
  intros F. revert p. induction F as [|n i names js Hn _ IH]; intros p; simpl;
    [discriminate|].
  destruct (String.eqb_spec name n) as [->|N].
  - intros [= <-] Hj. simpl. unfold get_cell at 1. simpl. congruence.
  - destruct (index_of name names) as [p'|]; simpl; [|discriminate].
    intros [= <-] Hj. unfold get_cell at 1. simpl.
    now apply (IH p' eq_refl).
Qed.

Lemma select_columns_keys names df w s key :
  select_columns names df = (w, Ok s) ->
  unique_keys key df -> unique_keys key s.
Proof.
  intros H U p Hp.
  destruct (select_columns_ok _ _ _ _ H) as [Hc [js [F Hr]]].
  rewrite Hc in Hp.
  destruct (index_of key (df_columns df)) as [j|] eqn:Hj.
  - specialize (U j Hj). unfold column_cells in *. rewrite Hr, map_map.
    rewrite (map_ext _ (get_cell j)); [exact U|].
    intros r. now apply (selected_cell names js (df_columns df) key).
  - exfalso. clear - F Hp Hj.
    revert p Hp. induction F as [|n i names js Hn _ IH]; intros p; simpl;
      [discriminate|].
    destruct (String.eqb_spec key n) as [->|N]; [congruence|].
    destruct (index_of key names) as [p'|]; simpl; [|discriminate].
    intros _. now apply (IH p').
Qed.



(** ** [hmerge] *)

Lemma slice_right_ok data_left data_right left_on right_on w d :
  slice_right data_left data_right left_on right_on = (w, Ok d) ->
  df_columns d = df_columns data_right
  /\ (unique_keys right_on data_right -> unique_keys right_on d)
  /\ In left_on (df_columns data_left).
Proof.
  unfold slice_right. intros H. inv_bind H. inv_bind H.
  apply ret_ok in H. subst d. simpl. split; [reflexivity|]. split.
  - intros U j Hj. simpl in Hj. specialize (U j Hj).
    unfold column_cells in *. simpl. now apply has_dup_filter.
  - apply column_position_ok in H1. now apply index_of_In in H1.
Qed.

Lemma update_known_columns_shape float_str meta_left data_left data_right
      left_on right_on col_updates update_right_on merge_existing w d :
  update_known_columns float_str meta_left data_left data_right left_on right_on
    col_updates update_right_on merge_existing = (w, Ok d) ->
  df_columns d = df_columns data_left
  /\ List.length (df_rows d) = List.length (df_rows data_left).
Proof.
  unfold update_known_columns. intros H.
  repeat inv_bind H. apply ret_ok in H. subst d. simpl.
  split; [reflexivity | apply length_map].
Qed.




(** ** What [merge_meta] reports *)

Lemma dict_has_set {V} k k' (v : V) d :
  dict_has k (dict_set k' v d) = orb (String.eqb k k') (dict_has k d).
Proof.
  unfold dict_has. induction d as [|[k0 v0] d IH]; simpl.
  - now destruct (String.eqb k k').
  - destruct (String.eqb_spec k' k0) as [->|N]; simpl.
    + now destruct (String.eqb k k0).
    + destruct (String.eqb_spec k k0) as [->|N0]; simpl.
      * destruct (String.eqb_spec k0 k'); [congruence | reflexivity].
      * exact IH.
Qed.

Lemma fold_left_keeps {A B C} (g : B -> C) (f : B -> A -> B) l :
  (forall b a, g (f b a) = g b) -> forall b, g (fold_left f l b) = g b.
Proof.
  intros H. induction l as [|a l IH]; intros b; simpl; [reflexivity|].
  now rewrite IH, H.
Qed.

Lemma update_mask_meta_columns left_meta right_meta mask overwrite w m :
  _update_mask_meta left_meta right_meta mask overwrite = (w, Ok m) ->
  columns m = columns left_meta.
Proof.
  unfold _update_mask_meta. intros H. inv_bind H. inv_bind H.
  apply (foldM_ok (fun lm => columns lm = columns left_meta) _ _ _ _ _ H);
    [reflexivity|].
  intros lm item w' lm' _ Hlm Hstep. inv_bind Hstep.
  destruct (existsb _ _).
  - apply ret_ok in Hstep. now subst lm'.
  - inv_bind Hstep. apply ret_ok in Hstep. now subst lm'.
Qed.

Lemma merge_masks_columns meta_left meta_right masks_ overwrite w m :
  merge_masks meta_left meta_right masks_ overwrite = (w, Ok m) ->
  columns m = columns meta_left.
Proof.
  unfold merge_masks. intros H.
  apply (foldM_ok (fun lm => columns lm = columns meta_left) _ _ _ _ _ H);
    [reflexivity|].
  intros lm mask w' lm' _ Hlm Hstep.
  destruct (negb _).
  - inv_bind Hstep. apply ret_ok in Hstep. now subst lm'.
  - apply update_mask_meta_columns in Hstep. congruence.
Qed.

Lemma merge_sets_columns meta_left meta_right :
  columns (merge_sets meta_left meta_right) = columns meta_left.
Proof.
  unfold merge_sets. apply fold_left_keeps. intros lm s.
  now destruct (dict_get s (sets meta_right)).
Qed.

Lemma merge_lib_values_columns meta_left meta_right :
  columns (merge_lib_values meta_left meta_right) = columns meta_left.
Proof.
  unfold merge_lib_values. apply fold_left_keeps. intros lm [val right_list].
  destruct (dict_get val (lib_values lm)); [|reflexivity].
  now destruct (orb _ _).
Qed.

Lemma append_data_file_columns meta_left items w m :
  append_data_file meta_left items = (w, Ok m) -> columns m = columns meta_left.
Proof.
  unfold append_data_file. intros H.
  apply (foldM_ok (fun lm => columns lm = columns meta_left) _ _ _ _ _ H);
    [reflexivity|].
  intros lm item w' lm' _ Hlm Hstep. inv_bind Hstep.
  destruct (Py.mem _ _); apply ret_ok in Hstep; now subst lm'.
Qed.

Lemma merge_one_column_ok emulate_meta meta_right overwrite_text mask_items_
      meta_left col_updates col_name w m upd :
  merge_one_column emulate_meta meta_right overwrite_text mask_items_
    (meta_left, col_updates) col_name = (w, Ok (m, upd)) ->
  (forall n, dict_has n (columns m)
             = orb (String.eqb n col_name) (dict_has n (columns meta_left)))
  /\ upd = (col_updates
            ++ if dict_has col_name (columns meta_left) then [col_name] else [])%list.
Proof.
  unfold merge_one_column. intros H. inv_bind H. inv_bind H.
  destruct a0 as [c upd']. apply ret_ok in H. injection H as <- <-. simpl.
  split; [intros n; apply dict_has_set|].
  unfold dict_has. destruct (dict_get col_name (columns meta_left)).
  - inv_bind H1. apply ret_ok in H1. now injection H1 as _ <-.
  - apply ret_ok in H1. injection H1 as _ <-. now rewrite List.app_nil_r.
Qed.

Lemma merge_columns_ok emulate_meta meta_right overwrite_text mask_items_ cols :
  NoDup cols ->
  forall meta_left col_updates w m upd,
    foldM (merge_one_column emulate_meta meta_right overwrite_text mask_items_)
          (meta_left, col_updates) cols = (w, Ok (m, upd)) ->
    (forall n, dict_has n (columns m)
               = orb (Py.mem n cols) (dict_has n (columns meta_left)))
    /\ upd = (col_updates
              ++ filter (fun c => dict_has c (columns meta_left)) cols)%list.
Proof.
  induction 1 as [|c cols Hc ND IH]; intros ml upd0 w m upd H; cbn [foldM] in H.
  - apply ret_ok in H. injection H as <- <-. simpl.
    split; [reflexivity | now rewrite List.app_nil_r].
  - inv_bind H. destruct a as [m1 upd1].
    apply merge_one_column_ok in H0. destruct H0 as [D1 U1].
    apply IH in H. destruct H as [D U]. split.
    + intros n. rewrite D, D1. unfold Py.mem. simpl.
      rewrite orb_assoc. f_equal. apply orb_comm.
    + rewrite U, U1, <- List.app_assoc. f_equal. simpl.
      assert (E : filter (fun c0 => dict_has c0 (columns m1)) cols
                  = filter (fun c0 => dict_has c0 (columns ml)) cols).
      { apply filter_ext_in. intros n Hn. rewrite D1.
        destruct (String.eqb_spec n c) as [->|_]; [contradiction | reflexivity]. }
      rewrite E. now destruct (dict_has c (columns ml)).
Qed.

(** The columns reported as updates are those of [cols] that the left
    document declared. *)
Lemma merge_meta_ok emulate_meta uniquify_list meta_left meta_right from_set
      overwrite_text w m cols upd :
  (forall l, NoDup (uniquify_list l)) ->
  merge_meta emulate_meta uniquify_list meta_left meta_right from_set overwrite_text
  = (w, Ok (m, cols, upd)) ->
  NoDup cols
  /\ (forall n, dict_has n (columns m)
                = orb (Py.mem n cols) (dict_has n (columns meta_left)))
  /\ upd = filter (fun c => dict_has c (columns meta_left)) cols.
Proof.
  intros Huq. unfold merge_meta. intros H. inv_bind H as found Hfound.
  destruct found as [lm [[cols0 mi]|]]; [|discriminate].
  inv_bind H as r Hfold. destruct r as [lm' upd'].
  inv_bind H as the_set Hset. inv_bind H as lm2 Hfile.
  apply ret_ok in H. injection H as <- <- <-.
  assert (C : columns lm = columns meta_left /\ NoDup cols0).
  { destruct (dict_get _ (sets meta_right)); [|apply ret_ok in Hfound; discriminate].
    inv_bind Hfound as cmi Hcmi. destruct cmi as [[c0 m0] mi0].
    inv_bind Hfound as lm1 Hmasks.
    apply ret_ok in Hfound. injection Hfound as <- <- _.
    rewrite merge_lib_values_columns, merge_sets_columns.
    apply merge_masks_columns in Hmasks. split; [exact Hmasks | apply Huq]. }
  destruct C as [C ND].
  apply (merge_columns_ok _ _ _ _ _ ND) in Hfold. destruct Hfold as [D U].
  apply append_data_file_columns in Hfile. rewrite Hfile, <- C.
  split; [exact ND|]. split; [exact D | exact U].
Qed.

Lemma mem_In x l : Py.mem x l = true <-> In x l.
Proof.
  unfold Py.mem. rewrite existsb_exists. split.
  - intros [y [Hy E]]. apply String.eqb_eq in E. now subst.
  - intros H. exists x. split; [exact H | apply String.eqb_refl].
Qed.

Lemma mem_not_In x l : Py.mem x l = false <-> ~ In x l.
Proof.
  rewrite <- mem_In. destruct (Py.mem x l); split; congruence.
Qed.

Lemma list_remove_other x l l' n :
  list_remove x l = Some l' -> n <> x -> (In n l' <-> In n l).
Proof.
  revert l'. induction l as [|y l IH]; intros l'; simpl; [discriminate|].
  destruct (String.eqb_spec x y) as [->|N].
  - intros [= <-] Hn. split; [now right | intros [H|H]; [congruence | exact H]].
  - destruct (list_remove x l) as [l0|]; simpl; [|discriminate].
    intros [= <-] Hn. simpl. now rewrite (IH l0 eq_refl Hn).
Qed.

Lemma enumerate_all_kept {A} (l : list A) k k0 :
  (k0 < k)%nat ->
  map snd (filter (fun jc : nat * A => negb (Nat.eqb (fst jc) k0))
                  (enumerate k l)) = l.
Proof.
  revert k. induction l as [|x l IH]; intros k Hk; simpl; [reflexivity|].
  destruct (Nat.eqb_spec k k0); [lia|]. simpl. f_equal. apply IH. lia.
Qed.

Lemma filter_absent key l :
  ~ In key l -> filter (fun n => negb (String.eqb n key)) l = l.
Proof.
  induction l as [|x l IH]; intros H; simpl; [reflexivity|].
  destruct (String.eqb_spec x key) as [->|_]; [exfalso; apply H; now left|].
  simpl. f_equal. apply IH. intros Hin. apply H. now right.
Qed.

Lemma kept_without_key key cols :
  NoDup cols -> forall k ri, index_of key cols = Some ri ->
  map snd (filter (fun jc : nat * string =>
                     negb (Nat.eqb (fst jc) (k + ri)))
                  (enumerate k cols))
  = filter (fun n => negb (String.eqb n key)) cols.
Proof.
  induction 1 as [|c cols Hc ND IH]; intros k ri; simpl; [discriminate|].
  destruct (String.eqb_spec key c) as [->|N].
  - intros [= <-]. rewrite Nat.add_0_r, Nat.eqb_refl, String.eqb_refl. simpl.
    rewrite enumerate_all_kept by lia. now rewrite filter_absent.
  - destruct (index_of key cols) as [ri'|]; simpl; [|discriminate].
    intros [= <-]. destruct (Nat.eqb_spec k (k + S ri')); [lia|].
    destruct (String.eqb_spec c key); [congruence|]. simpl. f_equal.
    replace (k + S ri')%nat with (S k + ri')%nat by lia. now apply IH.
Qed.

Lemma map_unchanged (f : string -> string) l :
  (forall n, In n l -> f n = n) -> map f l = l.
Proof.
  induction l as [|x l IH]; intros H; simpl; [reflexivity|].
  rewrite (H x (or_introl eq_refl)), IH; [reflexivity|].
  intros n Hn. apply H. now right.
Qed.

(** With one name for the key and no other name shared, the join puts
    the right columns, the key apart, after the left ones. *)
Lemma merge_left_columns left right key w d :
  merge_left left right key key = (w, Ok d) ->
  NoDup (df_columns right) ->
  (forall n, In n (df_columns right) -> n <> key -> ~ In n (df_columns left)) ->
  df_columns d
  = (df_columns left ++ filter (fun n => negb (String.eqb n key)) (df_columns right))%list.
Proof.
  unfold merge_left. intros H ND Hfresh.
  inv_bind H as li Hli. inv_bind H as ri Hri. apply ret_ok in H. subst d. simpl.
  apply column_position_ok in Hri.
  rewrite String.eqb_refl. cbn [andb].
  pose proof (kept_without_key key (df_columns right) ND 0%nat ri Hri) as K.
  cbn [Nat.add] in K. rewrite K.
  assert (F : forall n, In n (filter (fun n => negb (String.eqb n key)) (df_columns right))
                        -> ~ In n (df_columns left)).
  { intros n Hn. apply filter_In in Hn. destruct Hn as [Hn Hk].
    apply Hfresh; [exact Hn|]. intros ->. now rewrite String.eqb_refl in Hk. }
  f_equal.
  - apply map_unchanged. intros n Hn.
    destruct (Py.mem n _) eqn:E; [|reflexivity].
    apply mem_In in E. now apply F in E.
  - apply map_unchanged. intros n Hn.
    destruct (Py.mem n (df_columns left)) eqn:E; [|reflexivity].
    apply mem_In in E. now apply F in Hn.
Qed.





(** ** [frange] *)

Lemma bind_assoc {A B C} (m : M A) (f : A -> M B) (g : B -> M C) :
  bind (bind m f) g = bind m (fun a => bind (f a) g).
Proof.
  destruct m as [w [a|e]]; simpl; [|reflexivity].
  destruct (f a) as [w1 [b|e]]; simpl; [|reflexivity].
  destruct (g b) as [w2 r]. now rewrite List.app_assoc.
Qed.

Lemma bind_ret_r {A} (m : M A) : bind m (fun a => ret a) = m.
Proof.
  destruct m as [w [a|e]]; simpl; [|reflexivity]. now rewrite List.app_nil_r.
Qed.

Lemma bind_raise {A B} (e : exn) (f : A -> M B) : bind (raise e) f = raise e.
Proof. reflexivity. Qed.

(** The separator is not found in a string that holds none of its first
    character. *)
Lemma split_from_none c0 sep' x :
  all_chars (fun c => negb (Ascii.eqb c c0)) x = true ->
  split_from (String c0 sep') 0 x = [x].
Proof.
  induction x as [|c x IH]; [reflexivity|].
  intros H. cbn [all_chars] in H. apply andb_true_iff in H. destruct H as [Hc Hx].
  apply negb_true_iff in Hc. cbn [split_from String.prefix].
  destruct (ascii_dec c0 c) as [->|_]; [now rewrite Ascii.eqb_refl in Hc|].
  now rewrite (IH Hx).
Qed.

Lemma split_from_skip sep s y :
  split_from sep (String.length s) (s ++ y) = split_from sep 0 y.
Proof.
  induction s as [|c s IH]; [reflexivity|].
  cbn [String.length String.append split_from]. exact IH.
Qed.

Lemma prefix_append s y : String.prefix s (s ++ y) = true.
Proof.
  induction s as [|c s IH]; simpl; [now destruct y|].
  destruct (ascii_dec c c); [exact IH | congruence].
Qed.

Lemma split_from_first c0 sep' x y :
  all_chars (fun c => negb (Ascii.eqb c c0)) x = true ->
  split_from (String c0 sep') 0 (x ++ String c0 sep' ++ y)
  = x :: split_from (String c0 sep') 0 y.
Proof.
  induction x as [|c x IH]; intros H.
  - change ("" ++ String c0 sep' ++ y) with (String c0 (sep' ++ y)).
    cbn [split_from]. 
    change (String c0 (sep' ++ y)) with (String c0 sep' ++ y) at 1.
    rewrite prefix_append.
    cbn [String.length]. rewrite Nat.sub_succ, Nat.sub_0_r.
    now rewrite split_from_skip.
  - cbn [all_chars] in H. apply andb_true_iff in H. destruct H as [Hc Hx].
    apply negb_true_iff in Hc.
    change (String c x ++ String c0 sep' ++ y)
      with (String c (x ++ String c0 sep' ++ y)).
    cbn [split_from String.prefix].
    destruct (ascii_dec c0 c) as [->|_]; [now rewrite Ascii.eqb_refl in Hc|].
    now rewrite (IH Hx).
Qed.

Lemma starts_plain_inv sep :
  starts_plain sep = true ->
  exists c0 sep', sep = String c0 sep' /\ sign_or_digit c0 = false.
Proof.
  destruct sep as [|c0 sep']; [discriminate|].
  simpl. intros H. apply negb_true_iff in H. eauto.
Qed.

Lemma without_first c0 x :
  sign_or_digit c0 = false -> all_chars sign_or_digit x = true ->
  all_chars (fun c => negb (Ascii.eqb c c0)) x = true.
Proof.
  intros H. apply all_chars_weaken. intros c Hc. apply negb_true_iff.
  destruct (Ascii.eqb_spec c c0) as [->|_]; [congruence | reflexivity].
Qed.

(** What [frange_item] adds does not depend on what was collected. *)
Lemma frange_item_shift py_int res item :
  frange_item py_int res item
  = (r <- frange_item py_int [] item ;; ret (res ++ r)%list).
Proof.
  unfold frange_item. destruct (contains "-" item).
  - destruct (Py.split "-" item) as [|a [|b [|c l]]]; try reflexivity.
    rewrite !bind_assoc. apply bind_ext. intros x.
    rewrite !bind_assoc. apply bind_ext. intros y.
    now rewrite bind_ret.
  - rewrite bind_assoc. apply bind_ext. intros n. now rewrite bind_ret.
Qed.

Lemma frange_items_shift py_int items : forall res,
  foldM (frange_item py_int) res items
  = (r <- foldM (frange_item py_int) [] items ;; ret (res ++ r)%list).
Proof.
  induction items as [|item items IH]; intros res; cbn [foldM].
  - now rewrite bind_ret, List.app_nil_r.
  - rewrite frange_item_shift, !bind_assoc.
    rewrite (frange_item_shift py_int [] item), !bind_assoc.
    apply bind_ext. intros r. rewrite !bind_ret. cbn [List.app].
    rewrite (IH (res ++ r)%list), (IH r), bind_assoc.
    apply bind_ext. intros r'. rewrite bind_ret.
    now rewrite List.app_assoc.
Qed.

Lemma uint_is_digits d : all_chars is_digit (NilEmpty.string_of_uint d) = true.
Proof. induction d; simpl; auto. Qed.

Lemma str_unsigned z : 0 <= z -> all_chars is_digit (Py.str z) = true.
Proof.
  intros H. unfold Py.str. destruct z as [|p|p]; [reflexivity| |lia].
  apply uint_is_digits.
Qed.

Lemma digits_without_minus s :
  all_chars is_digit s = true ->
  contains "-" s = false
  /\ all_chars (fun c => negb (Ascii.eqb c "-")) s = true
  /\ all_chars sign_or_digit s = true.
Proof.
  induction s as [|c s IH]; [now repeat split|].
  cbn [all_chars contains]. intros H. apply andb_true_iff in H.
  destruct H as [Hc Hs]. destruct (IH Hs) as [I1 [I2 I3]].
  rewrite I1, I2, I3.
  assert (N : Ascii.eqb c "-" = false).
  { destruct (Ascii.eqb_spec c "-") as [->|_]; [discriminate Hc | reflexivity]. }
  rewrite (Ascii.eqb_sym "-" c), N. unfold sign_or_digit.
  fold (is_digit c). rewrite Hc, N. now repeat split.
Qed.

Lemma contains_app c a b : contains c (a ++ b) = orb (contains c a) (contains c b).
Proof.
  induction a as [|x a IH]; simpl; [reflexivity|].
  now rewrite IH, orb_assoc.
Qed.

Lemma rev_range lo n :
  rev (map (fun i => lo + Z.of_nat i) (seq 0 n))
  = map (fun i => lo + Z.of_nat n - 1 - Z.of_nat i) (seq 0 n).
Proof.
  induction n as [|n IH]; [reflexivity|].
  rewrite seq_S at 1. rewrite map_app, rev_app_distr.
  cbn [map rev List.app Nat.add]. rewrite IH. cbn [seq map]. f_equal; [lia|].
  rewrite <- seq_shift, map_map. apply map_ext. intros i. lia.
Qed.

Lemma range_counts a b :
  (if Z.leb b a then rev (py_range (Z.min a b) (Z.max a b + 1))
   else py_range (Z.min a b) (Z.max a b + 1))
  = count_from a b.
Proof.
  unfold count_from, py_range.
  destruct (Z.leb_spec b a) as [L|L].
  - rewrite rev_range.
    replace (Z.to_nat (Z.max a b + 1 - Z.min a b)) with (S (Z.to_nat (Z.abs (b - a)))) by lia.
    apply map_ext_in. intros i Hi. apply in_seq in Hi.
    destruct (Z.ltb_spec b a); lia.
  - replace (Z.to_nat (Z.max a b + 1 - Z.min a b)) with (S (Z.to_nat (Z.abs (b - a)))) by lia.
    apply map_ext. intros i. destruct (Z.ltb_spec b a); lia.
Qed.

(** X1.  [frange] on one item, with a separator that starts with a
    character other than a digit and the minus sign: the string of a
    non-negative int gives that int, and ["a-b"] gives the ints from [a]
    to [b], both included, counting down when [b] is below [a]. *)
Theorem frange_counts_from_a_to_b (py_int : string -> option Z) (sep : string)
    (a b : Z) :
  (forall z, 0 <= z -> py_int (Py.str z) = Some z) ->
  starts_plain sep = true -> 0 <= a -> 0 <= b ->
  frange py_int (Py.str a) sep = ret [a]
  /\ frange py_int (Py.str a ++ "-" ++ Py.str b) sep = ret (count_from a b).
Proof.
  intros Hint Hsep Ha Hb.
  destruct (starts_plain_inv sep Hsep) as [c0 [sep' [-> Hc0]]].
  destruct (digits_without_minus _ (str_unsigned a Ha)) as [A1 [A2 A3]].
  destruct (digits_without_minus _ (str_unsigned b Hb)) as [B1 [B2 B3]].
  unfold frange, str_split. rewrite !bind_ret. split.
  - rewrite split_from_none by now apply without_first.
    cbn [foldM]. unfold frange_item, int_of. rewrite A1, (Hint a Ha), !bind_ret.
    reflexivity.
  - rewrite split_from_none.
    + cbn [foldM]. unfold frange_item, int_of.
      rewrite contains_app, A1. cbn [orb].
      change ("-" ++ Py.str b) with (String "-" (Py.str b)).
      change (contains "-" (String "-" (Py.str b))) with true. cbv iota.
      rewrite (split_app "-" (Py.str a) (Py.str b) A2), (split_plain "-" _ B2).
      rewrite (Hint a Ha), (Hint b Hb), !bind_ret. cbn [List.app].
      now rewrite range_counts.
    + apply without_first; [exact Hc0|].
      rewrite !all_chars_app, A3, B3. reflexivity.
Qed.

Lemma frange_counts_from_a_to_b_witness :
  frange Py.int "3" "," = ret [3]
  /\ frange Py.int "3-1" "," = ret [3; 2; 1].
Proof.
  exact (frange_counts_from_a_to_b Py.int "," 3 1 (fun z _ => int_of_str z)
           eq_refl ltac:(lia) ltac:(lia)).
Defined.

(** X2.  [frange] works item by item: with a separator that starts with
    a character other than a digit and the minus sign, the list for
    [x + sep + y], where [x] is made of digits and minus signs, is the
    list for [x] followed by the list for [y], and it raises what the
    first of the two raises. *)
Theorem frange_adds_up_the_items (py_int : string -> option Z)
    (sep x y : string) :
  starts_plain sep = true -> all_chars sign_or_digit x = true ->
  frange py_int (x ++ sep ++ y) sep
  = (l1 <- frange py_int x sep ;;
     l2 <- frange py_int y sep ;;
     ret (l1 ++ l2)%list).
Proof.
  intros Hsep Hx.
  destruct (starts_plain_inv sep Hsep) as [c0 [sep' [-> Hc0]]].
  pose proof (without_first c0 x Hc0 Hx) as W.
  unfold frange, str_split. rewrite !bind_ret.
  rewrite (split_from_first c0 sep' x y W), (split_from_none c0 sep' x W).
  cbn [foldM]. rewrite !bind_assoc. apply bind_ext. intros r.
  rewrite !bind_ret. apply frange_items_shift.
Qed.

Lemma frange_adds_up_the_items_witness :
  frange Py.int "1-3,7,5-4" ","
  = (l1 <- frange Py.int "1-3" "," ;;
     l2 <- frange Py.int "7,5-4" "," ;;
     ret (l1 ++ l2)%list).
Proof.
  exact (frange_adds_up_the_items Py.int "," "1-3" "7,5-4" eq_refl eq_refl).
Defined.

(** X3.  [frange] cannot list a negative number and does not read the
    empty string as the empty list: whatever the separator, the empty
    string and every string that starts with a minus sign raise
    [ValueError] (when [int('')] does, as in Python). *)
Theorem frange_has_no_negative_numbers (py_int : string -> option Z)
    (sep rest : string) :
  py_int "" = None ->
  (exists msg, frange py_int "" sep = raise (ValueError msg))
  /\ (exists msg, frange py_int (String "-" rest) sep = raise (ValueError msg)).
Proof.
  intros Hint.
  assert (E : exists msg, frange_item py_int [] "" = raise (ValueError msg)).
  { unfold frange_item, int_of. cbn [contains]. rewrite Hint.
    eexists. reflexivity. }
  assert (D : forall w, exists msg,
             frange_item py_int [] (String "-" w) = raise (ValueError msg)).
  { intros w. unfold frange_item.
    change (contains "-" (String "-" w)) with true. cbv iota.
    change (Py.split "-" (String "-" w)) with ("" :: Py.split "-" w).
    destruct (Py.split "-" w) as [|r [|r2 l]]; try (eexists; reflexivity).
    unfold int_of. rewrite Hint. eexists. reflexivity. }
  unfold frange, str_split.
  destruct sep as [|c0 sep']; [split; eexists; reflexivity|].
  rewrite !bind_ret. split.
  - cbn [split_from foldM]. destruct E as [msg ->]. eexists. reflexivity.
  - cbn [split_from].
    destruct (String.prefix (String c0 sep') (String "-" rest)).
    + cbn [foldM]. destruct E as [msg ->]. eexists. reflexivity.
    + destruct (split_from (String c0 sep') 0 rest) as [|w ws];
        cbn [foldM]; [destruct (D "") as [msg ->] | destruct (D w) as [msg ->]];
        eexists; reflexivity.
Qed.

Lemma frange_has_no_negative_numbers_witness :
  (exists msg, frange Py.int "" "," = raise (ValueError msg))
  /\ (exists msg, frange Py.int "-3" "," = raise (ValueError msg)).
Proof.
  exact (frange_has_no_negative_numbers Py.int "," "3" eq_refl).
Defined.

(** ** [subset_dataset] and [define_multicodes] *)

Lemma dict_get_set {V} k k' (v : V) d :
  dict_get k (dict_set k' v d) = if String.eqb k k' then Some v else dict_get k d.
Proof.
  induction d as [|[k0 v0] d IH]; simpl.
  - reflexivity.
  - destruct (String.eqb_spec k' k0) as [->|N]; simpl.
    + now destruct (String.eqb k k0).
    + rewrite IH. destruct (String.eqb_spec k k0) as [->|N'].
      * destruct (String.eqb_spec k0 k'); [congruence | reflexivity].
      * reflexivity.
Qed.

Lemma In_index_of name cols : In name cols -> exists j, index_of name cols = Some j.
Proof.
  induction cols as [|c cols IH]; [contradiction|].
  intros H. simpl. destruct (String.eqb_spec name c) as [->|N]; [eauto|].
  destruct H as [H|H]; [congruence|].
  destruct (IH H) as [j ->]. simpl. eauto.
Qed.

Lemma raises_only_bind {A B} P (m : M A) (f : A -> M B) :
  raises_only P m -> (forall a, raises_only P (f a)) -> raises_only P (bind m f).
Proof.
  unfold raises_only. destruct m as [w [a|e]]; simpl; [|auto].
  intros _ H. specialize (H a). destruct (f a) as [w' r]. exact H.
Qed.

Lemma raises_only_foldM {A B} P (body : B -> A -> M B) l :
  (forall acc x, raises_only P (body acc x)) ->
  forall acc, raises_only P (foldM body acc l).
Proof.
  intros H. induction l as [|x l IH]; intros acc; cbn [foldM]; [exact I|].
  apply raises_only_bind; [apply H | apply IH].
Qed.

Lemma raises_only_mapM {A B} P (f : A -> M B) l :
  (forall x, raises_only P (f x)) -> raises_only P (mapM f l).
Proof.
  intros H. induction l as [|x l IH]; cbn [mapM]; [exact I|].
  apply raises_only_bind; [apply H|]. intros y.
  apply raises_only_bind; [apply IH|]. intros ys. exact I.
Qed.

Lemma dict_item_key_error {V} k (d : list (string * V)) :
  raises_only is_key_error (dict_item k d).
Proof.
  unfold dict_item, raises_only. destruct (dict_get k d); simpl; [exact I|].
  now exists k.
Qed.

Lemma select_columns_key_error names df :
  raises_only is_key_error (select_columns names df).
Proof.
  unfold select_columns. apply raises_only_bind; [|intros js; exact I].
  apply raises_only_mapM. intros n. unfold column_position, raises_only.
  destruct (index_of n (df_columns df)); simpl; [exact I | now exists n].
Qed.

(** Every step of a loop that went through went through. *)
Lemma foldM_steps {A B} (body : B -> A -> M B) l :
  forall acc w r,
    foldM body acc l = (w, Ok r) ->
    forall x, In x l -> exists acc0 w' acc', body acc0 x = (w', Ok acc').
Proof.
  induction l as [|y l IH]; intros acc w r H x Hx; [contradiction|].
  cbn [foldM] in H. inv_bind H as acc1 Hstep. destruct Hx as [->|Hx].
  - eauto.
  - exact (IH _ _ _ H x Hx).
Qed.

Lemma select_columns_total names df :
  Forall (fun c => In c (df_columns df)) names ->
  exists js,
    Forall2 (fun n j => index_of n (df_columns df) = Some j) names js
    /\ select_columns names df
       = ret (mkDF names (map (fun r => map (fun j => get_cell j r) js) (df_rows df))).
Proof.
  intros H. unfold select_columns.
  assert (E : exists js,
             Forall2 (fun n j => index_of n (df_columns df) = Some j) names js
             /\ mapM (fun n => column_position n df) names = ret js).
  { induction H as [|n names Hn _ [js [F E]]].
    - exists []. split; [constructor | reflexivity].
    - destruct (In_index_of _ _ Hn) as [j Hj]. exists (j :: js). split.
      + now constructor.
      + cbn [mapM]. unfold column_position at 1. rewrite Hj, bind_ret, E, bind_ret.
        reflexivity. }
  destruct E as [js [F E]]. exists js. split; [exact F|].
  now rewrite E, bind_ret.
Qed.

Lemma subset_columns_loop meta cols :
  Forall (fun c => dict_has c (columns meta) = true) cols ->
  forall sm,
    foldM (fun sm col =>
             c <- dict_item col (columns meta) ;;
             ret (mkMeta (dict_set col c (columns sm)) (masks sm) (sets sm)
                         (lib_values sm) (default_text sm)))
          sm cols
    = ret (mkMeta (copied_columns meta cols (columns sm)) (masks sm) (sets sm)
                  (lib_values sm) (default_text sm)).
Proof.
  induction 1 as [|c cols Hc _ IH]; intros sm; cbn [foldM].
  - now destruct sm.
  - unfold dict_has in Hc. unfold dict_item at 1, copied_columns. cbn [fold_left].
    destruct (dict_get c (columns meta)) as [x|]; [|discriminate].
    rewrite !bind_ret, IH. reflexivity.
Qed.

Lemma subset_items_loop (P : string -> bool) items :
  forall cs ms acc lv dt,
    foldM (fun sm col_mapper =>
             if P col_mapper then
               df <- dict_item "data file" (sets sm) ;;
               ret (mkMeta (columns sm) (masks sm)
                           (dict_set "data file"
                                     (mkSet (set_items df ++ [col_mapper])%list)
                                     (sets sm))
                           (lib_values sm) (default_text sm))
             else ret sm)
          (mkMeta cs ms [("data file", mkSet acc)] lv dt) items
    = ret (mkMeta cs ms [("data file", mkSet (acc ++ filter P items)%list)] lv dt).
Proof.
  induction items as [|item items IH]; intros cs ms acc lv dt; cbn [foldM filter].
  - now rewrite List.app_nil_r.
  - destruct (P item).
    + cbn [sets dict_item dict_get String.eqb]. 
      change (dict_item "data file" [("data file", mkSet acc)]) with (ret (mkSet acc)).
      rewrite !bind_ret. cbn [set_items columns masks lib_values default_text sets].
      change (dict_set "data file" (mkSet (acc ++ [item])%list)
                [("data file", mkSet acc)])
        with [("data file", mkSet (acc ++ [item])%list)].
      rewrite IH, <- List.app_assoc. reflexivity.
    + rewrite bind_ret, IH. reflexivity.
Qed.

(** The subset, written out, when every column asked for is there. *)
Lemma subset_dataset_result meta data cols data_file :
  Forall (fun c => In c (df_columns data)) cols ->
  Forall (fun c => dict_has c (columns meta) = true) cols ->
  dict_get "data file" (sets meta) = Some data_file ->
  exists js,
    Forall2 (fun n j => index_of n (df_columns data) = Some j) cols js
    /\ subset_dataset meta data cols
       = ret (mkMeta (copied_columns meta cols []) []
                [("data file",
                  mkSet (filter (fun item => Py.mem (last (Py.split "@" item) "") cols)
                                (set_items data_file)))]
                [] (default_text meta),
              mkDF cols (map (fun r => map (fun j => get_cell j r) js) (df_rows data))).
Proof.
  intros Hd Hm Hs. destruct (select_columns_total cols data Hd) as [js [F E]].
  exists js. split; [exact F|].
  unfold subset_dataset. rewrite E, bind_ret.
  rewrite (subset_columns_loop meta cols Hm), bind_ret.
  unfold dict_item at 1. rewrite Hs, bind_ret. unfold start_meta.
  cbn [columns masks sets lib_values default_text].
  rewrite (subset_items_loop
             (fun item => Py.mem (last (Py.split "@" item) "") cols)), bind_ret.
  reflexivity.
Qed.

Lemma copied_columns_get meta cols n : forall d,
  dict_get n (copied_columns meta cols d)
  = match (if Py.mem n cols then dict_get n (columns meta) else None) with
    | Some x => Some x
    | None => dict_get n d
    end.
Proof.
  unfold copied_columns, Py.mem.
  induction cols as [|c cols IH]; intros d; cbn [fold_left existsb].
  - reflexivity.
  - rewrite IH. destruct (String.eqb_spec n c) as [->|N]; cbn [orb].
    + destruct (dict_get c (columns meta)) as [x|] eqn:E.
      * destruct (existsb (String.eqb c) cols); [reflexivity|].
        now rewrite dict_get_set, String.eqb_refl.
      * now destruct (existsb (String.eqb c) cols).
    + assert (E : dict_get n match dict_get c (columns meta) with
                             | Some x => dict_set c x d
                             | None => d
                             end = dict_get n d).
      { destruct (dict_get c (columns meta)); [|reflexivity].
        rewrite dict_get_set. now apply String.eqb_neq in N as ->. }
      rewrite E. reflexivity.
Qed.

Lemma subset_dataset_inv meta data cols w smeta sdata :
  subset_dataset meta data cols = (w, Ok (smeta, sdata)) ->
  Forall (fun c => In c (df_columns data)) cols
  /\ Forall (fun c => dict_has c (columns meta) = true) cols
  /\ dict_has "data file" (sets meta) = true.
Proof.
  unfold subset_dataset. intros H.
  inv_bind H as sd Hsel. inv_bind H as sm Hcols. inv_bind H as dfile Hfile.
  split; [|split].
  - destruct (select_columns_ok _ _ _ _ Hsel) as [_ [js [F _]]].
    clear -F. induction F as [|c j cols js Hj _ IH]; constructor; [|exact IH].
    now apply index_of_In in Hj.
  - apply Forall_forall. intros c Hc.
    destruct (foldM_steps _ _ _ _ _ Hcols c Hc) as [acc0 [w' [acc' Hstep]]].
    inv_bind Hstep as x Hx. unfold dict_item in Hx. unfold dict_has.
    now destruct (dict_get c (columns meta)).
  - unfold dict_item in Hfile. unfold dict_has.
    now destruct (dict_get "data file" (sets meta)).
Qed.

(** X4.  What [subset_dataset] returns: the data holds the columns asked
    for, in that order, with every row; the metadata declares exactly
    these columns, as [meta] describes them, and lists in its 'data
    file' set the items of that set of [meta] that name one of them;
    masks and library values are not carried over. *)
Theorem subset_dataset_contents (meta : Meta) (data : DataFrame)
    (cols : list string) (w : list string) (smeta : Meta) (sdata : DataFrame) :
  subset_dataset meta data cols = (w, Ok (smeta, sdata)) ->
  df_columns sdata = cols
  /\ (forall i r, nth_error (df_rows data) i = Some r ->
        exists r', nth_error (df_rows sdata) i = Some r'
          /\ forall c p j, index_of c cols = Some p ->
                           index_of c (df_columns data) = Some j ->
                           get_cell p r' = get_cell j r)
  /\ List.length (df_rows sdata) = List.length (df_rows data)
  /\ (forall n, dict_get n (columns smeta)
                = if Py.mem n cols then dict_get n (columns meta) else None)
  /\ masks smeta = [] /\ lib_values smeta = []
  /\ default_text smeta = default_text meta
  /\ exists data_file,
       dict_get "data file" (sets meta) = Some data_file
       /\ sets smeta
          = [("data file",
              mkSet (filter (fun item => Py.mem (last (Py.split "@" item) "") cols)
                            (set_items data_file)))].
Proof.
  intros H. destruct (subset_dataset_inv _ _ _ _ _ _ H) as [Hd [Hm Hs]].
  unfold dict_has in Hs.
  destruct (dict_get "data file" (sets meta)) as [data_file|] eqn:Hfile;
    [|discriminate].
  destruct (subset_dataset_result meta data cols data_file Hd Hm Hfile)
    as [js [F E]].
  rewrite E in H. apply ret_ok in H. injection H as <- <-.
  cbn [df_columns df_rows columns masks sets lib_values default_text].
  split; [reflexivity|]. split; [|split; [|split; [|repeat split]]].
  - intros i r Hr. exists (map (fun j => get_cell j r) js). split.
    + now rewrite nth_error_map, Hr.
    + intros c p j Hp Hj. exact (selected_cell cols js _ c p j r F Hp Hj).
  - apply length_map.
  - intros n. rewrite copied_columns_get. cbn [dict_get].
    now destruct (if Py.mem n cols then dict_get n (columns meta) else None).
  - now exists data_file.
Qed.

Lemma subset_dataset_contents_witness :
  exists smeta sdata,
    subset_dataset
      (plain_meta [("id", "int"); ("a", "single"); ("b", "int")])
      (mkDF ["id"; "a"; "b"] [[CInt 1; CInt 5; CInt 7]; [CInt 2; CNaN; CInt 8]])
      ["b"; "id"]
    = ([], Ok (smeta, sdata))
    /\ df_columns sdata = ["b"; "id"]
    /\ List.length (df_rows sdata) = 2%nat
    /\ masks smeta = [].
Proof.
  eassert (H : subset_dataset
      (plain_meta [("id", "int"); ("a", "single"); ("b", "int")])
      (mkDF ["id"; "a"; "b"] [[CInt 1; CInt 5; CInt 7]; [CInt 2; CNaN; CInt 8]])
      ["b"; "id"] = ([], Ok (_, _))).
  { vm_compute. reflexivity. }
  eexists _, _. split; [exact H|].
  destruct (subset_dataset_contents _ _ _ _ _ _ H) as [C [_ [L [_ [Mk _]]]]].
  split; [exact C|]. split; [exact L | exact Mk].
Defined.

(** X5.  [subset_dataset] returns exactly when every column asked for is
    a column of the data and declared in the metadata, and the metadata
    has its 'data file' set; otherwise it raises a [KeyError]. *)
Theorem subset_dataset_needs_every_column (meta : Meta) (data : DataFrame)
    (cols : list string) :
  (went_through (subset_dataset meta data cols) = true
   <-> (Forall (fun c => In c (df_columns data)) cols
        /\ Forall (fun c => dict_has c (columns meta) = true) cols
        /\ dict_has "data file" (sets meta) = true))
  /\ (forall w e, subset_dataset meta data cols = (w, Raise e) ->
                  exists msg, e = KeyError msg).
Proof.
  split; [split|].
  - unfold went_through. intros H.
    destruct (subset_dataset meta data cols) as [w [[smeta sdata]|e]] eqn:E;
      [|discriminate].
    exact (subset_dataset_inv _ _ _ _ _ _ E).
  - intros [Hd [Hm Hs]]. unfold dict_has in Hs.
    destruct (dict_get "data file" (sets meta)) as [data_file|] eqn:Hfile;
      [|discriminate].
    destruct (subset_dataset_result meta data cols data_file Hd Hm Hfile)
      as [js [_ ->]]. reflexivity.
  - intros w e H.
    assert (R : raises_only is_key_error (subset_dataset meta data cols)).
    { unfold subset_dataset.
      apply raises_only_bind; [apply select_columns_key_error|]. intros sd.
      apply raises_only_bind.
      { apply raises_only_foldM. intros sm col.
        apply raises_only_bind; [apply dict_item_key_error|]. intros c. exact I. }
      intros sm. apply raises_only_bind; [apply dict_item_key_error|].
      intros dfile. apply raises_only_bind; [|intros sm'; exact I].
      apply raises_only_foldM. intros sm' item. destruct (Py.mem _ cols); [|exact I].
      apply raises_only_bind; [apply dict_item_key_error|]. intros c. exact I. }
    unfold raises_only in R. rewrite H in R. exact R.
Qed.





Lemma prefix_longer v : String.prefix (v ++ "_") v = false.
Proof.
  induction v as [|c v IH]; [reflexivity|].
  simpl. now destruct (ascii_dec c c).
Qed.

(** X7.  [define_multicodes] maps every name of [varlist], and no other,
    to the columns of the metadata whose name starts with that name and
    an underscore, in the order of the metadata; a name given twice is
    listed once, and a name is never among its own columns. *)
Theorem define_multicodes_lists_the_prefixed_columns (varlist : list string)
    (meta : Meta) (var : string) :
  dict_get var (define_multicodes varlist meta)
  = (if Py.mem var varlist
     then Some (filter (fun mrs_q => String.prefix (var ++ "_") mrs_q)
                       (map fst (columns meta)))
     else None)
  /\ (forall l, dict_get var (define_multicodes varlist meta) = Some l ->
                ~ In var l /\ forall c, In c l -> In c (map fst (columns meta))).
Proof.
  assert (G : forall d,
             dict_get var
               (fold_left
                  (fun multicodes v =>
                     dict_set v
                       (filter (fun mrs_q => String.prefix (v ++ "_") mrs_q)
                               (map fst (columns meta)))
                       multicodes) varlist d)
             = if Py.mem var varlist
               then Some (filter (fun mrs_q => String.prefix (var ++ "_") mrs_q)
                                 (map fst (columns meta)))
               else dict_get var d).
  { unfold Py.mem. induction varlist as [|v varlist IH]; intros d;
      cbn [fold_left existsb]; [reflexivity|].
    rewrite IH, dict_get_set.
    destruct (existsb (String.eqb var) varlist); [now rewrite orb_true_r|].
    rewrite orb_false_r. now destruct (String.eqb_spec var v) as [->|_]. }
  unfold define_multicodes. rewrite G. cbn [dict_get]. split; [reflexivity|].
  intros l Hl. destruct (Py.mem var varlist); [|discriminate].
  injection Hl as <-. split.
  - intros H. apply filter_In in H. destruct H as [_ H].
    now rewrite prefix_longer in H.
  - intros c Hc. apply filter_In in Hc. tauto.
Qed.

(** ** The walks through masks and sets *)

Lemma split_source_item source n :
  no_at source = true -> no_at n = true ->
  split_source (item_of source n) = ret (source, n).
Proof.
  intros Hs Hn. unfold split_source, item_of.
  change ("@" ++ n) with (String "@" n).
  now rewrite (split_app "@" source n Hs), (split_plain "@" n Hn).
Qed.

Lemma masks_walk_flat meta depth of_mask pairs : forall acc,
  columns_and_masks pairs ->
  foldM
    (fun masks_ item =>
       sn <- split_source item ;;
       let (source, n) := sn in
       if String.eqb source "masks" then ret (masks_ ++ [n])%list
       else if String.eqb source "columns" then ret masks_
       else if String.eqb source "sets" then
         more <- masks_from depth meta (negb of_mask) n ;;
         ret (masks_ ++ more)%list
       else raise (KeyError ("Unsupported meta-mapping: " ++ item)))
    acc (map (fun sn => item_of (fst sn) (snd sn)) pairs)
  = ret (acc ++ map snd (filter (fun sn => String.eqb (fst sn) "masks") pairs))%list.
Proof.
  intros acc H. revert acc.
  induction H as [|[source n] pairs [Hs Hn] _ IH]; intros acc; cbn [map foldM filter].
  - now rewrite List.app_nil_r.
  - cbn [fst snd] in *. destruct Hs as [-> | ->].
    + rewrite split_source_item, !bind_ret by (reflexivity || exact Hn).
      change (String.eqb "columns" "masks") with false.
      change (String.eqb "columns" "columns") with true.
      cbv iota. rewrite bind_ret. apply IH.
    + rewrite split_source_item, !bind_ret by (reflexivity || exact Hn).
      change (String.eqb "masks" "masks") with true.
      cbv iota. rewrite bind_ret, IH, <- List.app_assoc. reflexivity.
Qed.

Lemma masks_from_S depth meta of_mask name :
  masks_from (S depth) meta of_mask name
  = (sources <- sources_of meta of_mask name ;;
     foldM
       (fun masks_ item =>
          sn <- split_source item ;;
          let (source, n) := sn in
          if String.eqb source "masks" then ret (masks_ ++ [n])%list
          else if String.eqb source "columns" then ret masks_
          else if String.eqb source "sets" then
            more <- masks_from depth meta (negb of_mask) n ;;
            ret (masks_ ++ more)%list
          else raise (KeyError ("Unsupported meta-mapping: " ++ item)))
       [] sources).
Proof. reflexivity. Qed.

(** X8.  For a mask or a set whose items name columns and masks only,
    [get_masks_from_mask] and [get_masks_from_set] return the names of
    the masks listed, in that order; the masks named are not looked
    into. *)
Theorem get_masks_lists_the_named_masks (meta : Meta) (of_mask : bool)
    (name : string) (pairs : list (string * string)) :
  sources_of meta of_mask name
  = ret (map (fun sn => item_of (fst sn) (snd sn)) pairs) ->
  columns_and_masks pairs ->
  (if of_mask then get_masks_from_mask meta name else get_masks_from_set meta name)
  = ret (map snd (filter (fun sn => String.eqb (fst sn) "masks") pairs)).
Proof.
  intros Hsrc Hpairs.
  assert (E : masks_from recursion_limit meta of_mask name
              = ret (map snd (filter (fun sn => String.eqb (fst sn) "masks") pairs))).
  { change recursion_limit with (S 999).
    rewrite masks_from_S, Hsrc, bind_ret. now rewrite masks_walk_flat. }
  now destruct of_mask.
Qed.

Lemma get_masks_lists_the_named_masks_witness :
  get_masks_from_set
    (mkMeta [] [] [("data file", mkSet ["columns@id"; "masks@q1"; "columns@a"; "masks@q2"])]
            [] "en-GB")
    "data file"
  = ret ["q1"; "q2"].
Proof.
  apply (get_masks_lists_the_named_masks
           (mkMeta [] []
              [("data file", mkSet ["columns@id"; "masks@q1"; "columns@a"; "masks@q2"])]
              [] "en-GB")
           false "data file"
           [("columns", "id"); ("masks", "q1"); ("columns", "a"); ("masks", "q2")]).
  - reflexivity.
  - repeat (constructor;
            [split; [(left; reflexivity) || (right; reflexivity) | reflexivity]|]).
    constructor.
Defined.

Lemma foldM_app {A B} (body : B -> A -> M B) l1 l2 : forall acc,
  foldM body acc (l1 ++ l2)%list
  = (acc' <- foldM body acc l1 ;; foldM body acc' l2).
Proof.
  induction l1 as [|x l1 IH]; intros acc; cbn [List.app foldM].
  - now rewrite bind_ret.
  - rewrite bind_assoc. apply bind_ext. intros acc'. apply IH.
Qed.

(** X9.  [get_masks_from_set] looks for a set listed in a set among the
    masks: when the items before it name columns and masks only and no
    mask has the name of the listed set, it raises the [KeyError] of
    that name, whether or not such a set exists. *)
Theorem get_masks_from_set_looks_for_a_mask (meta : Meta) (name : string)
    (s : SetDef) (pairs : list (string * string)) (t : string)
    (rest : list string) :
  dict_get name (sets meta) = Some s ->
  set_items s
  = (map (fun sn => item_of (fst sn) (snd sn)) pairs ++ item_of "sets" t :: rest)%list ->
  columns_and_masks pairs -> no_at t = true ->
  dict_get t (masks meta) = None ->
  get_masks_from_set meta name = raise (KeyError t).
Proof.
  intros Hs Hitems Hpairs Ht Hmask.
  unfold get_masks_from_set. change recursion_limit with (S (S 998)).
  rewrite masks_from_S. unfold sources_of at 1, dict_item.
  rewrite Hs, !bind_ret, Hitems, foldM_app, masks_walk_flat, bind_ret by assumption.
  cbn [foldM]. rewrite split_source_item, bind_ret by (reflexivity || exact Ht).
  change (String.eqb "sets" "masks") with false.
  change (String.eqb "sets" "columns") with false.
  change (String.eqb "sets" "sets") with true. cbv iota.
  rewrite masks_from_S. unfold sources_of, dict_item. cbn [negb].
  rewrite Hmask. reflexivity.
Qed.

Lemma get_masks_from_set_looks_for_a_mask_witness :
  get_masks_from_set
    (mkMeta [] []
       [("data file", mkSet ["columns@id"; "sets@batch"]);
        ("batch", mkSet ["columns@a"])]
       [] "en-GB")
    "data file"
  = raise (KeyError "batch").
Proof.
  apply (get_masks_from_set_looks_for_a_mask
           (mkMeta [] []
              [("data file", mkSet ["columns@id"; "sets@batch"]);
               ("batch", mkSet ["columns@a"])]
              [] "en-GB")
           "data file" (mkSet ["columns@id"; "sets@batch"])
           [("columns", "id")] "batch" []); try reflexivity.
  constructor; [|constructor]. split; [now left | reflexivity].
Defined.

Lemma columns_from_S uniquify_list depth meta of_mask name :
  columns_from uniquify_list (S depth) meta of_mask name
  = (sources <-
       (if of_mask then
          m <- dict_item name (masks meta) ;; ret (map mi_source (mask_items m))
        else
          s <- dict_item name (sets meta) ;; ret (set_items s)) ;;
     cols <-
       foldM
         (fun cols item =>
            sn <- split_source item ;;
            let (source, n) := sn in
            if String.eqb source "columns" then ret (cols ++ [n])%list
            else if String.eqb source "masks" then
              more <- columns_from uniquify_list depth meta true n ;;
              ret (cols ++ more)%list
            else if String.eqb source "sets" then
              more <- columns_from uniquify_list depth meta false n ;;
              ret (cols ++ more)%list
            else raise (KeyError ("Unsupported meta-mapping: " ++ item)))
         [] sources ;;
     ret (if of_mask then cols else uniquify_list cols)).
Proof. reflexivity. Qed.

Lemma sets_from_S depth meta of_mask name :
  sets_from (S depth) meta of_mask name
  = (sources <- sources_of meta of_mask name ;;
     foldM
       (fun sets_ item =>
          sn <- split_source item ;;
          let (source, n) := sn in
          if String.eqb source "sets" then ret (sets_ ++ [n])%list
          else if String.eqb source "columns" then ret sets_
          else if String.eqb source "masks" then
            more <- sets_from depth meta true n ;;
            ret (sets_ ++ more)%list
          else raise (KeyError ("Unsupported meta-mapping: " ++ item)))
       [] sources).
Proof. reflexivity. Qed.

(** X10.  A mask whose first item is the mask itself cannot be walked:
    [get_columns_from_mask] and [get_sets_from_mask] raise
    [RecursionError] on it. *)
Theorem a_mask_that_lists_itself (uniquify_list : list string -> list string)
    (meta : Meta) (m : string) (mk : Mask) (rest : list MaskItem)
    (t : option text) :
  dict_get m (masks meta) = Some mk ->
  mask_items mk = mkMaskItem (item_of "masks" m) t :: rest ->
  no_at m = true ->
  (exists msg, get_columns_from_mask uniquify_list meta m
               = raise (RecursionError msg))
  /\ (exists msg, get_sets_from_mask meta m = raise (RecursionError msg)).
Proof.
  intros Hm Hitems Hno.
  assert (C : forall depth,
             columns_from uniquify_list depth meta true m
             = raise (RecursionError "maximum recursion depth exceeded")).
  { induction depth as [|depth IH]; [reflexivity|].
    rewrite columns_from_S. unfold dict_item. rewrite Hm, !bind_ret, Hitems.
    cbn [map mi_source foldM].
    rewrite split_source_item, bind_ret by (reflexivity || exact Hno).
    change (String.eqb "masks" "columns") with false.
    change (String.eqb "masks" "masks") with true. cbv iota.
    rewrite IH. reflexivity. }
  assert (S : forall depth,
             sets_from depth meta true m
             = raise (RecursionError "maximum recursion depth exceeded")).
  { induction depth as [|depth IH]; [reflexivity|].
    rewrite sets_from_S. unfold sources_of, dict_item.
    rewrite Hm, !bind_ret, Hitems. cbn [map mi_source foldM].
    rewrite split_source_item, bind_ret by (reflexivity || exact Hno).
    change (String.eqb "masks" "sets") with false.
    change (String.eqb "masks" "columns") with false.
    change (String.eqb "masks" "masks") with true. cbv iota.
    rewrite IH. reflexivity. }
  split; eexists; [apply C | apply S].
Qed.

Lemma a_mask_that_lists_itself_witness :
  (exists msg,
     get_columns_from_mask uniq
       (mkMeta [] [("q", mkMask [] [mkMaskItem "masks@q" None] false)] [] [] "en-GB")
       "q" = raise (RecursionError msg))
  /\ (exists msg,
        get_sets_from_mask
          (mkMeta [] [("q", mkMask [] [mkMaskItem "masks@q" None] false)] [] [] "en-GB")
          "q" = raise (RecursionError msg)).
Proof.
  exact (a_mask_that_lists_itself uniq
           (mkMeta [] [("q", mkMask [] [mkMaskItem "masks@q" None] false)] [] [] "en-GB")
           "q" (mkMask [] [mkMaskItem "masks@q" None] false) [] None
           eq_refl eq_refl eq_refl).
Defined.

Lemma columns_walk_plain uniquify_list meta depth names : forall acc,
  Forall (fun n => no_at n = true) names ->
  foldM
    (fun cols item =>
       sn <- split_source item ;;
       let (source, n) := sn in
       if String.eqb source "columns" then ret (cols ++ [n])%list
       else if String.eqb source "masks" then
         more <- columns_from uniquify_list depth meta true n ;;
         ret (cols ++ more)%list
       else if String.eqb source "sets" then
         more <- columns_from uniquify_list depth meta false n ;;
         ret (cols ++ more)%list
       else raise (KeyError ("Unsupported meta-mapping: " ++ item)))
    acc (map (item_of "columns") names)
  = ret (acc ++ names)%list.
Proof.
  intros acc H. revert acc.
  induction H as [|n names Hn _ IH]; intros acc; cbn [map foldM].
  - now rewrite List.app_nil_r.
  - rewrite split_source_item, !bind_ret by (reflexivity || exact Hn).
    change (String.eqb "columns" "columns") with true. cbv iota.
    rewrite bind_ret, IH, <- List.app_assoc. reflexivity.
Qed.

(** X11.  The columns of a mask or of a set whose items all name
    columns: [get_columns_from_mask] returns the names as they are
    listed, [get_columns_from_set] what [uniquify_list] makes of that
    list. *)
Theorem get_columns_of_plain_items (uniquify_list : list string -> list string)
    (meta : Meta) (name : string) (names : list string) :
  Forall (fun n => no_at n = true) names ->
  (forall mk, dict_get name (masks meta) = Some mk ->
              map mi_source (mask_items mk) = map (item_of "columns") names ->
              get_columns_from_mask uniquify_list meta name = ret names)
  /\ (forall s, dict_get name (sets meta) = Some s ->
                set_items s = map (item_of "columns") names ->
                get_columns_from_set uniquify_list meta name
                = ret (uniquify_list names)).
Proof.
  intros Hn. split.
  - intros mk Hm Hitems. unfold get_columns_from_mask.
    change recursion_limit with (S 999). rewrite columns_from_S.
    unfold dict_item. rewrite Hm, !bind_ret, Hitems.
    now rewrite columns_walk_plain, bind_ret.
  - intros s Hs Hitems. unfold get_columns_from_set.
    change recursion_limit with (S 999). rewrite columns_from_S.
    unfold dict_item. rewrite Hs, !bind_ret, Hitems.
    now rewrite columns_walk_plain, bind_ret.
Qed.

Lemma get_columns_of_plain_items_witness :
  get_columns_from_set uniq (plain_meta [("id", "int"); ("a", "single")]) "data file"
  = ret ["id"; "a"].
Proof.
  assert (H : Forall (fun n => no_at n = true) ["id"; "a"])
    by (repeat constructor).
  exact (proj2 (get_columns_of_plain_items uniq
                  (plain_meta [("id", "int"); ("a", "single")]) "data file"
                  ["id"; "a"] H)
               _ eq_refl eq_refl).
Defined.

(** ** Merging texts and values *)

Lemma dict_get_absent {V} k (d : list (string * V)) :
  ~ In k (map fst d) -> dict_get k d = None.
Proof.
  induction d as [|[k0 v0] d IH]; [reflexivity|].
  cbn [map fst dict_get]. intros H.
  destruct (String.eqb_spec k k0) as [->|N]; [elim H; now left|].
  apply IH. intros Hk. apply H. now right.
Qed.

Lemma dict_set_keys {V} k (v : V) d :
  map fst (dict_set k v d)
  = if dict_has k d then map fst d else (map fst d ++ [k])%list.
Proof.
  unfold dict_has. induction d as [|[k0 v0] d IH]; [reflexivity|].
  cbn [dict_set dict_get]. destruct (String.eqb_spec k k0) as [->|N].
  - reflexivity.
  - cbn [map fst]. rewrite IH. now destruct (dict_get k d).
Qed.

Lemma text_kept (left right : text) k :
  dict_get k
    (fold_left (fun l kv => if dict_has (fst kv) l then l
                            else dict_set (fst kv) (snd kv) l) right left)
  = match dict_get k left with
    | Some l => Some l
    | None => dict_get k right
    end.
Proof.
  revert left. induction right as [|[k0 v0] right IH]; intros left;
    cbn [fold_left fst snd dict_get].
  - now destruct (dict_get k left).
  - rewrite IH. unfold dict_has.
    destruct (String.eqb_spec k k0) as [->|N].
    + destruct (dict_get k0 left) eqn:E; [now rewrite E|].
      now rewrite dict_get_set, String.eqb_refl.
    + destruct (dict_get k0 left) eqn:E; [reflexivity|].
      rewrite dict_get_set. now apply String.eqb_neq in N as ->.
Qed.

Lemma text_overwritten (left right : text) k :
  NoDup (map fst right) ->
  dict_get k (fold_left (fun l kv => dict_set (fst kv) (snd kv) l) right left)
  = match dict_get k right with
    | Some r => Some r
    | None => dict_get k left
    end.
Proof.
  intros ND. revert left.
  induction right as [|[k0 v0] right IH]; intros left;
    cbn [fold_left fst snd dict_get]; [reflexivity|].
  cbn [map fst] in ND. inversion ND as [|? ? Hk0 ND']; subst.
  rewrite (IH ND'), dict_get_set.
  destruct (String.eqb_spec k k0) as [->|N]; [|reflexivity].
  now rewrite (dict_get_absent k0 right Hk0).
Qed.

Lemma text_keys (f : text -> string * string -> text) (left right : text) :
  (forall l kv, f l kv = l \/ f l kv = dict_set (fst kv) (snd kv) l) ->
  (forall l kv, dict_has (fst kv) l = false -> f l kv = dict_set (fst kv) (snd kv) l) ->
  NoDup (map fst right) ->
  map fst (fold_left f right left)
  = (map fst left ++ filter (fun k => negb (dict_has k left)) (map fst right))%list.
Proof.
  intros Hf Hnew ND. revert left.
  induction right as [|[k0 v0] right IH]; intros left; cbn [fold_left map fst filter].
  - now rewrite List.app_nil_r.
  - cbn [map fst] in ND. inversion ND as [|? ? Hk0 ND']; subst.
    rewrite (IH ND').
    assert (K : map fst (f left (k0, v0))
                = if dict_has k0 left then map fst left
                  else (map fst left ++ [k0])%list).
    { destruct (dict_has k0 left) eqn:E.
      - destruct (Hf left (k0, v0)) as [-> | ->]; [reflexivity|].
        cbn [fst snd]. now rewrite dict_set_keys, E.
      - rewrite (Hnew left (k0, v0) E). cbn [fst snd]. now rewrite dict_set_keys, E. }
    assert (F : filter (fun k => negb (dict_has k (f left (k0, v0)))) (map fst right)
                = filter (fun k => negb (dict_has k left)) (map fst right)).
    { apply filter_ext_in. intros k Hk. f_equal.
      destruct (Hf left (k0, v0)) as [-> | ->]; [reflexivity|].
      cbn [fst snd]. rewrite dict_has_set.
      destruct (String.eqb_spec k k0) as [->|_]; [contradiction | reflexivity]. }
    rewrite K, F. destruct (dict_has k0 left); cbn [negb].
    + reflexivity.
    + now rewrite <- List.app_assoc.
Qed.

(** X12.  [merge_text_meta] on two text objects: a text key of the left
    object keeps its place and, unless [overwrite] is set and the right
    object has the key, its text; the right text is taken for the keys
    that both have when [overwrite] is set; the keys that only the right
    object has are added after those of the left one, in their order. *)
Theorem merge_text_meta_which_text_wins (left_text right_text : text)
    (overwrite : bool) :
  NoDup (map fst right_text) ->
  (forall k,
     dict_get k (merge_text_meta left_text right_text overwrite)
     = match dict_get k left_text, dict_get k right_text with
       | Some l, Some r => Some (if overwrite then r else l)
       | Some l, None => Some l
       | None, r => r
       end)
  /\ map fst (merge_text_meta left_text right_text overwrite)
     = (map fst left_text
        ++ filter (fun k => negb (dict_has k left_text)) (map fst right_text))%list.
Proof.
  intros ND. unfold merge_text_meta. destruct overwrite; split.
  - intros k. rewrite (text_overwritten _ _ _ ND).
    destruct (dict_get k right_text), (dict_get k left_text); reflexivity.
  - apply text_keys; [now right | reflexivity | exact ND].
  - intros k. rewrite text_kept.
    destruct (dict_get k left_text), (dict_get k right_text); reflexivity.
  - apply text_keys; [| |exact ND].
    + intros l kv. destruct (dict_has (fst kv) l); [now left | now right].
    + intros l kv E. now rewrite E.
Qed.

Lemma merge_text_meta_which_text_wins_witness :
  merge_text_meta [("en-GB", "Age"); ("de-DE", "Alter")]
                  [("fr-FR", "Age (fr)"); ("en-GB", "How old?")] true
  = [("en-GB", "How old?"); ("de-DE", "Alter"); ("fr-FR", "Age (fr)")]
  /\ map fst (merge_text_meta [("en-GB", "Age"); ("de-DE", "Alter")]
                [("fr-FR", "Age (fr)"); ("en-GB", "How old?")] false)
     = ["en-GB"; "de-DE"; "fr-FR"].
Proof.
  split; [reflexivity|].
  refine (proj2 (merge_text_meta_which_text_wins
                   [("en-GB", "Age"); ("de-DE", "Alter")]
                   [("fr-FR", "Age (fr)"); ("en-GB", "How old?")] false _)).
  repeat constructor; simpl; intuition discriminate.
Defined.

Lemma find_no_code (c : Z) (l : list value_item) :
  ~ In c (map value l) -> find (fun v => Z.eqb (value v) c) l = None.
Proof.
  induction l as [|x l IH]; [reflexivity|].
  cbn [map find]. intros H. destruct (Z.eqb_spec (value x) c) as [E|_].
  - elim H. now left.
  - apply IH. intros Hc. apply H. now right.
Qed.

Lemma existsb_no_code (c : Z) (l : list value_item) :
  existsb (fun v => Z.eqb (value v) c) l = false -> ~ In c (map value l).
Proof.
  induction l as [|x l IH]; [intros _ []|].
  cbn [existsb map]. intros H. apply orb_false_iff in H. destruct H as [Hx Hl].
  intros [E|Hc]; [|now apply (IH Hl)].
  apply Z.eqb_neq in Hx. congruence.
Qed.

Lemma existsb_map_ext {A B} (P : B -> bool) (Q : A -> bool) (g : A -> B) l :
  (forall x, P (g x) = Q x) -> existsb P (map g l) = existsb Q l.
Proof.
  intros H. induction l as [|x l IH]; [reflexivity|].
  cbn [map existsb]. now rewrite H, IH.
Qed.

(** X13.  [merge_values_meta], for right values with distinct codes:
    every left value stays in its place, its text merged with the text
    of the right value of the same code when there is one; the right
    values with a code that the left list does not hold are added after
    them, in their order.  No value is removed. *)
Theorem merge_values_meta_result (left_values right_values : list value_item)
    (overwrite : bool) :
  NoDup (map value right_values) ->
  merge_values_meta left_values right_values overwrite
  = (map (merged_value right_values overwrite) left_values
     ++ new_values left_values right_values)%list.
Proof.
  unfold merge_values_meta. intros ND. revert left_values.
  induction right_values as [|r R IH]; intros L; cbn [fold_left].
  - unfold new_values, merged_value. cbn [find filter].
    now rewrite List.app_nil_r, map_id.
  - cbn [map] in ND. inversion ND as [|? ? Hr ND']; subst.
    rewrite (IH ND'). clear IH.
    destruct (existsb (fun val_left => Z.eqb (value val_left) (value r)) L) eqn:Found.
    + f_equal.
      * rewrite map_map. apply map_ext. intros vl. unfold merged_value. cbn [find].
        rewrite (Z.eqb_sym (value r) (value vl)).
        destruct (Z.eqb_spec (value vl) (value r)) as [E|N]; cbn [value vtext].
        -- rewrite E, (find_no_code (value r) R Hr). now rewrite <- E.
        -- reflexivity.
      * unfold new_values. cbn [filter]. rewrite Found. cbn [negb].
        apply filter_ext. intros vr. f_equal.
        apply existsb_map_ext. intros vl.
        now destruct (Z.eqb (value vl) (value r)).
    + pose proof (existsb_no_code _ _ Found) as NotL.
      rewrite map_app, <- List.app_assoc. f_equal.
      * apply map_ext_in. intros vl Hvl. unfold merged_value. cbn [find].
        destruct (Z.eqb_spec (value r) (value vl)) as [E|_]; [|reflexivity].
        elim NotL. rewrite E. now apply in_map.
      * cbn [map List.app]. unfold new_values. cbn [filter]. rewrite Found.
        cbn [negb]. f_equal.
        -- unfold merged_value. now rewrite (find_no_code (value r) R Hr).
        -- apply filter_ext_in. intros vr Hvr. f_equal.
           rewrite existsb_app. cbn [existsb].
           destruct (Z.eqb_spec (value r) (value vr)) as [E|_]; [|now rewrite !orb_false_r].
           elim Hr. rewrite E. now apply in_map.
Qed.

Lemma merge_values_meta_result_witness :
  map value
    (merge_values_meta
       [mkValue 1 [("en-GB", "Yes")]; mkValue 2 [("en-GB", "No")]]
       [mkValue 3 [("en-GB", "Maybe")]; mkValue 1 [("de-DE", "Ja")]] false)
  = [1; 2; 3].
Proof.
  rewrite (merge_values_meta_result
             [mkValue 1 [("en-GB", "Yes")]; mkValue 2 [("en-GB", "No")]]
             [mkValue 3 [("en-GB", "Maybe")]; mkValue 1 [("de-DE", "Ja")]] false).
  - reflexivity.
  - repeat constructor; simpl; intuition discriminate.
Defined.

(** ** What [merge_meta] keeps *)

Lemma grown_refl l : grown_from l l.
Proof.
  repeat split; auto.
  - intros k mk H. exists mk, []. now rewrite List.app_nil_r.
  - intros k s H. exists s, []. now rewrite List.app_nil_r.
  - intros k v H. exists []. now rewrite List.app_nil_r.
Qed.

Lemma grown_trans a b c : grown_from a b -> grown_from b c -> grown_from a c.
Proof.
  intros (C1 & M1 & S1 & L1 & D1) (C2 & M2 & S2 & L2 & D2). repeat split.
  - auto.
  - intros k mk H. destruct (M1 k mk H) as (mk1 & e1 & H1 & E1).
    destruct (M2 k mk1 H1) as (mk2 & e2 & H2 & E2).
    exists mk2, (e1 ++ e2)%list. split; [exact H2|].
    now rewrite E2, E1, List.app_assoc.
  - intros k s H. destruct (S1 k s H) as (s1 & e1 & H1 & E1).
    destruct (S2 k s1 H1) as (s2 & e2 & H2 & E2).
    exists s2, (e1 ++ e2)%list. split; [exact H2|].
    now rewrite E2, E1, List.app_assoc.
  - intros k v H. destruct (L1 k v H) as (e1 & H1).
    destruct (L2 k _ H1) as (e2 & H2).
    exists (e1 ++ e2)%list. now rewrite H2, List.app_assoc.
  - congruence.
Qed.

(** Writing one entry of one table. *)
Lemma grown_mask l k mk' :
  (forall mk, dict_get k (masks l) = Some mk ->
     exists extra, map mi_source (mask_items mk')
                   = (map mi_source (mask_items mk) ++ extra)%list) ->
  grown_from l (mkMeta (columns l) (dict_set k mk' (masks l)) (sets l)
                       (lib_values l) (default_text l)).
Proof.
  intros H. destruct (grown_refl l) as (C & M & S & L & D).
  repeat split; auto. cbn [masks]. intros k0 mk Hk.
  rewrite dict_get_set. destruct (String.eqb_spec k0 k) as [->|N].
  - destruct (H mk Hk) as [extra E]. now exists mk', extra.
  - exact (M k0 mk Hk).
Qed.

Lemma grown_set l k s' :
  (forall s, dict_get k (sets l) = Some s ->
     exists extra, set_items s' = (set_items s ++ extra)%list) ->
  grown_from l (mkMeta (columns l) (masks l) (dict_set k s' (sets l))
                       (lib_values l) (default_text l)).
Proof.
  intros H. destruct (grown_refl l) as (C & M & S & L & D).
  repeat split; auto. cbn [sets]. intros k0 s Hk.
  rewrite dict_get_set. destruct (String.eqb_spec k0 k) as [->|N].
  - destruct (H s Hk) as [extra E]. now exists s', extra.
  - exact (S k0 s Hk).
Qed.

Lemma grown_lib l k v' :
  (forall v, dict_get k (lib_values l) = Some v -> exists extra, v' = (v ++ extra)%list) ->
  grown_from l (mkMeta (columns l) (masks l) (sets l)
                       (dict_set k v' (lib_values l)) (default_text l)).
Proof.
  intros H. destruct (grown_refl l) as (C & M & S & L & D).
  repeat split; auto. cbn [lib_values]. intros k0 v Hk.
  rewrite dict_get_set. destruct (String.eqb_spec k0 k) as [->|N].
  - destruct (H v Hk) as [extra ->]. now exists extra.
  - exact (L k0 v Hk).
Qed.

Lemma grown_column l k c :
  grown_from l (mkMeta (dict_set k c (columns l)) (masks l) (sets l)
                       (lib_values l) (default_text l)).
Proof.
  destruct (grown_refl l) as (C & M & S & L & D).
  repeat split; auto. cbn [columns]. intros k0 Hk.
  rewrite dict_has_set, Hk. apply orb_true_r.
Qed.

(** A loop whose steps only add only adds. *)
Lemma foldM_grown {A} (body : Meta -> A -> M Meta) l0 items :
  (forall lm x w lm', body lm x = (w, Ok lm') -> grown_from lm lm') ->
  forall lm w lm', grown_from l0 lm -> foldM body lm items = (w, Ok lm') ->
                   grown_from l0 lm'.
Proof.
  intros Hstep lm w lm' G H.
  apply (foldM_ok (fun m => grown_from l0 m) _ _ _ _ _ H G).
  intros acc x w' acc' _ Ga Hb. exact (grown_trans _ _ _ Ga (Hstep _ _ _ _ Hb)).
Qed.

Lemma fold_left_grown {A} (f : Meta -> A -> Meta) items :
  (forall lm x, grown_from lm (f lm x)) ->
  forall lm, grown_from lm (fold_left f items lm).
Proof.
  intros Hstep. induction items as [|x items IH]; intros lm; cbn [fold_left].
  - apply grown_refl.
  - exact (grown_trans _ _ _ (Hstep lm x) (IH _)).
Qed.

Lemma update_item_text_source overwrite item old_item :
  mi_source (update_item_text overwrite item old_item) = mi_source old_item.
Proof.
  unfold update_item_text.
  now destruct (mi_text item), (mi_text old_item).
Qed.

Lemma dict_item_ok {V} k (d : list (string * V)) w v :
  dict_item k d = (w, Ok v) -> dict_get k d = Some v.
Proof.
  unfold dict_item. destruct (dict_get k d); [|discriminate].
  intros H. apply ret_ok in H. now subst.
Qed.

Lemma update_mask_meta_grown left_meta right_meta mask overwrite w m :
  _update_mask_meta left_meta right_meta mask overwrite = (w, Ok m) ->
  grown_from left_meta m.
Proof.
  unfold _update_mask_meta. intros H.
  inv_bind H as old Hold. inv_bind H as new Hnew.
  apply dict_item_ok in Hold.
  eapply (foldM_grown _ left_meta _ _ _ _ _ _ H). Unshelve.
  - intros lm item w' lm' Hb. inv_bind Hb as old' Hold'.
    apply dict_item_ok in Hold'.
    destruct (existsb _ (mask_items old')).
    + apply ret_ok in Hb. subst lm'. apply grown_mask.
      intros mk Hmk. exists []. rewrite List.app_nil_r.
      assert (mk = old') by congruence. subst mk. cbn [mask_items].
      rewrite map_map. apply map_ext. intros oi.
      destruct (String.eqb (mi_source oi) (mi_source item)); [|reflexivity].
      apply update_item_text_source.
    + inv_bind Hb as s Hs. apply dict_item_ok in Hs.
      apply ret_ok in Hb. subst lm'.
      eapply grown_trans.
      * apply (grown_mask lm mask
                 (mkMask (mask_text old') (mask_items old' ++ [item])%list
                         (mask_has_values old'))).
        intros mk Hmk. assert (mk = old') by congruence. subst mk.
        exists [mi_source item]. cbn [mask_items]. now rewrite map_app.
      * match goal with
        | |- grown_from ?l1 _ =>
            apply (grown_set l1 mask (mkSet (set_items s ++ [mi_source item])%list))
        end.
        cbn [sets]. intros s0 Hs0. assert (s0 = s) by congruence. subst s0.
        now exists [mi_source item].
  - apply (grown_mask left_meta mask). intros mk Hmk.
    assert (mk = old) by congruence. subst mk. exists [].
    now rewrite List.app_nil_r.
Qed.

Lemma merge_masks_grown meta_left meta_right masks_ overwrite w m :
  merge_masks meta_left meta_right masks_ overwrite = (w, Ok m) ->
  grown_from meta_left m.
Proof.
  unfold merge_masks. intros H.
  refine (foldM_grown _ meta_left _ _ _ _ _ (grown_refl _) H).
  intros lm mask w' lm' Hb. cbv beta in Hb.
  destruct (dict_has mask (masks lm)) eqn:E; cbn [negb] in Hb.
  - exact (update_mask_meta_grown _ _ _ _ _ _ Hb).
  - inv_bind Hb as mk Hmk. apply ret_ok in Hb. subst lm'.
    apply grown_mask. intros mk0 Hmk0. unfold dict_has in E.
    now rewrite Hmk0 in E.
Qed.

Lemma merge_sets_grown meta_left meta_right :
  grown_from meta_left (merge_sets meta_left meta_right).
Proof.
  unfold merge_sets.
  set (new_sets := filter _ (map fst (sets meta_right))).
  assert (New : forall n, In n (Py.sorted Py.str_le new_sets) ->
                          dict_get n (sets meta_left) = None).
  { intros n Hn.
    apply (Permutation_in _ (Permutation_sym (sorted_perm Py.str_le new_sets))) in Hn.
    apply filter_In in Hn. destruct Hn as [_ Hn]. unfold dict_has in Hn.
    now destruct (dict_get n (sets meta_left)). }
  generalize dependent (Py.sorted Py.str_le new_sets). intros names New.
  assert (G : forall lm,
             (columns lm = columns meta_left /\ masks lm = masks meta_left
              /\ lib_values lm = lib_values meta_left
              /\ default_text lm = default_text meta_left
              /\ forall k s, dict_get k (sets meta_left) = Some s ->
                             dict_get k (sets lm) = Some s) ->
             grown_from meta_left
               (fold_left
                  (fun lm set_name =>
                     match dict_get set_name (sets meta_right) with
                     | Some s => mkMeta (columns lm) (masks lm)
                                        (dict_set set_name s (sets lm))
                                        (lib_values lm) (default_text lm)
                     | None => lm
                     end) names lm)).
  { induction names as [|n names IH]; intros lm (C & Mk & L & D & S); cbn [fold_left].
    - destruct (grown_refl meta_left) as (C0 & M0 & S0 & L0 & D0).
      repeat split.
      + now rewrite C.
      + now rewrite Mk.
      + intros k s Hk. exists s, []. rewrite List.app_nil_r. auto.
      + now rewrite L.
      + exact D.
    - apply IH; [intros n' Hn'; apply New; now right|].
      destruct (dict_get n (sets meta_right)) as [sr|]; [|now repeat split].
      cbn [columns masks sets lib_values default_text]. repeat split; auto.
      intros k s0 Hk. rewrite dict_get_set.
      destruct (String.eqb_spec k n) as [->|_]; [|auto].
      rewrite (New n (or_introl eq_refl)) in Hk. discriminate. }
  apply G. repeat split; auto.
Qed.

Lemma merge_lib_values_grown meta_left meta_right :
  grown_from meta_left (merge_lib_values meta_left meta_right).
Proof.
  unfold merge_lib_values. apply fold_left_grown. intros lm [val right_list].
  destruct (dict_get val (lib_values lm)) as [left_list|] eqn:E.
  - destruct (orb _ _); [apply grown_refl|].
    apply grown_lib. intros v Hv. eexists. assert (v = left_list) by congruence.
    subst v. reflexivity.
  - apply grown_lib. intros v Hv. congruence.
Qed.

Lemma merge_one_column_grown emulate_meta meta_right overwrite_text mask_items_
      meta_left col_updates col_name w m upd :
  merge_one_column emulate_meta meta_right overwrite_text mask_items_
    (meta_left, col_updates) col_name = (w, Ok (m, upd)) ->
  grown_from meta_left m.
Proof.
  unfold merge_one_column. intros H.
  inv_bind H as rc Hrc. inv_bind H as merged Hmerged.
  destruct merged as [c upd']. apply ret_ok in H. injection H as <- _.
  apply grown_column.
Qed.

Lemma append_data_file_grown meta_left items w m :
  append_data_file meta_left items = (w, Ok m) -> grown_from meta_left m.
Proof.
  unfold append_data_file. intros H.
  refine (foldM_grown _ meta_left _ _ _ _ _ (grown_refl _) H).
  intros lm item w' lm' Hb. cbv beta in Hb.
  inv_bind Hb as df Hdf. apply dict_item_ok in Hdf.
  destruct (Py.mem item (set_items df)); apply ret_ok in Hb; subst lm'.
  - apply grown_refl.
  - apply grown_set. intros s Hs. assert (s = df) by congruence. subst s.
    now exists [item].
Qed.

(** X15.  [merge_meta] only adds to the left metadata: when it returns,
    every column that the left metadata declared is still declared, and
    every mask, set and list of library values of the left metadata is
    still there and starts with the items, in their order, that it held;
    the default text key is the one of the left metadata. *)
Theorem merge_meta_only_adds (emulate_meta : Meta -> Column -> Column)
    (uniquify_list : list string -> list string) (meta_left meta_right : Meta)
    (from_set : option string) (overwrite_text : bool) (w : list string)
    (m : Meta) (cols upd : list string) :
  merge_meta emulate_meta uniquify_list meta_left meta_right from_set overwrite_text
  = (w, Ok (m, cols, upd)) ->
  grown_from meta_left m.
Proof.
  unfold merge_meta. intros H. inv_bind H as found Hfound.
  destruct found as [lm [[cols0 mi]|]]; [|discriminate].
  inv_bind H as r Hfold. destruct r as [lm' upd'].
  inv_bind H as the_set Hset. inv_bind H as lm2 Hfile.
  apply ret_ok in H. injection H as <- _ _.
  assert (G1 : grown_from meta_left lm).
  { destruct (dict_get _ (sets meta_right)); [|apply ret_ok in Hfound; discriminate].
    inv_bind Hfound as cmi Hcmi. destruct cmi as [[c0 m0] mi0].
    inv_bind Hfound as lm1 Hmasks.
    apply ret_ok in Hfound. injection Hfound as <- _ _.
    eapply grown_trans; [exact (merge_masks_grown _ _ _ _ _ _ Hmasks)|].
    eapply grown_trans; [apply merge_sets_grown | apply merge_lib_values_grown]. }
  assert (G2 : grown_from lm lm').
  { clear -Hfold.
    change lm with (fst (lm, @nil string)).
    change lm' with (fst (lm', upd')).
    apply (foldM_ok (fun acc => grown_from lm (fst acc)) _ _ _ _ _ Hfold).
    - apply grown_refl.
    - intros [a1 u1] x w' [a2 u2] _ Ga Hb. cbn [fst] in *.
      exact (grown_trans _ _ _ Ga (merge_one_column_grown _ _ _ _ _ _ _ _ _ _ Hb)). }
  exact (grown_trans _ _ _ G1
           (grown_trans _ _ _ G2 (append_data_file_grown _ _ _ _ Hfile))).
Qed.

Lemma merge_meta_only_adds_witness :
  exists w m cols upd,
    merge_meta same_column uniq
      (plain_meta [("id", "int"); ("a", "int")])
      (plain_meta [("id", "int"); ("b", "single")]) None false
    = (w, Ok (m, cols, upd))
    /\ grown_from (plain_meta [("id", "int"); ("a", "int")]) m.
Proof.
  eassert (H : merge_meta same_column uniq
      (plain_meta [("id", "int"); ("a", "int")])
      (plain_meta [("id", "int"); ("b", "single")]) None false
    = (_, Ok (_, _, _))).
  { vm_compute. reflexivity. }
  eexists _, _, _, _. split; [exact H|].
  exact (merge_meta_only_adds _ _ _ _ _ _ _ _ _ _ H).
Defined.

(** X14.  When [merge_meta] returns, the columns it reports are what
    [uniquify_list] makes of the columns named by the set of the right
    metadata, those of its masks included; the merged metadata declares
    these columns and those the left metadata declared, and no other;
    the updates reported are the columns of the set that the left
    metadata declared, in the order of the set. *)
Theorem merge_meta_declares_the_merged_columns
    (emulate_meta : Meta -> Column -> Column)
    (uniquify_list : list string -> list string) (meta_left meta_right : Meta)
    (from_set : option string) (overwrite_text : bool) (w : list string)
    (m : Meta) (cols upd : list string) :
  (forall l, NoDup (uniquify_list l)) ->
  merge_meta emulate_meta uniquify_list meta_left meta_right from_set overwrite_text
  = (w, Ok (m, cols, upd)) ->
  (exists the_set w' named masks_ mask_items_,
     dict_get (match from_set with Some s => s | None => "data file" end)
              (sets meta_right) = Some the_set
     /\ set_columns meta_right (set_items the_set)
        = (w', Ok (named, masks_, mask_items_))
     /\ cols = uniquify_list named)
  /\ (forall n, dict_has n (columns m)
                = orb (Py.mem n cols) (dict_has n (columns meta_left)))
  /\ upd = filter (fun c => dict_has c (columns meta_left)) cols.
Proof.
  intros Huq H.
  destruct (merge_meta_ok _ _ _ _ _ _ _ _ _ _ Huq H) as [_ [D U]].
  split; [|now split].
  unfold merge_meta in H. inv_bind H as found Hfound.
  destruct found as [lm [[cols0 mi]|]]; [|discriminate].
  inv_bind H as r Hfold. destruct r as [lm' upd'].
  inv_bind H as the_set Hset. inv_bind H as lm2 Hfile.
  apply ret_ok in H. injection H as _ <- _.
  destruct (dict_get _ (sets meta_right)) as [s|] eqn:Hs;
    [|apply ret_ok in Hfound; discriminate].
  inv_bind Hfound as cmi Hcmi. destruct cmi as [[c0 m0] mi0].
  inv_bind Hfound as lm1 Hmasks.
  apply ret_ok in Hfound. injection Hfound as _ <- _.
  exists s. eexists _, c0, m0, mi0.
  split; [reflexivity|]. split; [exact Hcmi | reflexivity].
Qed.

Lemma merge_meta_declares_the_merged_columns_witness :
  exists w m cols upd,
    merge_meta same_column uniq
      (plain_meta [("id", "int"); ("a", "int")])
      (plain_meta [("id", "int"); ("b", "single")]) None false
    = (w, Ok (m, cols, upd))
    /\ upd = filter (fun c => dict_has c
                      (columns (plain_meta [("id", "int"); ("a", "int")]))) cols.
Proof.
  eassert (H : merge_meta same_column uniq
      (plain_meta [("id", "int"); ("a", "int")])
      (plain_meta [("id", "int"); ("b", "single")]) None false
    = (_, Ok (_, _, _))).
  { vm_compute. reflexivity. }
  eexists _, _, _, _. split; [exact H|].
  exact (proj2 (proj2 (merge_meta_declares_the_merged_columns _ _ _ _ _ _ _ _ _ _
                         uniq_NoDup H))).
Defined.

(** X23.  [_update_mask_meta] files every new item of a mask in the set
    named after the mask: when the right mask has an item whose source
    the left mask does not list and the left metadata has no set of
    that name, it raises the [KeyError] of the name. *)
Theorem update_mask_meta_needs_the_set (left_meta right_meta : Meta)
    (mask : string) (overwrite : bool) (old new : Mask) :
  dict_get mask (masks left_meta) = Some old ->
  dict_get mask (masks right_meta) = Some new ->
  dict_has mask (sets left_meta) = false ->
  Exists (fun item => ~ In (mi_source item) (map mi_source (mask_items old)))
         (mask_items new) ->
  _update_mask_meta left_meta right_meta mask overwrite = raise (KeyError mask).
Proof.
  intros Hold Hnew Hset Hex. unfold _update_mask_meta, dict_item.
  rewrite Hold, Hnew, !bind_ret.
  set (body := fun (lm : Meta) (item : MaskItem) => _).
  assert (G : forall items lm o,
             Exists (fun item => ~ In (mi_source item) (map mi_source (mask_items old)))
                    items ->
             dict_get mask (masks lm) = Some o ->
             map mi_source (mask_items o) = map mi_source (mask_items old) ->
             sets lm = sets left_meta ->
             foldM body lm items = raise (KeyError mask)).
  { induction items as [|item items IH]; intros lm o Hx Ho Hsrc Hsets;
      [inversion Hx|].
    cbn [foldM]. unfold body at 1, dict_item. rewrite Ho, bind_ret.
    assert (E : existsb (fun oi => String.eqb (mi_source oi) (mi_source item))
                        (mask_items o)
                = Py.mem (mi_source item) (map mi_source (mask_items old))).
    { rewrite <- Hsrc. unfold Py.mem. clear.
      induction (mask_items o) as [|oi l IHl]; [reflexivity|].
      cbn [existsb map]. now rewrite IHl, String.eqb_sym. }
    rewrite E. destruct (Py.mem _ _) eqn:Found.
    - rewrite bind_ret.
      inversion Hx as [? ? Hnew0|? ? Hrest]; subst.
      + apply mem_In in Found. contradiction.
      + eapply IH; [exact Hrest | | | exact Hsets].
        * cbn [masks]. rewrite dict_get_set, String.eqb_refl. reflexivity.
        * cbn [mask_items]. rewrite map_map, <- Hsrc. apply map_ext. intros oi.
          destruct (String.eqb (mi_source oi) (mi_source item)); [|reflexivity].
          apply update_item_text_source.
    - rewrite Hsets. unfold dict_has in Hset.
      destruct (dict_get mask (sets left_meta)); [discriminate | reflexivity]. }
  apply (G (mask_items new) _
           (mkMask (fold_left (fun o kv => if orb (negb (dict_has (fst kv) o)) overwrite
                                           then dict_set (fst kv) (snd kv) o else o)
                              (mask_text new) (mask_text old))
                   (mask_items old) (mask_has_values old)) Hex);
    [|reflexivity|reflexivity].
  cbn [masks]. now rewrite dict_get_set, String.eqb_refl.
Qed.

Lemma update_mask_meta_needs_the_set_witness :
  _update_mask_meta
    (mkMeta [] [("q", mkMask [] [mkMaskItem "columns@q_1" None] false)] [] [] "en-GB")
    (mkMeta [] [("q", mkMask [] [mkMaskItem "columns@q_1" None;
                                 mkMaskItem "columns@q_2" None] false)] [] [] "en-GB")
    "q" false
  = raise (KeyError "q").
Proof.
  apply (update_mask_meta_needs_the_set _ _ "q" false
           (mkMask [] [mkMaskItem "columns@q_1" None] false)
           (mkMask [] [mkMaskItem "columns@q_1" None; mkMaskItem "columns@q_2" None]
                   false)); try reflexivity.
  apply Exists_cons_tl, Exists_cons_hd. simpl. intuition discriminate.
Defined.

(** ** More on [hmerge] *)

Lemma list_remove_In x l l' : list_remove x l = Some l' -> In x l.
Proof.
  revert l'. induction l as [|y l IH]; intros l'; simpl; [discriminate|].
  destruct (String.eqb_spec x y) as [->|N]; [now left|].
  destruct (list_remove x l) as [l0|]; [|discriminate].
  intros _. right. exact (IH l0 eq_refl).
Qed.

Lemma filter_filter_and {A} (P Q : A -> bool) l :
  filter P (filter Q l) = filter (fun x => andb (Q x) (P x)) l.
Proof.
  induction l as [|x l IH]; [reflexivity|].
  cbn [filter]. destruct (Q x); cbn [filter andb]; now rewrite IH.
Qed.

(** One dataset merged on a key named alike on both sides. *)
Lemma hmerge_one_on_key emulate_meta uniquify_list float_str key overwrite_text
      from_set merge_existing meta_left data_left meta_right data_right w meta data :
  (forall l, NoDup (uniquify_list l)) ->
  hmerge_one emulate_meta uniquify_list float_str key key overwrite_text
    from_set merge_existing (meta_left, data_left) (meta_right, data_right)
  = (w, Ok (meta, data)) ->
  exists w' cols upd,
    merge_meta emulate_meta uniquify_list meta_left meta_right from_set overwrite_text
    = (w', Ok (meta, cols, upd))
    /\ In key cols
    /\ dict_has key (columns meta_left) = true
    /\ In key (df_columns data_left)
    /\ In key (df_columns data_right)
    /\ (NoDup (df_columns data_left) -> declared meta_left data_left ->
        df_columns data
        = (df_columns data_left
           ++ filter (fun c => negb (dict_has c (columns meta_left))) cols)%list).
Proof.
  intros Huq H. unfold hmerge_one in H.
  inv_bind H as dr' Hslice. inv_bind H as mm Hmeta.
  destruct mm as [[ml' cols] upd].
  inv_bind H as upd1 Hupd. inv_bind H as dl' Hknown.
  inv_bind H as merged Happend. apply ret_ok in H. injection H as <- <-.
  rewrite String.eqb_refl in *. cbn [negb andb] in *.
  destruct (merge_meta_ok _ _ _ _ _ _ _ _ _ _ Huq Hmeta) as [NDc [D U]].
  destruct (list_remove key upd) as [l|] eqn:R; [|discriminate].
  apply ret_ok in Hupd. subst l.
  pose proof (list_remove_In _ _ _ R) as Hkey. rewrite U in Hkey.
  apply filter_In in Hkey. destruct Hkey as [Hcols Hdecl].
  eexists _, cols, upd. split; [exact Hmeta|].
  split; [exact Hcols|]. split; [exact Hdecl|].
  destruct (slice_right_ok _ _ _ _ _ _ Hslice) as [Cr [_ Hl]].
  split; [exact Hl|]. split.
  { unfold slice_right in Hslice. inv_bind Hslice as rj Hrj.
    apply column_position_ok, index_of_In in Hrj. exact Hrj. }
  intros ND Hd.
  assert (Cdl : df_columns dl' = df_columns data_left).
  { destruct upd1.
    - apply ret_ok in Hknown. now subst.
    - now apply update_known_columns_shape in Hknown. }
  unfold append_new_columns in Happend.
  inv_bind Happend as right Hsel. inv_bind Happend as mg Hmg.
  apply ret_ok in Happend. subst mg.
  destruct (select_columns_ok _ _ _ _ Hsel) as [Hc _].
  assert (New : forall n, In n cols -> n <> key ->
                          Py.mem n upd1 = dict_has n (columns meta_left)).
  { intros n Hn Hk. destruct (Py.mem n upd1) eqn:E.
    - apply mem_In in E. rewrite (list_remove_other _ _ _ n R Hk), U in E.
      apply filter_In in E. now destruct E as [_ ->].
    - apply mem_not_In in E. rewrite (list_remove_other _ _ _ n R Hk), U in E.
      destruct (dict_has n (columns meta_left)) eqn:Dn; [|reflexivity].
      elim E. apply filter_In. now split. }
  assert (NDr : NoDup (df_columns right)).
  { rewrite Hc. now apply List.NoDup_filter. }
  assert (Fresh : forall n, In n (df_columns right) -> n <> key ->
                            ~ In n (df_columns dl')).
  { intros n Hn Hk Hin. rewrite Cdl in Hin. apply Hd in Hin.
    rewrite Hc in Hn. apply filter_In in Hn. destruct Hn as [Hn Hm].
    rewrite (New n Hn Hk), Hin in Hm. discriminate. }
  rewrite (merge_left_columns _ _ _ _ _ Hmg NDr Fresh), Cdl, Hc. f_equal.
  rewrite filter_filter_and. apply filter_ext_in. intros n Hn.
  destruct (String.eqb_spec n key) as [->|N]; cbn [negb].
  - rewrite Hdecl, andb_false_r. reflexivity.
  - rewrite (New n Hn N), andb_true_r. reflexivity.
Qed.

Lemma hmerge_single emulate_meta uniquify_list float_str left ds key overwrite_text
      from_set merge_existing :
  hmerge emulate_meta uniquify_list float_str left [ds] (Some key) None None
         overwrite_text from_set merge_existing
  = hmerge_one emulate_meta uniquify_list float_str key key overwrite_text
      from_set merge_existing left ds.
Proof.
  unfold hmerge. cbn [merge_keys]. rewrite bind_ret. cbn [foldM].
  apply bind_ret_r.
Qed.

(** X16.  [hmerge] of one right dataset on a key given as [on] returns
    only if the key is a column of both data frames, is declared in the
    left metadata and is among the columns that [merge_meta] takes from
    the set of the right metadata. *)
Theorem hmerge_on_needs_the_key (emulate_meta : Meta -> Column -> Column)
    (uniquify_list : list string -> list string) (float_str : Q -> string)
    (meta_left meta_right : Meta) (data_left data_right : DataFrame)
    (key : string) (overwrite_text : bool) (from_set : option string)
    (merge_existing : option existing) (w : list string) (meta : Meta)
    (data : DataFrame) :
  (forall l, NoDup (uniquify_list l)) ->
  hmerge emulate_meta uniquify_list float_str (meta_left, data_left)
    [(meta_right, data_right)] (Some key) None None overwrite_text from_set
    merge_existing
  = (w, Ok (meta, data)) ->
  In key (df_columns data_left)
  /\ In key (df_columns data_right)
  /\ dict_has key (columns meta_left) = true
  /\ exists w' cols upd,
       merge_meta emulate_meta uniquify_list meta_left meta_right from_set
                  overwrite_text
       = (w', Ok (meta, cols, upd))
       /\ In key cols.
Proof.
  intros Huq H. rewrite hmerge_single in H.
  destruct (hmerge_one_on_key _ _ _ _ _ _ _ _ _ _ _ _ _ _ Huq H)
    as (w' & cols & upd & Hm & Hc & Hd & Hl & Hr & _).
  repeat split; try assumption. now exists w', cols, upd.
Qed.

Lemma hmerge_on_needs_the_key_witness :
  exists w meta data,
    hmerge same_column uniq whole_float_str
      (plain_meta [("id", "int"); ("a", "int")],
       mkDF ["id"; "a"] [[CInt 1; CInt 5]; [CInt 2; CInt 6]])
      [(plain_meta [("id", "int"); ("b", "int")],
        mkDF ["id"; "b"] [[CInt 2; CInt 7]; [CInt 3; CInt 8]])]
      (Some "id") None None false None None
    = (w, Ok (meta, data))
    /\ dict_has "id" (columns (plain_meta [("id", "int"); ("a", "int")])) = true.
Proof.
  eassert (H : hmerge same_column uniq whole_float_str
      (plain_meta [("id", "int"); ("a", "int")],
       mkDF ["id"; "a"] [[CInt 1; CInt 5]; [CInt 2; CInt 6]])
      [(plain_meta [("id", "int"); ("b", "int")],
        mkDF ["id"; "b"] [[CInt 2; CInt 7]; [CInt 3; CInt 8]])]
      (Some "id") None None false None None = (_, Ok (_, _))).
  { vm_compute. reflexivity. }
  eexists _, _, _. split; [exact H|].
  exact (proj1 (proj2 (proj2
    (hmerge_on_needs_the_key _ _ _ _ _ _ _ _ _ _ _ _ _ _ uniq_NoDup H)))).
Defined.



Lemma flat_map_single {A B} (f : A -> list B) (g : A -> B) l :
  (forall x, In x l -> f x = [g x]) -> flat_map f l = map g l.
Proof.
  induction l as [|x l IH]; intros H; [reflexivity|].
  cbn [flat_map map]. rewrite (H x (or_introl eq_refl)), IH; [reflexivity|].
  intros y Hy. apply H. now right.
Qed.

Lemma list_remove_absent x l l' :
  list_remove x l = Some l' -> NoDup l -> ~ In x l'.
Proof.
  revert l'. induction l as [|y l IH]; intros l' R ND; simpl in R; [discriminate|].
  inversion ND as [|? ? Hy ND']; subst.
  destruct (String.eqb_spec x y) as [->|N].
  - injection R as <-. exact Hy.
  - destruct (list_remove x l) as [l0|] eqn:R0; [|discriminate].
    injection R as <-. intros [E|H]; [congruence|].
    exact (IH l0 eq_refl ND' H).
Qed.

(** With no key value twice on the right, the left join keeps every
    left row where it is and adds cells at its end. *)
Lemma merge_left_prefix left right left_on right_on w d :
  merge_left left right left_on right_on = (w, Ok d) ->
  unique_keys right_on right ->
  forall i r, nth_error (df_rows left) i = Some r ->
              exists extra, nth_error (df_rows d) i = Some (r ++ extra)%list.
Proof.
  unfold merge_left. intros H U. inv_bind H as li Hli. inv_bind H as ri Hri.
  apply ret_ok in H. subst d. cbn [df_rows].
  apply column_position_ok in Hri. specialize (U _ Hri).
  set (kept := filter _ (enumerate 0 (df_columns right))).
  set (ext := fun l : list cell =>
                match filter (fun r => cell_eqb (get_cell ri r) (get_cell li l))
                             (df_rows right) with
                | [] => repeat CNaN (List.length kept)
                | m :: _ => map (fun jc : nat * string => get_cell (fst jc) m) kept
                end).
  rewrite (flat_map_single _ (fun l => (l ++ ext l)%list)).
  - intros i r Hr. exists (ext r). now rewrite nth_error_map, Hr.
  - intros l _. unfold ext.
    pose proof (unique_match (column_cells ri right) (get_cell li l) U) as L.
    unfold column_cells in L. rewrite <- filter_column in L.
    destruct (filter _ (df_rows right)) as [|m [|m' ms]]; simpl in *;
      [reflexivity | reflexivity | lia].
Qed.

(** X26.  [hmerge] on a key given as [on], when the right data holds no
    key value twice and the left metadata declares no column of the
    right data but the key: every row of the left data is found at its
    place in the merged data, its cells unchanged, with the cells of
    the new columns added at its end. *)
Theorem hmerge_keeps_the_left_rows (emulate_meta : Meta -> Column -> Column)
    (uniquify_list : list string -> list string) (float_str : Q -> string)
    (meta_left meta_right : Meta) (data_left data_right : DataFrame)
    (key : string) (overwrite_text : bool) (from_set : option string)
    (merge_existing : option existing) (w : list string) (meta : Meta)
    (data : DataFrame) :
  (forall l, NoDup (uniquify_list l)) ->
  unique_keys key data_right ->
  (forall c, In c (df_columns data_right) -> c <> key ->
             dict_has c (columns meta_left) = false) ->
  hmerge emulate_meta uniquify_list float_str (meta_left, data_left)
    [(meta_right, data_right)] (Some key) None None overwrite_text from_set
    merge_existing
  = (w, Ok (meta, data)) ->
  forall i r, nth_error (df_rows data_left) i = Some r ->
              exists extra, nth_error (df_rows data) i = Some (r ++ extra)%list.
Proof.
  intros Huq U Hnew H. rewrite hmerge_single in H. unfold hmerge_one in H.
  inv_bind H as dr' Hslice. inv_bind H as mm Hmeta.
  destruct mm as [[ml' cols] upd].
  inv_bind H as upd1 Hupd. inv_bind H as dl' Hknown.
  inv_bind H as merged Happend. apply ret_ok in H. injection H as _ <-.
  rewrite String.eqb_refl in *. cbn [negb andb] in *.
  destruct (merge_meta_ok _ _ _ _ _ _ _ _ _ _ Huq Hmeta) as [NDc [D Eu]].
  destruct (list_remove key upd) as [l|] eqn:R; [|discriminate].
  apply ret_ok in Hupd. subst l.
  destruct (slice_right_ok _ _ _ _ _ _ Hslice) as [Cr [Ur _]].
  assert (E : upd1 = []).
  { destruct upd1 as [|c upd1']; [reflexivity|]. exfalso.
    assert (Hc1 : In c (c :: upd1')) by now left.
    assert (Nk : c <> key).
    { intros ->. apply (list_remove_absent key upd _ R); [|exact Hc1].
      rewrite Eu. now apply List.NoDup_filter. }
    pose proof (proj1 (list_remove_other _ _ _ c R Nk) Hc1) as Hcu.
    rewrite Eu in Hcu. apply filter_In in Hcu. destruct Hcu as [_ Hdecl].
    unfold update_known_columns in Hknown.
    inv_bind Hknown as li Hli. inv_bind Hknown as u1 Hu1.
    inv_bind Hknown as ljs Hljs. inv_bind Hknown as ri Hri.
    inv_bind Hknown as u2 Hu2. inv_bind Hknown as rjs Hrjs.
    apply mapM_ok in Hrjs. inversion Hrjs as [|? j ? ? [w' Hj] _]; subst.
    apply column_position_ok, index_of_In in Hj. rewrite Cr in Hj.
    rewrite (Hnew c Hj Nk) in Hdecl. discriminate. }
  subst upd1. apply ret_ok in Hknown. subst dl'.
  unfold append_new_columns in Happend.
  inv_bind Happend as right Hsel. inv_bind Happend as mg Hmg.
  apply ret_ok in Happend. subst mg.
  apply (merge_left_prefix _ _ _ _ _ _ Hmg).
  apply (select_columns_keys _ _ _ _ key Hsel). now apply Ur.
Qed.

Lemma hmerge_keeps_the_left_rows_witness :
  exists w meta data,
    hmerge same_column uniq whole_float_str
      (plain_meta [("id", "int"); ("a", "int")],
       mkDF ["id"; "a"] [[CInt 1; CInt 5]; [CInt 2; CInt 6]])
      [(plain_meta [("id", "int"); ("b", "int")],
        mkDF ["id"; "b"] [[CInt 2; CInt 7]; [CInt 3; CInt 8]])]
      (Some "id") None None false None None
    = (w, Ok (meta, data))
    /\ exists extra,
         nth_error (df_rows data) 1 = Some ([CInt 2; CInt 6] ++ extra)%list.
Proof.
  eassert (H : hmerge same_column uniq whole_float_str
      (plain_meta [("id", "int"); ("a", "int")],
       mkDF ["id"; "a"] [[CInt 1; CInt 5]; [CInt 2; CInt 6]])
      [(plain_meta [("id", "int"); ("b", "int")],
        mkDF ["id"; "b"] [[CInt 2; CInt 7]; [CInt 3; CInt 8]])]
      (Some "id") None None false None None = (_, Ok (_, _))).
  { vm_compute. reflexivity. }
  eexists _, _, _. split; [exact H|].
  refine (hmerge_keeps_the_left_rows same_column uniq whole_float_str
            (plain_meta [("id", "int"); ("a", "int")])
            (plain_meta [("id", "int"); ("b", "int")])
            (mkDF ["id"; "a"] [[CInt 1; CInt 5]; [CInt 2; CInt 6]])
            (mkDF ["id"; "b"] [[CInt 2; CInt 7]; [CInt 3; CInt 8]])
            "id" false None None _ _ _ uniq_NoDup _ _ H 1%nat [CInt 2; CInt 6] eq_refl).
  - intros j Hj. vm_compute in Hj. injection Hj as <-. reflexivity.
  - intros c Hc Nk. simpl in Hc. destruct Hc as [<-|[<-|[]]]; [congruence | reflexivity].
Defined.

(** ** More on [vmerge] *)









Lemma foldM_enumerate_shift {A B} (body : B -> nat * A -> M B) (l : list A) :
  (forall acc i j x, body acc (i, x) = body acc (j, x)) ->
  forall k k' acc, foldM body acc (enumerate k l) = foldM body acc (enumerate k' l).
Proof.
  intros H. induction l as [|x l IH]; intros k k' acc; cbn [enumerate foldM];
    [reflexivity|].
  rewrite (H acc k k' x). apply bind_ext. intros acc'. apply IH.
Qed.

(** X24.  [vmerge] on a list of datasets, without row ids, merges from
    the left: the first two datasets are merged, and the result takes
    the place of both in the list; a list of two is the merge of the
    two.  The empty list raises [ValueError], and a list of one dataset
    raises [NameError], no merged dataset having been assigned. *)
Theorem vmerge_of_a_list (emulate_meta : Meta -> Column -> Column)
    (uniquify_list : list string -> list string) (float_str : Q -> string)
    (dataset_left dataset_right : option (Meta * DataFrame))
    (a b : Meta * DataFrame) (rest : list (Meta * DataFrame))
    (on left_on right_on row_id_name : option string)
    (left_id right_id : option row_id) (overwrite_text : bool)
    (from_set : option string) :
  (exists msg,
     vmerge emulate_meta uniquify_list float_str dataset_left dataset_right
       (Some []) on left_on right_on row_id_name left_id right_id []
       overwrite_text from_set = raise (ValueError msg))
  /\ (exists msg,
        vmerge emulate_meta uniquify_list float_str dataset_left dataset_right
          (Some [a]) on left_on right_on row_id_name left_id right_id []
          overwrite_text from_set = raise (NameError msg))
  /\ vmerge emulate_meta uniquify_list float_str dataset_left dataset_right
       (Some (a :: b :: rest)) on left_on right_on row_id_name left_id right_id []
       overwrite_text from_set
     = (ab <- vmerge emulate_meta uniquify_list float_str (Some a) (Some b) None
                on left_on right_on row_id_name left_id right_id []
                overwrite_text from_set ;;
        match rest with
        | [] => ret ab
        | _ => vmerge emulate_meta uniquify_list float_str dataset_left dataset_right
                 (Some (ab :: rest)) on left_on right_on row_id_name left_id
                 right_id [] overwrite_text from_set
        end).
Proof.
  split; [eexists; reflexivity|]. split; [eexists; reflexivity|].
  unfold vmerge. cbn [enumerate foldM]. rewrite bind_ret.
  apply bind_ext. intros ab. destruct rest as [|c rest]; [reflexivity|].
  apply foldM_enumerate_shift. intros acc i j x. reflexivity.
Qed.

(** ** More on the recoder *)





Lemma set_at_length {A} (idx : list nat) (x : A) l :
  List.length (set_at idx x l) = List.length l.
Proof.
  unfold set_at. rewrite length_map. clear. generalize 0%nat.
  induction l as [|a l IH]; intros k; simpl; [reflexivity | now rewrite IH].
Qed.



Lemma zip_with_length {A B C} (f : A -> B -> C) l1 l2 :
  List.length l1 = List.length l2 ->
  List.length (zip_with f l1 l2) = List.length l1.
Proof.
  revert l2. induction l1 as [|a l1 IH]; intros [|b l2] H; simpl in *;
    try reflexivity; try discriminate.
  now rewrite IH by congruence.
Qed.

Lemma condense_default_rows re_match py_float ds w s :
  condense_default re_match py_float ds = (w, Ok s) ->
  List.length s = List.length (df_rows ds).
Proof.
  unfold condense_default. rewrite condense_plain, bind_ret.
  intros H. apply ret_ok in H. subst s. apply length_map.
Qed.

Lemma renormalise_rows re_match py_float series w s :
  renormalise re_match py_float series = (w, Ok s) ->
  List.length s = List.length series.
Proof.
  unfold renormalise. intros H. inv_bind H as ints Hints.
  apply condense_default_rows in H. rewrite H. cbn [df_rows get_dummies].
  now rewrite !length_map.
Qed.

Lemma as_delimited_length float_str series :
  List.length (as_delimited float_str series) = List.length (cells_of series).
Proof. destruct series; simpl; now rewrite !length_map. Qed.

Lemma recode_from_index_mapper_rows re_match py_float float_str meta name series
      index_mapper append w cells :
  recode_from_index_mapper re_match py_float float_str meta name series
    index_mapper append = (w, Ok cells) ->
  List.length cells = List.length (cells_of series).
Proof.
  unfold recode_from_index_mapper. intros H. inv_bind H as col Hcol.
  destruct (String.eqb (column_type col) "delimited set").
  - inv_bind H as cols Hcols. inv_bind H as ds2 Hds2.
    apply condense_default_rows in Hds2.
    assert (L : List.length
                  (join_delimited_set_series (as_delimited float_str series) ds2 append)
                = List.length (cells_of series)).
    { unfold join_delimited_set_series. rewrite length_map.
      assert (E : List.length (as_delimited float_str series) = List.length ds2).
      { rewrite Hds2. unfold dichotomous_frame. cbn [df_rows].
        now rewrite length_map, length_seq. }
      destruct append; rewrite zip_with_length by exact E;
        apply as_delimited_length. }
    destruct (forallb _ _).
    + inv_bind H as u Hu. apply ret_ok in H. subst cells.
      now rewrite length_map.
    + inv_bind H as s Hs. apply ret_ok in H. subst cells.
      apply renormalise_rows in Hs. now rewrite length_map, Hs.
  - destruct (Py.mem _ _); [|discriminate].
    apply ret_ok in H. subst cells. generalize (cells_of series).
    induction index_mapper as [|ki l IH]; intros s; cbn [fold_left]; [reflexivity|].
    now rewrite IH, set_at_length.
Qed.

(** X20.  [recode] returns one value for every row of the data: when
    every column of the data has as many values as the data has rows,
    so has the recoded series, whatever the mapper, the seed and the
    fill value. *)
Theorem recode_keeps_the_rows (re_match : string -> string -> re_outcome)
    (py_float : string -> option Q) (float_str : Q -> string)
    (has_any : list Z -> logic) (intersection : list logic -> logic)
    (get_logic_index : Data -> logic -> M (list nat))
    (meta : Meta) (data : Data) (target : string) (mapper : list (Z * logic))
    (default : option string) (append : bool) (intersect : option logic)
    (initialize : option initial) (fillna : option Z)
    (w : list string) (cells : list cell) :
  (forall n s, dict_get n (data_columns data) = Some s ->
               List.length (cells_of s) = data_nrows data) ->
  recode re_match py_float float_str has_any intersection get_logic_index
    meta data target mapper default append intersect initialize fillna
  = (w, Ok cells) ->
  List.length cells = data_nrows data.
Proof.
  intros Hdata H. unfold recode in H.
  inv_bind H as tcol Htcol. inv_bind H as u1 Hu1. inv_bind H as u2 Hu2.
  inv_bind H as u3 Hu3. inv_bind H as index_map Hmap.
  inv_bind H as series Hseries. inv_bind H as recoded Hrec.
  apply recode_from_index_mapper_rows in Hrec.
  assert (L : List.length (cells_of series) = data_nrows data).
  { assert (N : List.length (cells_of (nan_series data)) = data_nrows data).
    { unfold nan_series. cbn [cells_of]. now rewrite length_map, repeat_length. }
    destruct initialize as [[i|]|].
    - apply dict_item_ok in Hseries. exact (Hdata _ _ Hseries).
    - apply ret_ok in Hseries. now subst.
    - destruct (dict_get target (data_columns data)) as [s|] eqn:E;
        apply ret_ok in Hseries; subst series; [exact (Hdata _ _ E) | exact N]. }
  rewrite <- L, <- Hrec.
  destruct fillna as [f|]; [|apply ret_ok in H; now subst].
  destruct (String.eqb _ "single");
    [apply ret_ok in H; subst; apply length_map|].
  destruct (String.eqb _ "delimited set"); apply ret_ok in H; subst;
    [apply length_map | reflexivity].
Qed.

Lemma recode_keeps_the_rows_witness :
  exists w cells,
    recode no_regex literal_float whole_float_str any_of all_of no_rows
      (plain_meta [("q", "single"); ("x", "single")])
      (mkData 2 [("q", Int64 [3; 4]); ("x", Int64 [5; 6])])
      "q" [(2, Dict [(Some "x", any_of [1])])] None false None None None
    = (w, Ok cells)
    /\ List.length cells = 2%nat.
Proof.
  eassert (H : recode no_regex literal_float whole_float_str any_of all_of no_rows
      (plain_meta [("q", "single"); ("x", "single")])
      (mkData 2 [("q", Int64 [3; 4]); ("x", Int64 [5; 6])])
      "q" [(2, Dict [(Some "x", any_of [1])])] None false None None None
    = (_, Ok _)).
  { vm_compute. reflexivity. }
  eexists _, _. split; [exact H|].
  refine (recode_keeps_the_rows _ _ _ _ _ _ _
            (mkData 2 [("q", Int64 [3; 4]); ("x", Int64 [5; 6])])
            _ _ _ _ _ _ _ _ _ _ H).
  intros n s Hn. cbn [data_columns dict_get] in Hn.
  destruct (String.eqb n "q"); [injection Hn as <-; reflexivity|].
  destruct (String.eqb n "x"); [injection Hn as <-; reflexivity | discriminate].
Defined.

(** X21.  The fill value of [recode]: for a target of type single or
    delimited set no value of the recoded series is missing when a fill
    value is given; for a target of any other type the fill value
    changes nothing. *)
Theorem recode_fillna_by_type (re_match : string -> string -> re_outcome)
    (py_float : string -> option Q) (float_str : Q -> string)
    (has_any : list Z -> logic) (intersection : list logic -> logic)
    (get_logic_index : Data -> logic -> M (list nat))
    (meta : Meta) (data : Data) (target : string) (mapper : list (Z * logic))
    (default : option string) (append : bool) (intersect : option logic)
    (initialize : option initial) (f : Z) (tcol : Column) :
  dict_get target (columns meta) = Some tcol ->
  (Py.mem (column_type tcol) ["single"; "delimited set"] = true ->
   forall w cells,
     recode re_match py_float float_str has_any intersection get_logic_index
       meta data target mapper default append intersect initialize (Some f)
     = (w, Ok cells) ->
     Forall (fun c => c <> CNaN) cells)
  /\ (Py.mem (column_type tcol) ["single"; "delimited set"] = false ->
      recode re_match py_float float_str has_any intersection get_logic_index
        meta data target mapper default append intersect initialize (Some f)
      = recode re_match py_float float_str has_any intersection get_logic_index
          meta data target mapper default append intersect initialize None).
Proof.
  intros Ht.
  assert (Fill : forall c s, c <> CNaN -> Forall (fun x => x <> CNaN) (map (fill_cell c) s)).
  { intros c s Hc. apply Forall_forall. intros x Hx.
    apply in_map_iff in Hx. destruct Hx as [y [<- _]].
    destruct y; simpl; (exact Hc || discriminate). }
  split.
  - intros Hty w cells H. unfold recode in H. rewrite Ht in H.
    rewrite bind_ret in H.
    inv_bind H as u1 Hu1. inv_bind H as u2 Hu2.
    inv_bind H as u3 Hu3. inv_bind H as index_map Hmap.
    inv_bind H as series Hseries. inv_bind H as recoded Hrec.
    unfold Py.mem in Hty. cbn [existsb] in Hty.
    destruct (String.eqb (column_type tcol) "single").
    + apply ret_ok in H. subst cells. apply Fill. discriminate.
    + destruct (String.eqb (column_type tcol) "delimited set"); [|discriminate].
      apply ret_ok in H. subst cells. apply Fill. discriminate.
  - intros Hty. unfold recode. rewrite Ht, !bind_ret.
    unfold Py.mem in Hty. cbn [existsb] in Hty.
    apply orb_false_iff in Hty. destruct Hty as [E1 E2].
    apply orb_false_iff in E2. destruct E2 as [E2 _].
    rewrite E1, E2. reflexivity.
Qed.

Lemma recode_fillna_by_type_witness :
  recode no_regex literal_float whole_float_str any_of all_of no_rows
    (plain_meta [("q", "int"); ("x", "single")])
    (mkData 2 [("x", Int64 [5; 6])])
    "q" [(2, Dict [(Some "x", any_of [1])])] None false None None (Some 9)
  = recode no_regex literal_float whole_float_str any_of all_of no_rows
      (plain_meta [("q", "int"); ("x", "single")])
      (mkData 2 [("x", Int64 [5; 6])])
      "q" [(2, Dict [(Some "x", any_of [1])])] None false None None None.
Proof.
  exact (proj2 (recode_fillna_by_type no_regex literal_float whole_float_str
                  any_of all_of no_rows
                  (plain_meta [("q", "int"); ("x", "single")])
                  (mkData 2 [("x", Int64 [5; 6])])
                  "q" [(2, Dict [(Some "x", any_of [1])])] None false None None 9
                  (snd (plain_column "q" "int")) eq_refl) eq_refl).
Defined.

(** ** [sniff_single] *)

Lemma replace_trailing c :
  all_chars (fun a => negb (Ascii.eqb a ";")) c = true ->
  Py.replace ";" "" (c ++ ";") = c.
Proof.
  unfold Py.replace. induction c as [|a c IH]; [reflexivity|].
  cbn [all_chars]. intros H. apply andb_true_iff in H. destruct H as [Ha Hc].
  apply negb_true_iff in Ha.
  change (String a c ++ ";") with (String a (c ++ ";")).
  cbn [Py.replace_from String.prefix].
  destruct (ascii_dec ";" a) as [<-|_]; [discriminate Ha|].
  now rewrite (IH Hc).
Qed.

Lemma mapM_map {A B C} (f : B -> M C) (g : A -> B) l :
  mapM f (map g l) = mapM (fun x => f (g x)) l.
Proof.
  induction l as [|x l IH]; cbn [map mapM]; [reflexivity | now rewrite IH].
Qed.

Lemma max_is_one (l : list Z) : forall a,
  Forall (fun s => s <= 1) l -> a <= 1 -> (a = 1 \/ Exists (fun s => s = 1) l) ->
  fold_left Z.max l a = 1.
Proof.
  induction l as [|s l IH]; intros a Hl Ha H; cbn [fold_left].
  - destruct H as [H|H]; [exact H | inversion H].
  - inversion Hl as [|? ? Hs Hl']; subst. apply IH; [exact Hl' | lia |].
    destruct H as [->|H]; [left; lia|].
    inversion H as [? ? E|? ? E]; subst; [left; lia | now right].
Qed.

Lemma row_sum_counts codes r :
  List.length r = List.length codes ->
  row_sum (map (keep_yes_no 1 0) r) = Z.of_nat (List.length (yes_codes 1 0 codes r)).
Proof.
  unfold yes_codes. revert codes.
  induction r as [|x r IH]; intros [|c codes] H; try discriminate; [reflexivity|].
  cbn [map row_sum fold_right combine filter snd].
  change (fold_right (fun c acc => dvalue c + acc) 0 (map (keep_yes_no 1 0) r))
    with (row_sum (map (keep_yes_no 1 0) r)).
  rewrite (IH codes) by (simpl in H; congruence).
  rewrite dvalue_keep. unfold counts_as_yes. cbn [Z.eqb negb].
  rewrite andb_true_r. destruct (cell_eq_int x 1); cbn [map List.length]; lia.
Qed.

Lemma yes_codes_in yes no codes r c :
  In c (yes_codes yes no codes r) -> In c codes.
Proof.
  unfold yes_codes. intros H. apply in_map_iff in H.
  destruct H as [[c' x] [<- H]]. apply filter_In in H. destruct H as [H _].
  now apply in_combine_l in H.
Qed.

(** X22.  [condense_dichotomous_set] with [sniff_single], for the yes
    value 1 and the no value 0, on a frame in which no row has more than
    one yes and some row has one: the series returned holds, for every
    row, the code of its yes column read as a float, and a missing value
    for a row without a yes. *)
Theorem condense_sniffs_single_answers
    (re_match : string -> string -> re_outcome) (py_float : string -> option Q)
    (num : string -> Q) (df : DataFrame) (values_from_labels : bool) :
  rectangular df ->
  numbered py_float num (codes_of values_from_labels (df_columns df)) ->
  (forall r, In r (df_rows df) ->
     (List.length (yes_codes 1 0 (codes_of values_from_labels (df_columns df)) r)
      <= 1)%nat) ->
  (exists r, In r (df_rows df)
             /\ yes_codes 1 0 (codes_of values_from_labels (df_columns df)) r <> []) ->
  condense_dichotomous_set re_match py_float df values_from_labels true 1 0 None
  = ret (AsFloat
           (map (fun r => option_map num
                            (hd_error (yes_codes 1 0
                               (codes_of values_from_labels (df_columns df)) r)))
                (df_rows df))).
Proof.
  set (codes := codes_of values_from_labels (df_columns df)).
  intros Hrect Hnum Hone [r0 [Hr0 Hyes0]].
  assert (Lc : List.length codes = List.length (df_columns df)).
  { unfold codes, codes_of. rewrite length_map. clear. generalize 1%nat.
    induction (df_columns df) as [|c l IH]; intros k; simpl; [reflexivity|].
    now rewrite IH. }
  assert (Hlen : forall r, In r (df_rows df) -> List.length r = List.length codes).
  { intros r Hr. unfold rectangular in Hrect. rewrite Forall_forall in Hrect.
    rewrite Lc. now apply Hrect. }
  unfold condense_dichotomous_set.
  rewrite condense_series_plain, bind_ret. fold codes.
  (* the frame is not empty *)
  assert (Size : Nat.eqb (List.length (map (map (keep_yes_no 1 0)) (df_rows df))
                          * List.length (df_columns df)) 0 = false).
  { apply Nat.eqb_neq. rewrite length_map, <- Lc.
    destruct (df_rows df) as [|r rows]; [contradiction|].
    destruct codes as [|c codes']; [|simpl; lia].
    elim Hyes0. unfold yes_codes. reflexivity. }
  rewrite Size.
  (* the largest row sum is 1 *)
  assert (Max : max_row_sum (map (map (keep_yes_no 1 0)) (df_rows df)) = Some 1).
  { unfold max_row_sum. rewrite map_map.
    assert (S1 : Forall (fun s => s <= 1)
                   (map (fun r => row_sum (map (keep_yes_no 1 0) r)) (df_rows df))).
    { apply Forall_forall. intros s Hs. apply in_map_iff in Hs.
      destruct Hs as [r [<- Hr]]. rewrite (row_sum_counts codes r (Hlen r Hr)).
      specialize (Hone r Hr). lia. }
    assert (E1 : Exists (fun s => s = 1)
                   (map (fun r => row_sum (map (keep_yes_no 1 0) r)) (df_rows df))).
    { apply Exists_exists. exists (row_sum (map (keep_yes_no 1 0) r0)). split.
      - apply in_map_iff. now exists r0.
      - rewrite (row_sum_counts codes r0 (Hlen r0 Hr0)).
        specialize (Hone r0 Hr0).
        destruct (yes_codes 1 0 codes r0) as [|c [|c' l]];
          [contradiction | reflexivity | simpl in Hone; lia]. }
    revert S1 E1.
    generalize (map (fun r => row_sum (map (keep_yes_no 1 0) r)) (df_rows df)).
    intros [|s ss] S1 E1; [inversion E1|].
    f_equal. inversion S1 as [|? ? Hs Hss]; subst.
    apply max_is_one; [exact Hss | exact Hs |].
    inversion E1 as [? ? E|? ? E]; subst; [now left | now right]. }
  rewrite Max. cbn [andb Z.eqb Pos.eqb].
  (* every row reads as a float *)
  unfold sniffed.
  assert (Some0 : forallb (fun v : option string =>
                             match v with None => true | Some _ => false end)
                    (map (fun r => concat_row (yes_codes 1 0 codes r)) (df_rows df))
                  = false).
  { apply not_true_is_false. intros F. rewrite forallb_forall in F.
    specialize (F (concat_row (yes_codes 1 0 codes r0))
                  (in_map _ _ _ Hr0)).
    specialize (Hone r0 Hr0).
    destruct (yes_codes 1 0 codes r0) as [|c [|c' l]] eqn:Y;
      [contradiction | | simpl in Hone; lia].
    assert (Hc : In c codes).
    { apply (yes_codes_in 1 0 codes r0). rewrite Y. now left. }
    unfold numbered in Hnum. rewrite Forall_forall in Hnum.
    destruct (Hnum c Hc) as (N1 & N2 & _).
    rewrite concat_row_delimited in F by (repeat constructor; assumption).
    discriminate F. }
  rewrite Some0, mapM_map.
  rewrite (mapM_ext _ (fun r => ret (option_map num
                                       (hd_error (yes_codes 1 0 codes r))))).
  - now rewrite mapM_ret, bind_ret.
  - intros r Hr. specialize (Hone r Hr).
    destruct (yes_codes 1 0 codes r) as [|c [|c' l]] eqn:Y;
      [reflexivity | | simpl in Hone; lia].
    assert (Hc : In c codes).
    { apply (yes_codes_in 1 0 codes r). rewrite Y. now left. }
    unfold numbered in Hnum. rewrite Forall_forall in Hnum.
    destruct (Hnum c Hc) as (N1 & N2 & N3 & N4).
    rewrite concat_row_delimited by (repeat constructor; assumption).
    unfold delimited, Py.join. cbn [String.concat].
    now rewrite (replace_trailing c N3), N4.
Qed.

Lemma condense_sniffs_single_answers_witness :
  condense_dichotomous_set no_regex literal_float
    (mkDF ["q_1"; "q_2"; "q_3"] [[CInt 0; CInt 1; CInt 0]; [CInt 0; CInt 0; CNaN]])
    true true 1 0 None
  = ret (AsFloat [Some (inject_Z 2); None]).
Proof.
  refine (condense_sniffs_single_answers no_regex literal_float
            (fun c => match Py.int c with Some z => inject_Z z | None => 0%Q end)
            (mkDF ["q_1"; "q_2"; "q_3"] [[CInt 0; CInt 1; CInt 0]; [CInt 0; CInt 0; CNaN]])
            true _ _ _ _).
  - repeat constructor.
  - repeat (constructor; [repeat split; discriminate || reflexivity|]).
    constructor.
  - intros r [<-|[<-|[]]]; vm_compute; lia.
  - exists [CInt 0; CInt 1; CInt 0]. split; [now left | discriminate].
Defined.

(** ** Recoding a delimited set *)














(** ** [split_series] *)

Lemma split_nonempty sep s : Py.split sep s <> [].
Proof.
  destruct s as [|c s]; simpl; [discriminate|].
  destruct (Ascii.eqb c sep); [discriminate|].
  destruct (Py.split sep s); discriminate.
Qed.

Lemma join_split sep s : Py.join (String sep "") (Py.split sep s) = s.
Proof.
  unfold Py.join. induction s as [|c s IH]; [reflexivity|].
  cbn [Py.split]. pose proof (split_nonempty sep s) as Hne.
  destruct (Ascii.eqb_spec c sep) as [->|N];
    destruct (Py.split sep s) as [|w ws]; try contradiction.
  - change (String.concat (String sep "") ("" :: w :: ws))
      with (String sep (String.concat (String sep "") (w :: ws))).
    now rewrite IH.
  - destruct ws as [|w' ws'].
    + cbn [String.concat] in *. now rewrite IH.
    + change (String.concat (String sep "") (String c w :: w' :: ws'))
        with (String c (String.concat (String sep "") (w :: w' :: ws'))).
      now rewrite IH.
Qed.

Lemma present_pad width toks : present (pad_row width toks) = toks.
Proof.
  unfold present, pad_row. rewrite flat_map_app.
  assert (E1 : flat_map (fun v : option string =>
                           match v with Some s => [s] | None => [] end)
                        (map Some toks) = toks).
  { induction toks as [|t toks IH]; [reflexivity|]. cbn. now rewrite IH. }
  assert (E2 : forall n, flat_map (fun v : option string =>
                                     match v with Some s => [s] | None => [] end)
                                  (repeat None n) = []).
  { induction n as [|n IH]; [reflexivity | exact IH]. }
  now rewrite E1, E2, List.app_nil_r.
Qed.

Lemma max_bound (l : list nat) n : In n l -> (n <= fold_right Nat.max 0 l)%nat.
Proof.
  induction l as [|x l IH]; [contradiction|].
  cbn [fold_right]. intros [->|H]; [lia|]. specialize (IH H). lia.
Qed.

(** X27.  [split_series] with a separator of one character: every row
    of the frame has as many cells as the longest list of tokens; the
    cells of a row that are not fillers are the tokens of the item, and
    joining them with the separator gives back the item as [str] prints
    it.  Column names are accepted when there are as many as columns,
    and raise [ValueError] otherwise. *)
Theorem split_series_splits_and_fills (float_str : Q -> string)
    (series : list cell) (sep : ascii) (columns_ : option (list string)) :
  (forall names, columns_ = Some names ->
     List.length names <> most_tokens float_str series sep ->
     exists msg, split_series float_str series sep columns_ = raise (ValueError msg))
  /\ ((forall names, columns_ = Some names ->
                     List.length names = most_tokens float_str series sep) ->
      exists rows,
        split_series float_str series sep columns_ = ret (mkSplit columns_ rows)
        /\ List.length rows = List.length series
        /\ Forall (fun row => List.length row = most_tokens float_str series sep) rows
        /\ forall i x, nth_error series i = Some x ->
             exists row,
               nth_error rows i = Some row
               /\ present row = Py.split sep (cell_str float_str x)
               /\ Py.join (String sep "") (present row) = cell_str float_str x).
Proof.
  set (width := most_tokens float_str series sep).
  assert (W : fold_right Nat.max 0%nat
                (map (@List.length string)
                     (map (fun x => Py.split sep (cell_str float_str x)) series))
              = width).
  { unfold width, most_tokens. now rewrite map_map. }
  split.
  - intros names -> Hn. unfold split_series. rewrite W.
    apply Nat.eqb_neq in Hn. rewrite Hn. eexists. reflexivity.
  - intros Hn.
    exists (map (pad_row width)
                (map (fun x => Py.split sep (cell_str float_str x)) series)).
    split; [|split; [|split]].
    + unfold split_series. rewrite W. destruct columns_ as [names|]; [|reflexivity].
      rewrite (Hn names eq_refl), Nat.eqb_refl. reflexivity.
    + now rewrite !length_map.
    + apply Forall_forall. intros row Hrow. apply in_map_iff in Hrow.
      destruct Hrow as [toks [<- Htoks]]. unfold pad_row.
      rewrite length_app, length_map, repeat_length.
      assert (List.length toks <= width)%nat; [|lia].
      rewrite <- W. apply max_bound. now apply in_map.
    + intros i x Hx. eexists. split.
      * rewrite !nth_error_map, Hx. reflexivity.
      * rewrite present_pad. split; [reflexivity | apply join_split].
Qed.

Lemma split_series_splits_and_fills_witness :
  split_series whole_float_str [CStr "1;2;3"; CNaN; CInt 7] ";"
    (Some ["a"; "b"; "c"])
  = ret (mkSplit (Some ["a"; "b"; "c"])
           [[Some "1"; Some "2"; Some "3"]; [Some "nan"; None; None];
            [Some "7"; None; None]]).
Proof.
  destruct (proj2 (split_series_splits_and_fills whole_float_str
                     [CStr "1;2;3"; CNaN; CInt 7] ";" (Some ["a"; "b"; "c"])))
    as [rows [E _]].
  - intros names [= <-]. reflexivity.
  - rewrite E. vm_compute in E. injection E as <-. reflexivity.
Defined.
